(** * Kudos views: a shallow embedding of [app/kudos/views.py]

    The views of the Kudos application are Django request handlers: they
    read and write database rows through the ORM, call a few collaborators
    (mailer, chain node, activity log) and either return a response or raise.
    They are embedded here as computations in a state-and-exception monad over
    a world made of the database tables and a trace of observable events. *)

From Stdlib Require Import ZArith List String Ascii Bool Lia DecimalString.
Import ListNotations.
Open Scope string_scope.
Open Scope Z_scope.
Open Scope list_scope.

Set Implicit Arguments.
Set Warnings "-register-all".

(** ** Python values

    The values that travel through the views: what [json.loads] produces,
    what model attributes hold, what the query string carries.  JSON numbers
    are restricted to integers; characters are code points below 256. *)

Inductive pyval : Type :=
| PNone
| PBool (b : bool)
| PInt (z : Z)
| PStr (s : string)
| PList (l : list pyval)
| PDict (d : list (string * pyval)).

(** Truth value testing ([if x:], [not x], [x and y], [x or y]). *)
Definition truthy (v : pyval) : bool :=
  match v with
  | PNone => false
  | PBool b => b
  | PInt z => negb (z =? 0)
  | PStr s => negb (String.eqb s "")
  | PList l => match l with [] => false | _ => true end
  | PDict d => match d with [] => false | _ => true end
  end.

Definition py_and (a b : pyval) : pyval := if truthy a then b else a.
Definition py_or (a b : pyval) : pyval := if truthy a then a else b.

(** Lookup in an association list (first binding wins). *)
Fixpoint assoc {A : Type} (k : string) (d : list (string * A)) : option A :=
  match d with
  | [] => None
  | (k', v) :: d' => if String.eqb k k' then Some v else assoc k d'
  end.

(** Equality of values.  With [cross = true] this is Python's [==], where
    booleans are the integers 0 and 1; with [cross = false] it is the
    equality of JSON documents used by the database.  Dictionaries compare
    without regard to the order of their keys. *)
Fixpoint val_eqb (cross : bool) (a b : pyval) {struct a} : bool :=
  match a, b with
  | PNone, PNone => true
  | PBool x, PBool y => Bool.eqb x y
  | PBool x, PInt y => cross && (Z.b2z x =? y)
  | PInt x, PBool y => cross && (x =? Z.b2z y)
  | PInt x, PInt y => x =? y
  | PStr x, PStr y => String.eqb x y
  | PList xs, PList ys =>
      (fix go (xs ys : list pyval) {struct xs} : bool :=
         match xs, ys with
         | [], [] => true
         | x :: xs', y :: ys' => val_eqb cross x y && go xs' ys'
         | _, _ => false
         end) xs ys
  | PDict d1, PDict d2 =>
      Nat.eqb (List.length d1) (List.length d2) &&
      (fix go (d : list (string * pyval)) {struct d} : bool :=
         match d with
         | [] => true
         | (k, v) :: d' =>
             match assoc k d2 with
             | Some v' => val_eqb cross v v'
             | None => false
             end && go d'
         end) d1
  | _, _ => false
  end.

Definition py_eqb : pyval -> pyval -> bool := val_eqb true.
Definition json_eqb : pyval -> pyval -> bool := val_eqb false.

(** [x in [a, b, ...]] *)
Definition py_in (x : pyval) (l : list pyval) : bool := existsb (py_eqb x) l.

(** ** Strings *)

Definition is_digit (c : ascii) : bool :=
  let n := nat_of_ascii c in (48 <=? n)%nat && (n <=? 57)%nat.

(** [re.match(r'\d+', s)]: the pattern is tried at the start of [s] and
    takes as many digits as there are; the answer is the matched text, or
    [None] when not even one digit could be taken. *)
Fixpoint take_digits (s : string) : string :=
  match s with
  | EmptyString => EmptyString
  | String c s' => if is_digit c then String c (take_digits s') else EmptyString
  end.

Definition re_match_digits (s : string) : option string :=
  match take_digits s with
  | EmptyString => None
  | m => Some m
  end.

(** [s.lstrip('@')] *)
Fixpoint lstrip_at (s : string) : string :=
  match s with
  | String "@"%char s' => lstrip_at s'
  | _ => s
  end.

(** [s.replace('@', '')] *)
Fixpoint replace_at (s : string) : string :=
  match s with
  | EmptyString => EmptyString
  | String c s' => if Ascii.eqb c "@"%char then replace_at s' else String c (replace_at s')
  end.

(** *** [int(s)] on a string

    Surrounding white space is dropped, one sign is allowed, and the digits
    may be separated by single underscores.  The white space [int] drops is
    the characters 9 to 13, the space, and of the code points above 127 the
    next-line control (133) and the no-break space (160); the separators 28
    to 31 are not dropped. *)
Definition is_space (c : ascii) : bool :=
  let n := nat_of_ascii c in
  ((9 <=? n) && (n <=? 13) || (n =? 32) || (n =? 133) || (n =? 160))%nat.

Fixpoint lstrip_space (s : string) : string :=
  match s with
  | String c s' => if is_space c then lstrip_space s' else s
  | EmptyString => EmptyString
  end.

Fixpoint rev_string (acc s : string) : string :=
  match s with
  | EmptyString => acc
  | String c s' => rev_string (String c acc) s'
  end.

Definition strip_space (s : string) : string :=
  rev_string "" (lstrip_space (rev_string "" (lstrip_space s))).

Definition digit_val (c : ascii) : Z := Z.of_nat (nat_of_ascii c) - 48.

(** [digits acc after_digit s]: reads [s] as digits with single underscores
    between them; [after_digit] tells whether the previous character was a
    digit (an underscore is allowed only there, and not at the end). *)
Fixpoint digits (acc : Z) (after_digit : bool) (s : string) : option Z :=
  match s with
  | EmptyString => if after_digit then Some acc else None
  | String c s' =>
      if is_digit c then digits (10 * acc + digit_val c) true s'
      else if Ascii.eqb c "_"%char && after_digit then digits acc false s'
      else None
  end.

Definition int_of_string (s : string) : option Z :=
  match strip_space s with
  | String "-"%char s' => option_map Z.opp (digits 0 false s')
  | String "+"%char s' => digits 0 false s'
  | s' => digits 0 false s'
  end.

(** ** Exceptions and responses *)

Inductive exn : Type :=
| Http404
| ValueError (msg : string)
| TypeError (msg : string)
| KeyError (key : string)
| AttributeError (msg : string)
| DoesNotExist (model : string)
| MultipleObjectsReturned (model : string)
| DatabaseError (msg : string)
| ValidationError (msg : string)
| ExternalError (msg : string).

Inductive Res (A : Type) : Type :=
| Ok (a : A)
| Raise (e : exn).
Arguments Ok {A} a.
Arguments Raise {A} e.

(** [str(e)] as shown to the user; a [KeyError] prints the quoted key. *)
Definition exn_str (e : exn) : string :=
  match e with
  | Http404 => ""
  | ValueError m | TypeError m | AttributeError m | ExternalError m => m
  | DatabaseError m | ValidationError m => m
  | KeyError k => String.append "'" (String.append k "'")
  | DoesNotExist m => String.append m " matching query does not exist."
  | MultipleObjectsReturned m => String.append "get() returned more than one " m
  end.

(** [int(v)], as applied to a value compared with an integer primary key. *)
Definition py_int (v : pyval) : Res Z :=
  match v with
  | PInt z => Ok z
  | PBool b => Ok (Z.b2z b)
  | PStr s =>
      match int_of_string s with
      | Some z => Ok z
      | None => Raise (ValueError "invalid literal for int() with base 10")
      end
  | _ => Raise (TypeError "int() argument must be a string, a bytes-like object or a number")
  end.

(** [d[k]] and [d.get(k, default)] on the result of [json.loads]. *)
Definition py_getitem (d : pyval) (k : string) : Res pyval :=
  match d with
  | PDict kv =>
      match assoc k kv with
      | Some v => Ok v
      | None => Raise (KeyError k)
      end
  | _ => Raise (TypeError "object is not subscriptable with a string key")
  end.

Definition py_get (d : pyval) (k : string) (default : pyval) : Res pyval :=
  match d with
  | PDict kv =>
      match assoc k kv with
      | Some v => Ok v
      | None => Ok default
      end
  | _ => Raise (AttributeError "object has no attribute 'get'")
  end.

(** A string method called on a value: only strings have it. *)
Definition str_method (f : string -> string) (meth : string) (v : pyval) : Res pyval :=
  match v with
  | PStr s => Ok (PStr (f s))
  | _ => Raise (AttributeError (String.append "object has no attribute " meth))
  end.

(** [request.GET.get(k)] and [request.GET[k]] on the query string. *)
Definition GET_get (q : list (string * string)) (k : string) : pyval :=
  match assoc k q with
  | Some v => PStr v
  | None => PNone
  end.

Definition GET_getitem (q : list (string * string)) (k : string) : Res pyval :=
  match assoc k q with
  | Some v => Ok (PStr v)
  | None => Raise (KeyError k)
  end.

(** ** Model rows

    Each model is a record of the columns the views touch; a column holds
    the Python value assigned to it.  Whether the database takes the values
    of a transfer row is asked of the database when the row is written (see
    [KudosTransfer_columns] below). *)

Module Contract.
Record t : Type := { address : pyval; network : pyval; is_latest : pyval }.
End Contract.

Module Token.
Record t : Type := {
  pk : Z;
  token_id : pyval;
  name : pyval;
  description : pyval;
  num_clones_allowed : pyval;
  num_clones_in_wild : pyval;
  cloned_from_id : pyval;
  owner_address : pyval;
  contract : Contract.t;
  hidden : pyval;
  created_on : Z;
  (* attribute added by the detail view; absent on a row as loaded *)
  num_gen0_clones_allowed : option pyval
}.

Definition set_num_clones_in_wild (v : pyval) (k : t) : t :=
  {| pk := pk k; token_id := token_id k; name := name k; description := description k;
     num_clones_allowed := num_clones_allowed k; num_clones_in_wild := v;
     cloned_from_id := cloned_from_id k; owner_address := owner_address k;
     contract := contract k; hidden := hidden k; created_on := created_on k;
     num_gen0_clones_allowed := num_gen0_clones_allowed k |}.

Definition set_num_gen0_clones_allowed (v : pyval) (k : t) : t :=
  {| pk := pk k; token_id := token_id k; name := name k; description := description k;
     num_clones_allowed := num_clones_allowed k; num_clones_in_wild := num_clones_in_wild k;
     cloned_from_id := cloned_from_id k; owner_address := owner_address k;
     contract := contract k; hidden := hidden k; created_on := created_on k;
     num_gen0_clones_allowed := Some v |}.
End Token.

Module Profile.
Record t : Type := {
  pk : Z;
  handle : pyval;
  created_on : Z;
  preferred_payout_address : pyval
}.

Definition set_preferred_payout_address (v : pyval) (p : t) : t :=
  {| pk := pk p; handle := handle p; created_on := created_on p;
     preferred_payout_address := v |}.
End Profile.

Module KudosTransfer.
Record t : Type := {
  pk : Z;
  web3_type : pyval;
  emails : pyval;
  kudos_token_cloned_from : Z;
  amount : pyval;
  comments_public : pyval;
  ip : pyval;
  github_url : pyval;
  from_name : pyval;
  from_email : pyval;
  from_username : pyval;
  username : pyval;
  network : pyval;
  tokenAddress : pyval;
  from_address : pyval;
  is_for_bounty_fulfiller : pyval;
  metadata : pyval;
  recipient_profile : option Z;
  sender_profile : option Z;
  txid : pyval;
  receive_txid : pyval;
  receive_address : pyval;
  received_on : pyval;
  trust_url : pyval
}.

Definition set_txid (v : pyval) (k : t) : t :=
  {| pk := pk k; web3_type := web3_type k; emails := emails k;
     kudos_token_cloned_from := kudos_token_cloned_from k; amount := amount k;
     comments_public := comments_public k; ip := ip k; github_url := github_url k;
     from_name := from_name k; from_email := from_email k;
     from_username := from_username k; username := username k; network := network k;
     tokenAddress := tokenAddress k; from_address := from_address k;
     is_for_bounty_fulfiller := is_for_bounty_fulfiller k; metadata := metadata k;
     recipient_profile := recipient_profile k; sender_profile := sender_profile k;
     txid := v; receive_txid := receive_txid k; receive_address := receive_address k;
     received_on := received_on k; trust_url := trust_url k |}.

Definition set_receive_txid (v : pyval) (k : t) : t :=
  {| pk := pk k; web3_type := web3_type k; emails := emails k;
     kudos_token_cloned_from := kudos_token_cloned_from k; amount := amount k;
     comments_public := comments_public k; ip := ip k; github_url := github_url k;
     from_name := from_name k; from_email := from_email k;
     from_username := from_username k; username := username k; network := network k;
     tokenAddress := tokenAddress k; from_address := from_address k;
     is_for_bounty_fulfiller := is_for_bounty_fulfiller k; metadata := metadata k;
     recipient_profile := recipient_profile k; sender_profile := sender_profile k;
     txid := txid k; receive_txid := v; receive_address := receive_address k;
     received_on := received_on k; trust_url := trust_url k |}.

Definition set_receive_address (v : pyval) (k : t) : t :=
  {| pk := pk k; web3_type := web3_type k; emails := emails k;
     kudos_token_cloned_from := kudos_token_cloned_from k; amount := amount k;
     comments_public := comments_public k; ip := ip k; github_url := github_url k;
     from_name := from_name k; from_email := from_email k;
     from_username := from_username k; username := username k; network := network k;
     tokenAddress := tokenAddress k; from_address := from_address k;
     is_for_bounty_fulfiller := is_for_bounty_fulfiller k; metadata := metadata k;
     recipient_profile := recipient_profile k; sender_profile := sender_profile k;
     txid := txid k; receive_txid := receive_txid k; receive_address := v;
     received_on := received_on k; trust_url := trust_url k |}.

Definition set_received_on (v : pyval) (k : t) : t :=
  {| pk := pk k; web3_type := web3_type k; emails := emails k;
     kudos_token_cloned_from := kudos_token_cloned_from k; amount := amount k;
     comments_public := comments_public k; ip := ip k; github_url := github_url k;
     from_name := from_name k; from_email := from_email k;
     from_username := from_username k; username := username k; network := network k;
     tokenAddress := tokenAddress k; from_address := from_address k;
     is_for_bounty_fulfiller := is_for_bounty_fulfiller k; metadata := metadata k;
     recipient_profile := recipient_profile k; sender_profile := sender_profile k;
     txid := txid k; receive_txid := receive_txid k; receive_address := receive_address k;
     received_on := v; trust_url := trust_url k |}.

Definition set_pk (v : Z) (k : t) : t :=
  {| pk := v; web3_type := web3_type k; emails := emails k;
     kudos_token_cloned_from := kudos_token_cloned_from k; amount := amount k;
     comments_public := comments_public k; ip := ip k; github_url := github_url k;
     from_name := from_name k; from_email := from_email k;
     from_username := from_username k; username := username k; network := network k;
     tokenAddress := tokenAddress k; from_address := from_address k;
     is_for_bounty_fulfiller := is_for_bounty_fulfiller k; metadata := metadata k;
     recipient_profile := recipient_profile k; sender_profile := sender_profile k;
     txid := txid k; receive_txid := receive_txid k; receive_address := receive_address k;
     received_on := received_on k; trust_url := trust_url k |}.
End KudosTransfer.

Module BulkTransferCoupon.
Record t : Type := { pk : Z; secret : pyval }.
End BulkTransferCoupon.

Module BulkTransferRedemption.
Record t : Type := { pk : Z; redeemed_by : Z; coupon : Z }.
End BulkTransferRedemption.

Module Activity.
Record t : Type := {
  pk : Z;
  activity_type : string;
  kudos_transfer : Z;
  metadata : pyval;
  profile : option Z;
  bounty : option pyval
}.
End Activity.

(** ** Requests *)

Module User.
Record t : Type := {
  is_authenticated : bool;
  username : pyval;
  email : pyval;
  (* the outcome of reading [user.profile]: an [AttributeError] when the
     attribute is missing (anonymous user, no linked row), else its value *)
  profile : Res (option Profile.t)
}.
End User.

Module Request.
Record t : Type := {
  user : User.t;
  (* what [get_ip(request)] answers *)
  ip : pyval;
  (* what [json.loads(request.body)] answers; [None] when the body is not JSON *)
  body : option pyval;
  GET : list (string * string);
  full_path : string
}.
End Request.

(** ** The world: database tables and a trace of events *)

Record DB : Type := {
  tokens : list Token.t;
  profiles : list Profile.t;
  kudos_transfers : list KudosTransfer.t;
  coupons : list BulkTransferCoupon.t;
  redemptions : list BulkTransferRedemption.t;
  activities : list Activity.t
}.

Inductive Event : Type :=
| EvQuery (model : string)
| EvWrite (model : string) (row_pk : Z)
| EvMessage (level : string) (text : string)
| EvLog (level : string) (text : string)
| EvNotify (transfer : KudosTransfer.t)
| EvUserAction (who : pyval) (action : string) (transfer : KudosTransfer.t)
| EvChainQuery (net : pyval) (addr : pyval).

(** The trace lists events latest first. *)
Record World : Type := { db : DB; trace : list Event }.

(** Computations: a state [S] is threaded through, and an exception ends
    the computation with the state as it was when it was raised. *)
Definition St (S A : Type) : Type := S -> Res A * S.

Definition ret {S A : Type} (a : A) : St S A := fun s => (Ok a, s).

Definition bind {S A B : Type} (m : St S A) (k : A -> St S B) : St S B :=
  fun s =>
    match m s with
    | (Ok a, s') => k a s'
    | (Raise e, s') => (Raise e, s')
    end.

Definition raise {S A : Type} (e : exn) : St S A := fun s => (Raise e, s).

(** [try: m except Exception as e: h e] *)
Definition try_except {S A : Type} (m : St S A) (h : exn -> St S A) : St S A :=
  fun s =>
    match m s with
    | (Ok a, s') => (Ok a, s')
    | (Raise e, s') => h e s'
    end.

Definition lift {S A : Type} (r : Res A) : St S A := fun s => (r, s).

Declare Scope py_scope.
Delimit Scope py_scope with py.
Notation "x <- c ;; k" := (bind c (fun x => k))
  (at level 100, c at next level, right associativity) : py_scope.
Notation "c ;;; k" := (bind c (fun _ => k))
  (at level 100, right associativity) : py_scope.
Open Scope py_scope.

(** A view runs over the world. *)
Definition M (A : Type) : Type := St World A.

Definition emit (e : Event) : M unit :=
  fun w => (Ok tt, {| db := db w; trace := e :: trace w |}).

Definition get_db : M DB := fun w => (Ok (db w), w).

Definition put_db (d : DB) : M unit :=
  fun w => (Ok tt, {| db := d; trace := trace w |}).

(** A block of a view that also assigns to a local object of type [L]. *)
Definition with_local {L A : Type} (m : M A) : St (L * World) A :=
  fun s =>
    match m (snd s) with
    | (r, w') => (r, (fst s, w'))
    end.

Definition get_local {L : Type} : St (L * World) L := fun s => (Ok (fst s), s).

Definition assign {L : Type} (f : L -> L) : St (L * World) unit :=
  fun s => (Ok tt, (f (fst s), snd s)).

(** [raise C] where [C] is a response class: such a class does not derive
    from [BaseException], so the interpreter raises [TypeError] in its place. *)
Definition raise_response_class {A : Type} (cls : string) : M A :=
  raise (TypeError "exceptions must derive from BaseException").

(** ** Responses *)

Inductive ctxval : Type :=
| CVal (v : pyval)
| CToken (k : Token.t)
| CProfiles (l : list Profile.t)
| CTransfer (k : KudosTransfer.t)
| CCoupon (c : option BulkTransferCoupon.t).

Inductive Response : Type :=
| TemplateResponse (template : string) (context : list (string * ctxval))
| JsonResponse (data : list (string * pyval)) (status : Z)
| HttpResponseRedirect (url : string).

(** ** Collaborators

    What the views import from the rest of the platform and from libraries:
    each is given by the answer it returns, or the exception it raises. *)

Record Externals : Type := {
  (* settings.KUDOS_NETWORK *)
  KUDOS_NETWORK : pyval;
  (* str(v), as used in f-strings and by character columns *)
  py_str : pyval -> string;
  (* static(path) *)
  static : string -> pyval;
  (* timezone.now() *)
  now : pyval;
  (* dashboard.notifications *)
  maybe_market_kudos_to_email : KudosTransfer.t -> Res pyval;
  (* dashboard.utils.get_web3(network) and, on its answer,
     .eth.getBalance(Web3.toChecksumAddress(address)) *)
  get_web3 : pyval -> Res pyval;
  getBalance : pyval -> pyval -> Res pyval;
  (* dashboard.views *)
  record_user_action : pyval -> string -> KudosTransfer.t -> Res unit;
  (* git.utils *)
  get_emails_master : pyval -> Res (list pyval);
  get_github_primary_email : pyval -> Res pyval;
  (* profile.get_access_token() *)
  get_access_token : Profile.t -> Res pyval;
  (* eth_utils: [is_address(x) is not False] and [to_normalized_address(x)] *)
  is_address : pyval -> bool;
  to_normalized_address : pyval -> Res pyval;
  (* gas.utils: round(recommend_min_gas_price_to_confirm_in_time(120), 1) *)
  gas_price : pyval;
  (* properties of the Token model *)
  humanized_name : Token.t -> pyval;
  img_url : Token.t -> pyval;
  (* properties of the KudosTransfer model; [bounty] answers [None] when
     the access raises KudosTransfer.DoesNotExist *)
  tokenName : KudosTransfer.t -> pyval;
  value_in_eth : KudosTransfer.t -> pyval;
  value_in_usdt_now : KudosTransfer.t -> pyval;
  bounty : KudosTransfer.t -> option pyval;
  (* column defaults of a new KudosTransfer row *)
  KudosTransfer_defaults : KudosTransfer.t;
  (* the columns of the KudosTransfer table (dashboard and kudos models): the
     answer of the database to a write of these values.  A write that a
     column refuses (NULL in a NOT NULL column, an amount that is no decimal,
     a text that is too long) raises, and nothing is written *)
  KudosTransfer_columns : KudosTransfer.t -> Res unit;
  (* UPPER of the database, which the [iexact] lookup applies to both sides;
     the letters it folds are those of the locale of the database *)
  db_upper : string -> string
}.

(** ** The ORM *)

Definition is_none (v : pyval) : bool :=
  match v with PNone => true | _ => false end.

(** [column=value] (the [exact] lookup); a [None] value asks for NULL. *)
Definition db_exact (column value : pyval) : bool :=
  match value with
  | PNone => is_none column
  | _ => json_eqb column value
  end.

(** [column__key=value] on a JSON column. *)
Definition json_key_exact (column : pyval) (key : string) (value : pyval) : bool :=
  match column with
  | PDict d =>
      match assoc key d with
      | Some v => json_eqb v value
      | None => false
      end
  | _ => false
  end.

(** [.get()] on the rows a query selects. *)
Definition qs_get {A : Type} (model : string) (rows : list A) : Res A :=
  match rows with
  | [] => Raise (DoesNotExist model)
  | [x] => Ok x
  | _ => Raise (MultipleObjectsReturned model)
  end.

(** [.first()] on rows ordered by [key], smallest first. *)
Fixpoint qs_first {A : Type} (key : A -> Z) (rows : list A) : option A :=
  match rows with
  | [] => None
  | x :: rest =>
      match qs_first key rest with
      | Some y => if key y <? key x then Some y else Some x
      | None => Some x
      end
  end.

Definition next_pk {A : Type} (pk : A -> Z) (rows : list A) : Z :=
  fold_right (fun r acc => Z.max (pk r + 1) acc) 1 rows.

(** [row.save()]: the row with the same primary key is replaced; a row
    with a new key is added. *)
Definition save_row {A : Type} (pk : A -> Z) (r : A) (rows : list A) : list A :=
  if existsb (fun x => pk x =? pk r) rows
  then map (fun x => if pk x =? pk r then r else x) rows
  else rows ++ [r].

Definition set_kudos_transfers (l : list KudosTransfer.t) (d : DB) : DB :=
  {| tokens := tokens d; profiles := profiles d; kudos_transfers := l;
     coupons := coupons d; redemptions := redemptions d; activities := activities d |}.

Definition set_profiles (l : list Profile.t) (d : DB) : DB :=
  {| tokens := tokens d; profiles := l; kudos_transfers := kudos_transfers d;
     coupons := coupons d; redemptions := redemptions d; activities := activities d |}.

Definition set_activities (l : list Activity.t) (d : DB) : DB :=
  {| tokens := tokens d; profiles := profiles d; kudos_transfers := kudos_transfers d;
     coupons := coupons d; redemptions := redemptions d; activities := l |}.

Definition Profile_save (p : Profile.t) : M unit :=
  d <- get_db ;;
  put_db (set_profiles (save_row Profile.pk p (profiles d)) d) ;;;
  emit (EvWrite "Profile" (Profile.pk p)).

(** [Token.objects.get(pk=v)]: the value is first turned into an integer. *)
Definition Token_get_pk (v : pyval) : M Token.t :=
  match v with
  | PNone => emit (EvQuery "Token") ;;; raise (DoesNotExist "Token")
  | _ =>
      z <- lift (py_int v) ;;
      emit (EvQuery "Token") ;;;
      d <- get_db ;;
      lift (qs_get "Token" (filter (fun k => Token.pk k =? z) (tokens d)))
  end.

(** [get_object_or_404(Token, pk=v)] *)
Definition get_Token_or_404 (v : pyval) : M Token.t :=
  try_except (Token_get_pk v)
    (fun e =>
       match e with
       | DoesNotExist _ => raise Http404
       | _ => raise e
       end).

Section Views.

Variable E : Externals.

(** [kudos_transfer.save()]: the database checks the values against the
    columns; the row with the same primary key is then replaced. *)
Definition KudosTransfer_save (k : KudosTransfer.t) : M unit :=
  lift (KudosTransfer_columns E k) ;;;
  d <- get_db ;;
  put_db (set_kudos_transfers (save_row KudosTransfer.pk k (kudos_transfers d)) d) ;;;
  emit (EvWrite "KudosTransfer" (KudosTransfer.pk k)).

(** [handle__iexact=value] on a character column, for a text [value]: the
    database compares UPPER(column) with UPPER(value). *)
Definition handle_iexact (column : pyval) (value : string) : bool :=
  match column with
  | PStr c => String.eqb (db_upper E c) (db_upper E value)
  | _ => false
  end.

(** The rows of [Profile.objects.filter(handle__iexact=handle)].  [None]
    asks for the rows without a handle (the lookup becomes IS NULL).  A
    value that is no text is passed to UPPER as it is, and the database
    refuses the query. *)
Definition profiles_iexact (handle : pyval) (d : DB) : Res (list Profile.t) :=
  match handle with
  | PStr h => Ok (filter (fun p => handle_iexact (Profile.handle p) h) (profiles d))
  | PNone => Ok (filter (fun p => is_none (Profile.handle p)) (profiles d))
  | _ => Raise (DatabaseError "function upper does not exist")
  end.

(** views.py, lines 59-75 *)
Definition get_profile (handle : pyval) : M (option Profile.t) :=
  try_except
    (emit (EvQuery "Profile") ;;;
     d <- get_db ;;
     rows <- lift (profiles_iexact handle d) ;;
     p <- lift (qs_get "Profile" rows) ;;
     ret (Some p))
    (fun e =>
       match e with
       | MultipleObjectsReturned _ =>
           emit (EvQuery "Profile") ;;;
           d <- get_db ;;
           rows <- lift (profiles_iexact handle d) ;;
           ret (qs_first (fun p => - Profile.created_on p) rows)
       | DoesNotExist _ => ret None
       | _ => raise e
       end).

(** [messages.info], [messages.error], [messages.success] and the logger. *)
Definition message (level text : string) : M unit := emit (EvMessage level text).
Definition log (level text : string) : M unit := emit (EvLog level text).

(** [json.loads(request.body)] *)
Definition json_loads (request : Request.t) : M pyval :=
  match Request.body request with
  | Some v => ret v
  | None => raise (ValueError "Expecting value")
  end.

(** Evaluates [f] on each element in turn, as a list comprehension does. *)
Fixpoint for_each {A B : Type} (f : A -> M B) (l : list A) : M (list B) :=
  match l with
  | [] => ret []
  | x :: rest =>
      y <- f x ;;
      ys <- for_each f rest ;;
      ret (y :: ys)
  end.

(** [column__in=values]: [None] entries of the list are dropped. *)
Definition db_in (column : pyval) (values : list pyval) : bool :=
  existsb (fun v => negb (is_none v) && json_eqb column v) values.

(** The rows selected by [token_id=kudos.cloned_from_id,
    contract__address=kudos.contract.address] (lines 213-216). *)
Definition cloned_from (kudos k : Token.t) : bool :=
  db_exact (Token.token_id k) (Token.cloned_from_id kudos)
  && db_exact (Contract.address (Token.contract k)) (Contract.address (Token.contract kudos)).

(** views.py, lines 180-228: what the detail view does with the token it
    has found.  The [related_profiles] query is lazy: it runs when the
    template is rendered, so last. *)
Definition details_render (kudos : Token.t) : M Response :=
  emit (EvQuery "Token") ;;;
  d <- get_db ;;
  let related_kudos :=
    filter (fun rk =>
              db_exact (Token.name rk) (Token.name kudos)
              && db_exact (Token.num_clones_allowed rk) (PInt 0)
              && db_exact (Contract.network (Token.contract rk)) (KUDOS_NETWORK E))
           (tokens d) in
  owner_addresses <-
    for_each (fun rk =>
                if is_address E (Token.owner_address rk)
                then lift (to_normalized_address E (Token.owner_address rk))
                else ret PNone)
             related_kudos ;;
  (* [if kudos:] a model instance is always true *)
  emit (EvQuery "Token") ;;;
  d <- get_db ;;
  token <- lift (qs_get "Token" (filter (cloned_from kudos) (tokens d))) ;;
  let kudos := Token.set_num_clones_in_wild (Token.num_clones_in_wild token) kudos in
  let kudos := Token.set_num_gen0_clones_allowed (Token.num_clones_allowed token) kudos in
  emit (EvQuery "Profile") ;;;
  d <- get_db ;;
  let related_profiles :=
    firstn 20 (filter (fun p => db_in (Profile.preferred_payout_address p) owner_addresses)
                      (profiles d)) in
  ret (TemplateResponse "kudos_details.html"
         [ ("is_outside", CVal (PBool true));
           ("active", CVal (PStr "details"));
           ("title", CVal (humanized_name E kudos));
           ("card_title", CVal (humanized_name E kudos));
           ("card_desc", CVal (Token.description kudos));
           ("avatar_url", CVal (img_url E kudos));
           ("kudos", CToken kudos);
           ("related_profiles", CProfiles related_profiles) ]).

(** views.py, lines 173-179, then [details_render]. *)
Definition details (request : Request.t) (kudos_id name : string) : M Response :=
  match re_match_digits kudos_id with
  | None =>
      raise (ValueError (String.append "Invalid Kudos ID found.  ID is not a number:  " kudos_id))
  | Some _ =>
      kudos <- get_Token_or_404 (PStr kudos_id) ;;
      details_render kudos
  end.

(** [list(set(l))]: the elements must be hashable; duplicates are dropped
    (the order of the result is the order of first occurrence here). *)
Definition hashable (v : pyval) : bool :=
  match v with
  | PList _ | PDict _ => false
  | _ => true
  end.

Fixpoint dedup (l : list pyval) : list pyval :=
  match l with
  | [] => []
  | x :: rest => x :: filter (fun y => negb (py_eqb x y)) (dedup rest)
  end.

Definition list_set (l : list pyval) : Res (list pyval) :=
  if forallb hashable l then Ok (dedup l) else Raise (TypeError "unhashable type").

(** [KudosTransfer.objects.create(...)]: the database checks the values
    against the columns, then adds the row under a new primary key. *)
Definition KudosTransfer_create (k : KudosTransfer.t) : M unit :=
  lift (KudosTransfer_columns E k) ;;;
  d <- get_db ;;
  let k := KudosTransfer.set_pk (next_pk KudosTransfer.pk (kudos_transfers d)) k in
  put_db (set_kudos_transfers (kudos_transfers d ++ [k]) d) ;;;
  emit (EvWrite "KudosTransfer" (KudosTransfer.pk k)).

(** [request.user.profile] *)
Definition user_profile (request : Request.t) : M (option Profile.t) :=
  lift (User.profile (Request.user request)).

(** views.py, lines 321-342: what [send_3] reads from the session and the
    body before it looks at the token: the parsed body, the name of the
    sender, the name of the recipient and the list of recipient emails. *)
Definition send_3_inputs (request : Request.t) : M (pyval * pyval * pyval * list pyval) :=
  let is_user_authenticated := User.is_authenticated (Request.user request) in
  let from_username :=
    if is_user_authenticated then User.username (Request.user request) else PStr "" in
  access_token <-
    (if is_user_authenticated then
       p <- user_profile request ;;
       match p with
       | Some _ =>
           p' <- user_profile request ;;
           match p' with
           | Some prof => lift (get_access_token E prof)
           | None => raise (AttributeError "'NoneType' object has no attribute 'get_access_token'")
           end
       | None => ret (PStr "")
       end
     else ret (PStr "")) ;;
  params <- json_loads request ;;
  u <- lift (py_get params "username" (PStr "")) ;;
  to_username <- lift (str_method lstrip_at "lstrip" u) ;;
  to_emails <- lift (get_emails_master E to_username) ;;
  email <- lift (py_get params "email" PNone) ;;
  let to_emails := if truthy email then to_emails ++ [email] else to_emails in
  primary_from_email <- lift (py_get params "fromEmail" PNone) ;;
  primary_from_email <-
    (if truthy access_token && negb (truthy primary_from_email)
     then lift (get_github_primary_email E access_token)
     else ret primary_from_email) ;;
  to_emails <- lift (list_set to_emails) ;;
  ret (params, from_username, to_username, to_emails).

(** [Token.objects.get(pk=kudos_id)] under [except Token.DoesNotExist: raise Http404]
    (lines 349-352). *)
Definition send_3_token (kudos_id : pyval) : M Token.t :=
  try_except (Token_get_pk kudos_id)
    (fun e =>
       match e with
       | DoesNotExist _ => raise Http404
       | _ => raise e
       end).

(** views.py, lines 305-376 *)
Definition send_3 (request : Request.t) : M Response :=
  let response := [("status", PStr "OK"); ("message", PStr "Kudos Created")] in
  inputs <- send_3_inputs request ;;
  let '(params, from_username, to_username, to_emails) := inputs in
  kudos_id <- lift (py_get params "kudosId" PNone) ;;
  if negb (truthy kudos_id) then raise Http404
  else
    kudos_token_cloned_from <- send_3_token kudos_id ;;
    amount <- lift (py_getitem params "amount") ;;
    comments_public <- lift (py_getitem params "comments_public") ;;
    github_url <- lift (py_getitem params "github_url") ;;
    from_name <- lift (py_getitem params "from_name") ;;
    from_email <- lift (py_getitem params "from_email") ;;
    username <- lift (py_getitem params "username") ;;
    network <- lift (py_getitem params "network") ;;
    tokenAddress <- lift (py_getitem params "tokenAddress") ;;
    from_address <- lift (py_getitem params "from_address") ;;
    is_for_bounty_fulfiller <- lift (py_getitem params "is_for_bounty_fulfiller") ;;
    metadata <- lift (py_getitem params "metadata") ;;
    recipient_profile <- get_profile to_username ;;
    sender_profile <- get_profile from_username ;;
    let dflt := KudosTransfer_defaults E in
    KudosTransfer_create
      {| KudosTransfer.pk := 0;
         KudosTransfer.web3_type := KudosTransfer.web3_type dflt;
         KudosTransfer.emails := PList to_emails;
         KudosTransfer.kudos_token_cloned_from := Token.pk kudos_token_cloned_from;
         KudosTransfer.amount := amount;
         KudosTransfer.comments_public := comments_public;
         KudosTransfer.ip := Request.ip request;
         KudosTransfer.github_url := github_url;
         KudosTransfer.from_name := from_name;
         KudosTransfer.from_email := from_email;
         KudosTransfer.from_username := from_username;
         KudosTransfer.username := username;
         KudosTransfer.network := network;
         KudosTransfer.tokenAddress := tokenAddress;
         KudosTransfer.from_address := from_address;
         KudosTransfer.is_for_bounty_fulfiller := is_for_bounty_fulfiller;
         KudosTransfer.metadata := metadata;
         KudosTransfer.recipient_profile := option_map Profile.pk recipient_profile;
         KudosTransfer.sender_profile := option_map Profile.pk sender_profile;
         KudosTransfer.txid := KudosTransfer.txid dflt;
         KudosTransfer.receive_txid := KudosTransfer.receive_txid dflt;
         KudosTransfer.receive_address := KudosTransfer.receive_address dflt;
         KudosTransfer.received_on := KudosTransfer.received_on dflt;
         KudosTransfer.trust_url := KudosTransfer.trust_url dflt |} ;;;
    ret (JsonResponse response 200).

(** [KudosTransfer.objects.get(metadata__address=..., metadata__creation_time=...,
    metadata__salt=...)] *)
Definition metadata_triple (address creation_time salt : pyval) (k : KudosTransfer.t) : bool :=
  json_key_exact (KudosTransfer.metadata k) "address" address
  && json_key_exact (KudosTransfer.metadata k) "creation_time" creation_time
  && json_key_exact (KudosTransfer.metadata k) "salt" salt.

Definition KudosTransfer_get_metadata (address creation_time salt : pyval)
  : M KudosTransfer.t :=
  emit (EvQuery "KudosTransfer") ;;;
  d <- get_db ;;
  lift (qs_get "KudosTransfer"
          (filter (metadata_triple address creation_time salt) (kudos_transfers d))).

(** The call of the notification sink. *)
Definition notify (k : KudosTransfer.t) : M pyval :=
  emit (EvNotify k) ;;;
  lift (maybe_market_kudos_to_email E k).

(** views.py, lines 381-424 *)
Definition send_4 (request : Request.t) : M Response :=
  let response := [("status", PStr "OK"); ("message", PStr "Kudos Sent")] in
  params <- json_loads request ;;
  let from_username := User.username (Request.user request) in
  txid <- lift (py_getitem params "txid") ;;
  destination_account <- lift (py_getitem params "destinationAccount") ;;
  is_direct_to_recipient <- lift (py_get params "is_direct_to_recipient" (PBool false)) ;;
  creation_time <- lift (py_getitem params "creation_time") ;;
  salt <- lift (py_getitem params "salt") ;;
  kudos_transfer <- KudosTransfer_get_metadata destination_account creation_time salt ;;
  let is_authenticated_via_login :=
    py_and (KudosTransfer.from_username kudos_transfer)
           (PBool (py_eqb (KudosTransfer.from_username kudos_transfer) from_username)) in
  let is_authenticated_for_this_via_ip :=
    PBool (py_eqb (KudosTransfer.ip kudos_transfer) (Request.ip request)) in
  let is_authed := py_or is_authenticated_for_this_via_ip is_authenticated_via_login in
  if negb (truthy is_authed) then
    ret (JsonResponse [("status", PStr "error"); ("message", PStr "Permission Denied")] 401)
  else
    let kudos_transfer := KudosTransfer.set_txid txid kudos_transfer in
    let kudos_transfer :=
      if truthy is_direct_to_recipient
      then KudosTransfer.set_receive_txid txid kudos_transfer
      else kudos_transfer in
    KudosTransfer_save kudos_transfer ;;;
    notify kudos_transfer ;;;
    ret (JsonResponse response 200).

(** [str(x) if x else None] *)
Definition str_or_none (v : pyval) : pyval :=
  if truthy v then PStr (py_str E v) else PNone.

Definition Activity_create (a : Activity.t) : M unit :=
  d <- get_db ;;
  let pk := next_pk Activity.pk (activities d) in
  put_db (set_activities
            (activities d ++
               [{| Activity.pk := pk;
                   Activity.activity_type := Activity.activity_type a;
                   Activity.kudos_transfer := Activity.kudos_transfer a;
                   Activity.metadata := Activity.metadata a;
                   Activity.profile := Activity.profile a;
                   Activity.bounty := Activity.bounty a |}]) d) ;;;
  emit (EvWrite "Activity" pk).

(** views.py, lines 427-457 *)
Definition record_kudos_email_activity
  (kudos_transfer : KudosTransfer.t) (github_handle : pyval) (event_name : string) : M unit :=
  let metadata :=
    PDict [ ("amount", PStr (py_str E (KudosTransfer.amount kudos_transfer)));
            ("token_name", tokenName E kudos_transfer);
            ("value_in_eth", PStr (py_str E (value_in_eth E kudos_transfer)));
            ("value_in_usdt_now", PStr (py_str E (value_in_usdt_now E kudos_transfer)));
            ("github_url", KudosTransfer.github_url kudos_transfer);
            ("to_username", KudosTransfer.username kudos_transfer);
            ("from_name", KudosTransfer.from_name kudos_transfer);
            ("received_on", str_or_none (KudosTransfer.received_on kudos_transfer)) ] in
  found <-
    try_except
      (emit (EvQuery "Profile") ;;;
       d <- get_db ;;
       p <- lift (qs_get "Profile"
                    (filter (fun p => db_exact (Profile.handle p) github_handle) (profiles d))) ;;
       ret (Some (Some p)))
      (fun e =>
         match e with
         | MultipleObjectsReturned _ =>
             emit (EvQuery "Profile") ;;;
             d <- get_db ;;
             rows <- lift (profiles_iexact github_handle d) ;;
             ret (Some (qs_first Profile.pk rows))
         | DoesNotExist _ =>
             log "error" "error in record_kudos_email_activity: profile not found" ;;;
             ret None
         | _ => raise e
         end) ;;
  match found with
  | None => ret tt
  | Some profile =>
      b <- match bounty E kudos_transfer with
           | Some b => ret (Some b)
           | None =>
               log "info" "No bounty is associated with this kudos transfer." ;;;
               ret None
           end ;;
      try_except
        (Activity_create
           {| Activity.pk := 0;
              Activity.activity_type := event_name;
              Activity.kudos_transfer := KudosTransfer.pk kudos_transfer;
              Activity.metadata := metadata;
              Activity.profile := option_map Profile.pk profile;
              Activity.bounty := b |})
        (fun e => log "error" (String.append "error in record_kudos_email_activity: " (exn_str e)))
  end.

(** The call of [record_user_action]. *)
Definition user_action (who : pyval) (action : string) (k : KudosTransfer.t) : M unit :=
  emit (EvUserAction who action k) ;;;
  lift (record_user_action E who action k).

(** [get_web3(network).eth.getBalance(Web3.toChecksumAddress(metadata['address']))] *)
Definition balance_of (k : KudosTransfer.t) : M pyval :=
  web3 <- lift (get_web3 E (KudosTransfer.network k)) ;;
  address <- lift (py_getitem (KudosTransfer.metadata k) "address") ;;
  emit (EvChainQuery (KudosTransfer.network k) address) ;;;
  lift (getBalance E web3 address).

(** Runs a block that assigns to the local object [l]; answers the block's
    result with the object as the block left it. *)
Definition run_local {L A : Type} (l : L) (m : St (L * World) A) : M (A * L) :=
  fun w =>
    match m (l, w) with
    | (Ok a, (l', w')) => (Ok (a, l'), w')
    | (Raise e, (_, w')) => (Raise e, w')
    end.

(** views.py, lines 499-514: the body of the [try] in [receive]. *)
Definition claim_mutation (request : Request.t) : St (KudosTransfer.t * World) unit :=
  let params := Request.GET request in
  save_addr <- lift (GET_getitem params "save_addr") ;;
  (if truthy save_addr then
     kudos_transfer <- get_local ;;
     profile <- with_local (get_profile (KudosTransfer.username kudos_transfer)) ;;
     match profile with
     | Some p =>
         forwarding_address <- lift (GET_getitem params "forwarding_address") ;;
         with_local (Profile_save (Profile.set_preferred_payout_address forwarding_address p))
     | None => ret tt
     end
   else ret tt) ;;;
  receive_txid <- lift (GET_getitem params "receive_txid") ;;
  assign (KudosTransfer.set_receive_txid receive_txid) ;;;
  forwarding_address <- lift (GET_getitem params "forwarding_address") ;;
  assign (KudosTransfer.set_receive_address forwarding_address) ;;;
  assign (KudosTransfer.set_received_on (now E)) ;;;
  kudos_transfer <- get_local ;;
  with_local (KudosTransfer_save kudos_transfer) ;;;
  with_local (user_action (KudosTransfer.from_username kudos_transfer) "receive_kudos"
                kudos_transfer) ;;;
  with_local (record_kudos_email_activity kudos_transfer
                (KudosTransfer.username kudos_transfer) "receive_kudos") ;;;
  with_local (message "success" "This kudos has been received").

(** views.py, lines 515-517: the [except Exception as e] of [receive]. *)
Definition claim_except (e : exn) : St (KudosTransfer.t * World) unit :=
  with_local (message "error" (exn_str e)) ;;;
  with_local (log "exception" (exn_str e)).

Definition dquote : string := String (ascii_of_nat 34) EmptyString.

Definition still_mining_text (txid : string) : string :=
  String.concat ""
    [ "The <a href="; dquote; "https://etherscan.io/tx/"; txid; dquote;
      ">transaction</a> is still mining.  ";
      "Please wait a moment before submitting the receive form." ].

Definition wrong_user_text (k : KudosTransfer.t) (request : Request.t) : string :=
  String.concat ""
    [ "This kudos is for "; py_str E (KudosTransfer.username k);
      " but you are logged in as "; py_str E (User.username (Request.user request));
      ".  Please logout and log back in as "; py_str E (KudosTransfer.username k); "." ].

(** The rows [receive] selects (lines 467-469). *)
Definition claim_candidates (key txid network : string) (d : DB) : list KudosTransfer.t :=
  let these_kudos_emails :=
    filter (fun k =>
              db_exact (KudosTransfer.web3_type k) (PStr "v3")
              && db_exact (KudosTransfer.txid k) (PStr txid)
              && db_exact (KudosTransfer.network k) (PStr network))
           (kudos_transfers d) in
  filter (fun k =>
            json_key_exact (KudosTransfer.metadata k) "reference_hash_for_receipient" (PStr key)
            || json_key_exact (KudosTransfer.metadata k) "reference_hash_for_funder" (PStr key))
         these_kudos_emails.

(** [getattr(request.user, 'profile', None)] *)
Definition getattr_profile (request : Request.t) : option Profile.t :=
  match User.profile (Request.user request) with
  | Ok p => p
  | Raise _ => None
  end.

(** Lines 471-476: the two values computed before any guard. *)
Definition claim_checks (request : Request.t) (kudos_transfer : KudosTransfer.t)
  : M (pyval * bool) :=
  is_authed <-
    (if truthy (KudosTransfer.trust_url kudos_transfer)
     then ret (KudosTransfer.trust_url kudos_transfer)
     else
       u <- lift (str_method replace_at "replace" (User.username (Request.user request))) ;;
       a <- lift (str_method replace_at "replace" (KudosTransfer.username kudos_transfer)) ;;
       b <- lift (str_method replace_at "replace" (KudosTransfer.from_username kudos_transfer)) ;;
       ret (PBool (py_in u [a; b]))) ;;
  balance <- balance_of kudos_transfer ;;
  ret (is_authed, py_eqb balance (PInt 0)).

(** Lines 519-530: the page [receive] renders. *)
Definition receive_page (request : Request.t) (key : string) (kudos_transfer : KudosTransfer.t)
  (is_authed : pyval) (not_mined_yet : bool) : Response :=
  TemplateResponse "transaction/receive.html"
    [ ("issueURL", CVal (GET_get (Request.GET request) "source"));
      ("class", CVal (PStr "receive"));
      ("title", CVal (PStr "Receive Kudos"));
      ("gas_price", CVal (gas_price E));
      ("kudos_transfer", CTransfer kudos_transfer);
      ("key", CVal (PStr key));
      ("is_authed", CVal is_authed);
      ("disable_inputs",
        CVal (py_or (py_or (KudosTransfer.receive_txid kudos_transfer) (PBool not_mined_yet))
                    (PBool (negb (truthy is_authed))))) ].

(** views.py, lines 460-530 *)
Definition receive (request : Request.t) (key txid network : string) : M Response :=
  emit (EvQuery "KudosTransfer") ;;;
  d <- get_db ;;
  match qs_first KudosTransfer.pk (claim_candidates key txid network d) with
  | None => raise (AttributeError "'NoneType' object has no attribute 'trust_url'")
  | Some kudos_transfer =>
      checks <- claim_checks request kudos_transfer ;;
      let is_authed := fst checks in
      let not_mined_yet := snd checks in
      let is_authenticated := User.is_authenticated (Request.user request) in
      if negb is_authenticated
         || is_authenticated && negb (match getattr_profile request with Some _ => true | None => false end)
      then ret (HttpResponseRedirect (String.append "/login/github?next=" (Request.full_path request)))
      else
        kudos_transfer <-
          (if truthy (KudosTransfer.receive_txid kudos_transfer) then
             message "info" "This kudos has been received" ;;;
             ret kudos_transfer
           else if negb (truthy is_authed) then
             message "error" (wrong_user_text kudos_transfer request) ;;;
             ret kudos_transfer
           else if not_mined_yet && negb (truthy (GET_get (Request.GET request) "receive_txid")) then
             message "info" (still_mining_text txid) ;;;
             ret kudos_transfer
           else if truthy (GET_get (Request.GET request) "receive_txid")
                   && negb (truthy (KudosTransfer.receive_txid kudos_transfer)) then
             r <- run_local kudos_transfer
                    (try_except (claim_mutation request) claim_except) ;;
             ret (snd r)
           else ret kudos_transfer) ;;
        ret (receive_page request key kudos_transfer is_authed not_mined_yet)
  end.

(** views.py, lines 534-548 *)
Definition receive_bulk (request : Request.t) (secret : string) : M Response :=
  emit (EvQuery "BulkTransferCoupon") ;;;
  d <- get_db ;;
  let coupons := filter (fun c => db_exact (BulkTransferCoupon.secret c) (PStr secret)) (coupons d) in
  if negb (match coupons with [] => false | _ => true end) then raise Http404
  else
    emit (EvQuery "BulkTransferCoupon") ;;;
    let coupon := qs_first BulkTransferCoupon.pk coupons in
    profile <- user_profile request ;;
    emit (EvQuery "BulkTransferRedemption") ;;;
    d <- get_db ;;
    let redemptions :=
      filter (fun r =>
                match profile, coupon with
                | Some p, Some c =>
                    (BulkTransferRedemption.redeemed_by r =? Profile.pk p)
                    && (BulkTransferRedemption.coupon r =? BulkTransferCoupon.pk c)
                | _, _ => false
                end)
             (redemptions d) in
    if match redemptions with [] => false | _ => true end
    then raise_response_class "HttpResponseForbidden"
    else ret (TemplateResponse "transaction/receive_bulk.html" [("coupon", CCoupon coupon)]).

End Views.

(** ** Sample data

    A concrete platform state and a few requests, used to run the views. *)

Module Sample.

Definition str (v : pyval) : string :=
  match v with
  | PNone => "None"
  | PBool true => "True"
  | PBool false => "False"
  | PInt z => NilZero.string_of_int (Z.to_int z)
  | PStr s => s
  | PList _ => "[...]"
  | PDict _ => "{...}"
  end.

Definition blank_transfer : KudosTransfer.t :=
  {| KudosTransfer.pk := 0;
     KudosTransfer.web3_type := PStr "v3";
     KudosTransfer.emails := PList [];
     KudosTransfer.kudos_token_cloned_from := 0;
     KudosTransfer.amount := PInt 0;
     KudosTransfer.comments_public := PStr "";
     KudosTransfer.ip := PStr "";
     KudosTransfer.github_url := PStr "";
     KudosTransfer.from_name := PStr "";
     KudosTransfer.from_email := PStr "";
     KudosTransfer.from_username := PStr "";
     KudosTransfer.username := PStr "";
     KudosTransfer.network := PStr "";
     KudosTransfer.tokenAddress := PStr "";
     KudosTransfer.from_address := PStr "";
     KudosTransfer.is_for_bounty_fulfiller := PBool false;
     KudosTransfer.metadata := PDict [];
     KudosTransfer.recipient_profile := None;
     KudosTransfer.sender_profile := None;
     KudosTransfer.txid := PStr "";
     KudosTransfer.receive_txid := PStr "";
     KudosTransfer.receive_address := PStr "";
     KudosTransfer.received_on := PNone;
     KudosTransfer.trust_url := PBool false |}.

(** UPPER in the C locale, in which the sample database runs: the letters
    a to z are folded, every other character is kept. *)
Definition to_upper (c : ascii) : ascii :=
  let n := nat_of_ascii c in
  if ((97 <=? n) && (n <=? 122))%nat then ascii_of_nat (n - 32) else c.

Fixpoint upper (s : string) : string :=
  match s with
  | EmptyString => EmptyString
  | String c s' => String (to_upper c) (upper s')
  end.

(** What the transfer table of the sample database checks: the two
    transaction ids are NOT NULL, and the amount is a number. *)
Definition transfer_columns (k : KudosTransfer.t) : Res unit :=
  if is_none (KudosTransfer.txid k) || is_none (KudosTransfer.receive_txid k)
  then Raise (DatabaseError "null value in column violates not-null constraint")
  else
    match KudosTransfer.amount k with
    | PInt _ => Ok tt
    | _ => Raise (ValidationError "value must be a decimal number")
    end.

(** Collaborators that all answer; [mailer] is the notification sink. *)
Definition externals_with (mailer : KudosTransfer.t -> Res pyval) : Externals :=
  {| KUDOS_NETWORK := PStr "mainnet";
     py_str := str;
     static := fun path => PStr (String.append "/static/" path);
     now := PInt 1541203200;
     maybe_market_kudos_to_email := mailer;
     get_web3 := fun net => Ok net;
     getBalance := fun _ _ => Ok (PInt 1);
     record_user_action := fun _ _ _ => Ok tt;
     get_emails_master := fun _ => Ok [];
     get_github_primary_email := fun _ => Ok (PStr "someone@example.org");
     get_access_token := fun _ => Ok (PStr "gho_token");
     is_address := fun v => match v with PStr _ => true | _ => false end;
     to_normalized_address := fun v => Ok v;
     gas_price := PInt 5;
     humanized_name := Token.name;
     img_url := fun _ => PStr "/static/v2/images/kudos/token.svg";
     tokenName := fun _ => PStr "Kudos";
     value_in_eth := fun _ => PInt 0;
     value_in_usdt_now := fun _ => PInt 0;
     bounty := fun _ => None;
     KudosTransfer_defaults := blank_transfer;
     KudosTransfer_columns := transfer_columns;
     db_upper := upper |}.

Definition externals : Externals := externals_with (fun _ => Ok (PBool true)).

(** The same platform with the mail server unreachable. *)
Definition externals_mail_down : Externals :=
  externals_with (fun _ => Raise (ExternalError "mail server unreachable")).

Definition kudos_contract : Contract.t :=
  {| Contract.address := PStr "0x2aea4add166ebf38b63d09a75de1a7b94aa24163";
     Contract.network := PStr "mainnet";
     Contract.is_latest := PBool true |}.

(** The scenario of the specification: a Gen0 token and one clone. *)
Definition gen0 : Token.t :=
  {| Token.pk := 42; Token.token_id := PInt 42; Token.name := PStr "pythonista";
     Token.description := PStr "Zen"; Token.num_clones_allowed := PInt 5;
     Token.num_clones_in_wild := PInt 3; Token.cloned_from_id := PInt 42;
     Token.owner_address := PStr "0x00de4b13153673bcae2616b67bf822500d325fc3";
     Token.contract := kudos_contract; Token.hidden := PBool false;
     Token.created_on := 100; Token.num_gen0_clones_allowed := None |}.

Definition clone : Token.t :=
  {| Token.pk := 99; Token.token_id := PInt 99; Token.name := PStr "pythonista";
     Token.description := PStr "Zen"; Token.num_clones_allowed := PInt 0;
     Token.num_clones_in_wild := PInt 0; Token.cloned_from_id := PInt 42;
     Token.owner_address := PStr "0x5a3f1e683ab54da2c42d1d2b1a1b1c0a3dd0cd0e";
     Token.contract := kudos_contract; Token.hidden := PBool false;
     Token.created_on := 200; Token.num_gen0_clones_allowed := None |}.

Definition alice : Profile.t :=
  {| Profile.pk := 1; Profile.handle := PStr "alice"; Profile.created_on := 10;
     Profile.preferred_payout_address := PStr "0x5a3f1e683ab54da2c42d1d2b1a1b1c0a3dd0cd0e" |}.

Definition bob : Profile.t :=
  {| Profile.pk := 2; Profile.handle := PStr "bob"; Profile.created_on := 20;
     Profile.preferred_payout_address := PNone |}.

(** A second row for the handle of [bob], created later. *)
Definition bob_again : Profile.t :=
  {| Profile.pk := 3; Profile.handle := PStr "Bob"; Profile.created_on := 30;
     Profile.preferred_payout_address := PNone |}.

Definition transfer_metadata : pyval :=
  PDict [ ("address", PStr "0xabc"); ("creation_time", PInt 100); ("salt", PStr "s1");
          ("reference_hash_for_receipient", PStr "k-recipient");
          ("reference_hash_for_funder", PStr "k-funder") ].

(** A transfer as [send_3] leaves it: created, not yet funded. *)
Definition created : KudosTransfer.t :=
  {| KudosTransfer.pk := 7;
     KudosTransfer.web3_type := PStr "v3";
     KudosTransfer.emails := PList [PStr "bob@example.org"];
     KudosTransfer.kudos_token_cloned_from := 42;
     KudosTransfer.amount := PInt 1;
     KudosTransfer.comments_public := PStr "thanks";
     KudosTransfer.ip := PStr "10.0.0.1";
     KudosTransfer.github_url := PStr "";
     KudosTransfer.from_name := PStr "alice";
     KudosTransfer.from_email := PStr "alice@example.org";
     KudosTransfer.from_username := PStr "alice";
     KudosTransfer.username := PStr "@bob";
     KudosTransfer.network := PStr "mainnet";
     KudosTransfer.tokenAddress := PStr "0x0";
     KudosTransfer.from_address := PStr "0xa11ce";
     KudosTransfer.is_for_bounty_fulfiller := PBool false;
     KudosTransfer.metadata := transfer_metadata;
     KudosTransfer.recipient_profile := Some 2;
     KudosTransfer.sender_profile := Some 1;
     KudosTransfer.txid := PStr "";
     KudosTransfer.receive_txid := PStr "";
     KudosTransfer.receive_address := PStr "";
     KudosTransfer.received_on := PNone;
     KudosTransfer.trust_url := PBool false |}.

Definition funded : KudosTransfer.t := KudosTransfer.set_txid (PStr "0xdeadbeef") created.

Definition claimed : KudosTransfer.t :=
  KudosTransfer.set_received_on (PInt 1541200000)
    (KudosTransfer.set_receive_address (PStr "0xb0b")
       (KudosTransfer.set_receive_txid (PStr "0xfeed") funded)).

Definition coupon : BulkTransferCoupon.t :=
  {| BulkTransferCoupon.pk := 5; BulkTransferCoupon.secret := PStr "s3cr3t" |}.

Definition redemption_by_bob : BulkTransferRedemption.t :=
  {| BulkTransferRedemption.pk := 1; BulkTransferRedemption.redeemed_by := 2;
     BulkTransferRedemption.coupon := 5 |}.

Definition database (transfers : list KudosTransfer.t) : DB :=
  {| tokens := [gen0; clone];
     profiles := [alice; bob; bob_again];
     kudos_transfers := transfers;
     coupons := [coupon];
     redemptions := [redemption_by_bob];
     activities := [] |}.

Definition world (transfers : list KudosTransfer.t) : World :=
  {| db := database transfers; trace := [] |}.

Definition anonymous : User.t :=
  {| User.is_authenticated := false; User.username := PStr ""; User.email := PStr "";
     User.profile := Raise (AttributeError "'AnonymousUser' object has no attribute 'profile'") |}.

Definition user_alice : User.t :=
  {| User.is_authenticated := true; User.username := PStr "alice";
     User.email := PStr "alice@example.org"; User.profile := Ok (Some alice) |}.

Definition user_bob : User.t :=
  {| User.is_authenticated := true; User.username := PStr "bob";
     User.email := PStr "bob@example.org"; User.profile := Ok (Some bob) |}.

Definition request (u : User.t) (addr : string) (json : option pyval)
  (query : list (string * string)) : Request.t :=
  {| Request.user := u; Request.ip := PStr addr; Request.body := json;
     Request.GET := query; Request.full_path := "/kudos/receive" |}.

End Sample.

(** ** Path conditions

    The conditions under which a request takes a given path through a view,
    written over the same lookups the view makes. *)

(** The token a [kudos_id] of the URL resolves to: the one row whose primary
    key is the integer the id reads as. *)
Definition resolves_to (d : DB) (kudos_id : string) (T : Token.t) : Prop :=
  exists z, py_int (PStr kudos_id) = Ok z
            /\ filter (fun k => Token.pk k =? z) (tokens d) = [T].

(** [send_4], lines 394-403: the body is a JSON object with the keys the
    view reads, and the metadata triple selects exactly the row [k]. *)
Definition send_4_locates (request : Request.t) (d : DB) (txid is_direct : pyval)
  (k : KudosTransfer.t) : Prop :=
  exists params destination_account creation_time salt,
    Request.body request = Some params
    /\ py_getitem params "txid" = Ok txid
    /\ py_getitem params "destinationAccount" = Ok destination_account
    /\ py_get params "is_direct_to_recipient" (PBool false) = Ok is_direct
    /\ py_getitem params "creation_time" = Ok creation_time
    /\ py_getitem params "salt" = Ok salt
    /\ qs_get "KudosTransfer"
         (filter (metadata_triple destination_account creation_time salt) (kudos_transfers d))
       = Ok k.

(** [send_4], lines 406-408: the caller has the address the transfer was
    created from, or is logged in under the sender's (non-empty) name. *)
Definition send_4_authorized (request : Request.t) (k : KudosTransfer.t) : Prop :=
  py_eqb (KudosTransfer.ip k) (Request.ip request) = true
  \/ (truthy (KudosTransfer.from_username k) = true
      /\ py_eqb (KudosTransfer.from_username k) (User.username (Request.user request)) = true).

(** The row [send_4] writes (lines 415-417). *)
Definition funded_record (txid is_direct : pyval) (k : KudosTransfer.t) : KudosTransfer.t :=
  if truthy is_direct
  then KudosTransfer.set_receive_txid txid (KudosTransfer.set_txid txid k)
  else KudosTransfer.set_txid txid k.

(** The number of calls of the notification sink a trace records. *)
Fixpoint count_notify (t : list Event) : nat :=
  match t with
  | [] => O
  | EvNotify _ :: t' => S (count_notify t')
  | _ :: t' => count_notify t'
  end.

Definition OK_response (text : string) : Response :=
  JsonResponse [("status", PStr "OK"); ("message", PStr text)] 200.

Definition permission_denied : Response :=
  JsonResponse [("status", PStr "error"); ("message", PStr "Permission Denied")] 401.

(** [receive], lines 467-470: the row the view works on. *)
Definition receive_resolves (d : DB) (key txid network : string) (k : KudosTransfer.t) : Prop :=
  qs_first KudosTransfer.pk (claim_candidates key txid network d) = Some k.

(** [receive], lines 478-482: the caller passes the login check. *)
Definition logged_in_with_profile (request : Request.t) : Prop :=
  User.is_authenticated (Request.user request) = true
  /\ exists p, getattr_profile request = Some p.

(** The world in which [receive] computes its two checks. *)
Definition after_query (w : World) : World :=
  {| db := db w; trace := EvQuery "KudosTransfer" :: trace w |}.

(** The messages a trace records. *)
Fixpoint messages_of (t : list Event) : list (string * string) :=
  match t with
  | [] => []
  | EvMessage level text :: t' => (level, text) :: messages_of t'
  | _ :: t' => messages_of t'
  end.

Definition login_redirect (request : Request.t) : Response :=
  HttpResponseRedirect (String.append "/login/github?next=" (Request.full_path request)).

(** A computation that leaves the database as it is and issues no message
    to the user. *)
Definition quiet {A : Type} (m : M A) : Prop :=
  forall w, db (snd (m w)) = db w
            /\ messages_of (trace (snd (m w))) = messages_of (trace w).

(** A computation that writes to the database, if at all, only on its way
    to a result: when it raises, the database is as it was. *)
Definition fails_clean {A : Type} (m : M A) : Prop :=
  forall w e w', m w = (Raise e, w') -> db w' = db w.

(** A value that, taken as a primary key, selects no token: it is read as
    an integer, and no token row has that key. *)
Definition no_such_token (d : DB) (kudos_id : pyval) : Prop :=
  exists z, py_int kudos_id = Ok z /\ forall k, In k (tokens d) -> Token.pk k <> z.

(** ** The other views of the application *)

Section OtherViews.

Variable E : Externals.

(** gas.utils: [recommend_min_gas_price_to_confirm_in_time(confirm_time_minutes_target)] *)
Variable recommend_gas_price : pyval.

(** The [as_img] property of a token: the bytes of its picture, or [None]
    when there is none to show. *)
Variable as_img : Token.t -> option string.

(** [str(profile)], as written to the log. *)
Variable profile_repr : option Profile.t -> string.

(** views.py, lines 269-277 *)
Definition kudos_preferred_wallet (request : Request.t) (handle : string) : M Response :=
  profile <- get_profile E (PStr (replace_at handle)) ;;
  let addresses :=
    match profile with
    | Some p =>
        if truthy (Profile.preferred_payout_address p)
        then [Profile.preferred_payout_address p]
        else []
    | None => []
    end in
  ret (JsonResponse [("addresses", PList addresses)] 200).

(** views.py, lines 236-266 *)
Definition get_primary_from_email (params : pyval) (request : Request.t) : M pyval :=
  let is_authenticated := User.is_authenticated (Request.user request) in
  let request_user_email :=
    if is_authenticated then User.email (Request.user request) else PStr "" in
  p <- user_profile request ;;
  log "info" (profile_repr p) ;;;
  access_token <-
    (if is_authenticated then
       p <- user_profile request ;;
       match p with
       | Some prof => lift (get_access_token E prof)
       | None => raise (AttributeError "'NoneType' object has no attribute 'get_access_token'")
       end
     else ret (PStr "")) ;;
  from_email <- lift (py_get params "fromEmail" PNone) ;;
  if truthy from_email then lift (py_getitem params "fromEmail")
  else if truthy request_user_email then ret request_user_email
  else if truthy access_token then lift (get_github_primary_email E access_token)
  else ret (PStr "unknown@gitcoin.co").

(** [Token.objects.filter(pk=v).first()] *)
Definition Token_filter_pk_first (v : pyval) : M (option Token.t) :=
  match v with
  | PNone => emit (EvQuery "Token") ;;; ret None
  | _ =>
      z <- lift (py_int v) ;;
      emit (EvQuery "Token") ;;;
      d <- get_db ;;
      ret (qs_first Token.pk (filter (fun k => Token.pk k =? z) (tokens d)))
  end.

(** views.py, lines 281-300 *)
Definition send_2 (request : Request.t) : M Response :=
  let _id := GET_get (Request.GET request) "id" in
  kudos <- Token_filter_pk_first _id ;;
  ret (TemplateResponse "transaction/send.html"
         [ ("active", CVal (PStr "send"));
           ("issueURL", CVal (GET_get (Request.GET request) "source"));
           ("class", CVal (PStr "send2"));
           ("recommend_gas_price", CVal recommend_gas_price);
           ("from_email", CVal (User.email (Request.user request)));
           ("from_handle", CVal (User.username (Request.user request)));
           ("title", CVal (PStr "Send Kudos | Gitcoin"));
           ("card_desc", CVal (PStr "Send a Kudos to any github user at the click of a button."));
           ("kudos", match kudos with Some k => CToken k | None => CVal PNone end) ]).

(** [HttpResponse(content, content_type=...)] *)
Inductive HttpResponse : Type :=
| HttpResponseOf (content : string) (content_type : string).

(** views.py, lines 158-165 *)
Definition image (request : Request.t) (kudos_id name : string) : M HttpResponse :=
  kudos <- Token_get_pk (PStr kudos_id) ;;
  match as_img kudos with
  | None => raise Http404
  | Some bytes => ret (HttpResponseOf bytes "image/png")
  end.

End OtherViews.

(** ** The clean-up command

    [dashboard/management/commands/cleanup_db_space.py]: the command works
    on two tables of its own, of which it reads the creation time of the
    rows.  Times are counted in microseconds. *)

Module GasProfile.
Record t : Type := { pk : Z; created_on : Z }.
End GasProfile.

Module ConversionRate.
Record t : Type := { pk : Z; created_on : Z }.
End ConversionRate.

Module Cleanup.

Record Tables : Type := {
  gas_profiles : list GasProfile.t;
  conversion_rates : list ConversionRate.t
}.

(** [timezone.timedelta(days=n)] *)
Definition timedelta_days (n : Z) : Z := n * 86400000000.

(** [queryset.filter(created_on__lt=t).delete()]: the rows older than [t]
    go, the others stay as they are. *)
Definition delete_older {A : Type} (created_on : A -> Z) (t : Z) (rows : list A) : list A :=
  filter (fun r => negb (created_on r <? t)) rows.

(** cleanup_db_space.py, lines 30-37; [now] is what [timezone.now()] answers. *)
Definition handle (now : Z) (d : Tables) : Tables :=
  let days_back := 7 in
  let then_time := now - timedelta_days days_back in
  {| gas_profiles := delete_older GasProfile.created_on then_time (gas_profiles d);
     conversion_rates := delete_older ConversionRate.created_on then_time (conversion_rates d) |}.

End Cleanup.

(** ** Further conditions and observations *)

(** The values of a list are pairwise different for [==], each compared
    with the ones after it. *)
Fixpoint all_different (l : list pyval) : Prop :=
  match l with
  | [] => True
  | x :: rest => (forall y, In y rest -> py_eqb x y = false) /\ all_different rest
  end.

(** The body of the request is a JSON object that has all the keys of [keys]. *)
Definition has_keys (d : list (string * pyval)) (keys : list string) : Prop :=
  forall k, In k keys -> assoc k d <> None.

(** The keys that [send_3] reads with [params[...]] (lines 359-371). *)
Definition send_3_required : list string :=
  [ "amount"; "comments_public"; "github_url"; "from_name"; "from_email"; "username";
    "network"; "tokenAddress"; "from_address"; "is_for_bounty_fulfiller"; "metadata" ].

(** Primary keys identify the rows of the transfer table. *)
Definition unique_pks (rows : list KudosTransfer.t) : Prop :=
  NoDup (map KudosTransfer.pk rows).

(** The record [receive] writes on a claim (lines 508-510). *)
Definition claimed_record (E : Externals) (receive_txid forwarding_address : string)
  (k : KudosTransfer.t) : KudosTransfer.t :=
  KudosTransfer.set_received_on (now E)
    (KudosTransfer.set_receive_address (PStr forwarding_address)
       (KudosTransfer.set_receive_txid (PStr receive_txid) k)).

(** The tokens whose owners the detail view of [kudos] looks up
    (lines 181-185). *)
Definition related_clone (E : Externals) (kudos rk : Token.t) : bool :=
  db_exact (Token.name rk) (Token.name kudos)
  && db_exact (Token.num_clones_allowed rk) (PInt 0)
  && db_exact (Contract.network (Token.contract rk)) (KUDOS_NETWORK E).

(** What a successful computation has done to the database. *)
Definition on_success {A : Type} (Q : DB -> DB -> Prop) (m : M A) : Prop :=
  forall w a w', m w = (Ok a, w') -> Q (db w) (db w').

(** The database [d'] is [d] with one more transfer, in the state in which
    [send_3] creates it for [request]; no other table differs. *)
Definition transfer_added (E : Externals) (request : Request.t) (d d' : DB) : Prop :=
  exists row,
    kudos_transfers d' = kudos_transfers d ++ [row]
    /\ (forall k, In k (kudos_transfers d) -> KudosTransfer.pk k < KudosTransfer.pk row)
    /\ KudosTransfer.txid row = KudosTransfer.txid (KudosTransfer_defaults E)
    /\ KudosTransfer.receive_txid row = KudosTransfer.receive_txid (KudosTransfer_defaults E)
    /\ KudosTransfer.received_on row = KudosTransfer.received_on (KudosTransfer_defaults E)
    /\ KudosTransfer.ip row = Request.ip request
    /\ tokens d' = tokens d
    /\ profiles d' = profiles d
    /\ coupons d' = coupons d
    /\ redemptions d' = redemptions d
    /\ activities d' = activities d.

(** [send_4], lines 394-403, without the lookup: the body of the request
    carries the transaction id and the metadata triple. *)
Definition send_4_body (request : Request.t) (txid is_direct address creation_time salt : pyval)
  : Prop :=
  exists params,
    Request.body request = Some params
    /\ py_getitem params "txid" = Ok txid
    /\ py_getitem params "destinationAccount" = Ok address
    /\ py_get params "is_direct_to_recipient" (PBool false) = Ok is_direct
    /\ py_getitem params "creation_time" = Ok creation_time
    /\ py_getitem params "salt" = Ok salt.

(** The profile rows after the first step of a claim (lines 500-507): the
    payout address of the profile found for the recipient is overwritten
    when [save_addr] is set, and nothing changes otherwise. *)
Definition profiles_after_claim (E : Externals) (save_addr forwarding_address : string)
  (k : KudosTransfer.t) (w : World) : list Profile.t :=
  if truthy (PStr save_addr) then
    match fst (get_profile E (KudosTransfer.username k) w) with
    | Ok (Some p) =>
        save_row Profile.pk
          (Profile.set_preferred_payout_address (PStr forwarding_address) p) (profiles (db w))
    | _ => profiles (db w)
    end
  else profiles (db w).

(** A value the [iexact] lookup takes: a text, or [None]. *)
Definition text_or_none (v : pyval) : bool :=
  match v with
  | PStr _ | PNone => true
  | _ => false
  end.

(** The profile [p] is a stored row whose handle is the text [handle] up to
    what UPPER of the database folds. *)
Definition handle_matches (E : Externals) (handle : string) (d : DB) (p : Profile.t) : Prop :=
  In p (profiles d)
  /\ exists c, Profile.handle p = PStr c /\ db_upper E c = db_upper E handle.

(** The field [key] of the body of a [send_3] request. *)
Definition field (d : list (string * pyval)) (key : string) : pyval :=
  match assoc key d with
  | Some v => v
  | None => PNone
  end.

(** The values [send_3] passes to [create] (lines 357-375), for the body
    [d], the token [T] and the two profiles found. *)
Definition created_record (E : Externals) (request : Request.t) (d : list (string * pyval))
  (from_username : pyval) (to_emails : list pyval) (T : Token.t)
  (recipient_profile sender_profile : option Profile.t) : KudosTransfer.t :=
  let dflt := KudosTransfer_defaults E in
  {| KudosTransfer.pk := 0;
     KudosTransfer.web3_type := KudosTransfer.web3_type dflt;
     KudosTransfer.emails := PList to_emails;
     KudosTransfer.kudos_token_cloned_from := Token.pk T;
     KudosTransfer.amount := field d "amount";
     KudosTransfer.comments_public := field d "comments_public";
     KudosTransfer.ip := Request.ip request;
     KudosTransfer.github_url := field d "github_url";
     KudosTransfer.from_name := field d "from_name";
     KudosTransfer.from_email := field d "from_email";
     KudosTransfer.from_username := from_username;
     KudosTransfer.username := field d "username";
     KudosTransfer.network := field d "network";
     KudosTransfer.tokenAddress := field d "tokenAddress";
     KudosTransfer.from_address := field d "from_address";
     KudosTransfer.is_for_bounty_fulfiller := field d "is_for_bounty_fulfiller";
     KudosTransfer.metadata := field d "metadata";
     KudosTransfer.recipient_profile := option_map Profile.pk recipient_profile;
     KudosTransfer.sender_profile := option_map Profile.pk sender_profile;
     KudosTransfer.txid := KudosTransfer.txid dflt;
     KudosTransfer.receive_txid := KudosTransfer.receive_txid dflt;
     KudosTransfer.receive_address := KudosTransfer.receive_address dflt;
     KudosTransfer.received_on := KudosTransfer.received_on dflt;
     KudosTransfer.trust_url := KudosTransfer.trust_url dflt |}.

(** ** More sample data *)

Module Scenario.

(** A transfer created by a sender who was not logged in. *)
Definition unsigned : KudosTransfer.t :=
  {| KudosTransfer.pk := 8;
     KudosTransfer.web3_type := PStr "v3";
     KudosTransfer.emails := PList [PStr "carol@example.org"];
     KudosTransfer.kudos_token_cloned_from := 42;
     KudosTransfer.amount := PInt 1;
     KudosTransfer.comments_public := PStr "";
     KudosTransfer.ip := PStr "10.0.0.7";
     KudosTransfer.github_url := PStr "";
     KudosTransfer.from_name := PStr "";
     KudosTransfer.from_email := PStr "";
     KudosTransfer.from_username := PStr "";
     KudosTransfer.username := PStr "carol";
     KudosTransfer.network := PStr "mainnet";
     KudosTransfer.tokenAddress := PStr "0x0";
     KudosTransfer.from_address := PStr "0xd00d";
     KudosTransfer.is_for_bounty_fulfiller := PBool false;
     KudosTransfer.metadata :=
       PDict [ ("address", PStr "0xdef"); ("creation_time", PInt 200); ("salt", PStr "s2");
               ("reference_hash_for_receipient", PStr "k2-recipient");
               ("reference_hash_for_funder", PStr "k2-funder") ];
     KudosTransfer.recipient_profile := None;
     KudosTransfer.sender_profile := None;
     KudosTransfer.txid := PStr "";
     KudosTransfer.receive_txid := PStr "";
     KudosTransfer.receive_address := PStr "";
     KudosTransfer.received_on := PNone;
     KudosTransfer.trust_url := PBool false |}.

(** The body of a [send_4] request. *)
Definition confirm_body (txid address : string) (creation_time : Z) (salt : string) : pyval :=
  PDict [ ("txid", PStr txid); ("destinationAccount", PStr address);
          ("creation_time", PInt creation_time); ("salt", PStr salt) ].

(** The body of a [send_3] request for the token [kudosId]. *)
Definition create_fields (kudosId : pyval) : list (string * pyval) :=
  [ ("kudosId", kudosId); ("username", PStr "@bob"); ("email", PStr "bob@example.org");
    ("amount", PInt 1); ("comments_public", PStr "thanks"); ("github_url", PStr "");
    ("from_name", PStr "alice"); ("from_email", PStr "alice@example.org");
    ("network", PStr "mainnet"); ("tokenAddress", PStr "0x0"); ("from_address", PStr "0xa11ce");
    ("is_for_bounty_fulfiller", PBool false); ("metadata", Sample.transfer_metadata) ].

(** The tables of the clean-up command at a time when the clock shows ten
    days: rows of day 1, day 3 (exactly seven days old) and day 9. *)
Definition day : Z := 86400000000.

Definition tables : Cleanup.Tables :=
  {| Cleanup.gas_profiles :=
       [ {| GasProfile.pk := 1; GasProfile.created_on := 1 * day |};
         {| GasProfile.pk := 2; GasProfile.created_on := 3 * day |};
         {| GasProfile.pk := 3; GasProfile.created_on := 9 * day |} ];
     Cleanup.conversion_rates :=
       [ {| ConversionRate.pk := 1; ConversionRate.created_on := 2 * day |} ] |}.

(** A third user, neither the sender nor the recipient of the samples. *)
Definition carol : Profile.t :=
  {| Profile.pk := 4; Profile.handle := PStr "carol"; Profile.created_on := 40;
     Profile.preferred_payout_address := PNone |}.

Definition user_carol : User.t :=
  {| User.is_authenticated := true; User.username := PStr "carol";
     User.email := PStr "carol@example.org"; User.profile := Ok (Some carol) |}.

(** The query of a claim. *)
Definition claim_query (save_addr : string) : list (string * string) :=
  [ ("receive_txid", "0xfeed"); ("forwarding_address", "0xb0b"); ("save_addr", save_addr) ].

(** A database in which the clone of the samples is left without the token
    it was cloned from. *)
Definition orphan_world : World :=
  {| db := {| tokens := [Sample.clone]; profiles := [Sample.alice];
              kudos_transfers := []; coupons := []; redemptions := []; activities := [] |};
     trace := [] |}.

End Scenario.

Unset Implicit Arguments.

(** * Properties *)

(** ** Running computations *)

Section Running.

Context {S A B : Type}.

Lemma bind_ok (m : St S A) (k : A -> St S B) (s s' : S) (a : A) :
  m s = (Ok a, s') -> bind m k s = k a s'.
Proof. intros H. unfold bind. now rewrite H. Qed.

Lemma bind_raise (m : St S A) (k : A -> St S B) (s s' : S) (e : exn) :
  m s = (Raise e, s') -> bind m k s = (Raise e, s').
Proof. intros H. unfold bind. now rewrite H. Qed.

Lemma bind_ret (a : A) (k : A -> St S B) (s : S) : bind (ret a) k s = k a s.
Proof. reflexivity. Qed.

Lemma bind_lift_ok (a : A) (k : A -> St S B) (s : S) : bind (lift (Ok a)) k s = k a s.
Proof. reflexivity. Qed.

Lemma bind_lift_raise (e : exn) (k : A -> St S B) (s : S) :
  bind (lift (Raise e)) k s = (Raise e, s).
Proof. reflexivity. Qed.

Lemma bind_raise_now (e : exn) (k : A -> St S B) (s : S) :
  bind (raise e) k s = (Raise e, s).
Proof. reflexivity. Qed.

End Running.

Lemma bind_assoc {S A B C : Type} (m : St S A) (f : A -> St S B) (g : B -> St S C) (s : S) :
  bind (bind m f) g s = bind m (fun x => bind (f x) g) s.
Proof. unfold bind. destruct (m s) as [[a|e] s']; reflexivity. Qed.

Lemma bind_emit {B : Type} (ev : Event) (k : unit -> M B) (w : World) :
  bind (emit ev) k w = k tt {| db := db w; trace := ev :: trace w |}.
Proof. reflexivity. Qed.

Lemma bind_get_db {B : Type} (k : DB -> M B) (w : World) :
  bind get_db k w = k (db w) w.
Proof. reflexivity. Qed.

Lemma bind_put_db {B : Type} (d : DB) (k : unit -> M B) (w : World) :
  bind (put_db d) k w = k tt {| db := d; trace := trace w |}.
Proof. reflexivity. Qed.

Create Rewrite HintDb run.
#[local] Hint Rewrite @bind_assoc @bind_ret @bind_lift_ok @bind_lift_raise @bind_raise_now
  @bind_emit @bind_get_db @bind_put_db : run.

(** One step of a view: the head of the computation is run. *)
Ltac run := autorewrite with run; cbn [db trace fst snd].

(** ** Query sets *)

Lemma qs_first_nil_iff {A : Type} (key : A -> Z) (rows : list A) :
  qs_first key rows = None <-> rows = [].
Proof.
  destruct rows as [|x rest]; simpl.
  - tauto.
  - split; [|discriminate].
    destruct (qs_first key rest) as [y|]; [destruct (key y <? key x)|]; discriminate.
Qed.

Lemma qs_first_least {A : Type} (key : A -> Z) (rows : list A) (x : A) :
  qs_first key rows = Some x ->
  In x rows /\ forall y, In y rows -> key x <= key y.
Proof.
  revert x. induction rows as [|a rest IH]; simpl; intros x H; [discriminate|].
  destruct (qs_first key rest) as [m|] eqn:Hm.
  - destruct (IH m eq_refl) as [Hin Hle].
    destruct (key m <? key a) eqn:Hlt; inversion H; subst; clear H.
    + apply Z.ltb_lt in Hlt. split; [now right|].
      intros y [->|Hy]; [lia | now apply Hle].
    + apply Z.ltb_ge in Hlt. split; [now left|].
      intros y [->|Hy]; [lia | specialize (Hle y Hy); lia].
  - inversion H; subst; clear H.
    apply qs_first_nil_iff in Hm. subst rest.
    split; [now left|]. intros y [->|[]]. lia.
Qed.

Lemma qs_first_some {A : Type} (key : A -> Z) (rows : list A) :
  rows <> [] -> exists x, qs_first key rows = Some x.
Proof.
  intros Hne. destruct (qs_first key rows) as [x|] eqn:H; [now exists x|].
  apply qs_first_nil_iff in H. contradiction.
Qed.

Lemma qs_get_cases {A : Type} (model : string) (rows : list A) :
  (rows = [] /\ qs_get model rows = Raise (DoesNotExist model))
  \/ (exists x, rows = [x] /\ qs_get model rows = Ok x)
  \/ ((2 <= List.length rows)%nat /\ qs_get model rows = Raise (MultipleObjectsReturned model)).
Proof.
  destruct rows as [|x [|y rest]]; simpl.
  - left. now split.
  - right; left. now exists x.
  - right; right. split; [lia | reflexivity].
Qed.

(** ** Profile lookup *)

(** The lookup answers rows for a text and for [None], and is refused by
    the database for any other value. *)
Lemma profiles_iexact_text (E : Externals) (handle : pyval) (d : DB) :
  text_or_none handle = true -> exists rows, profiles_iexact E handle d = Ok rows.
Proof. destruct handle; try discriminate; intros _; eexists; reflexivity. Qed.

Lemma profiles_iexact_refused (E : Externals) (handle : pyval) (d : DB) (e : exn) :
  profiles_iexact E handle d = Raise e -> exists msg, e = DatabaseError msg.
Proof.
  destruct handle; try discriminate; intros H; inversion H; eexists; reflexivity.
Qed.

(** What [get_profile] answers, case by case on the number of rows whose
    handle matches. *)
Lemma get_profile_run (E : Externals) (handle : pyval) (w : World) (rows : list Profile.t) :
  profiles_iexact E handle (db w) = Ok rows ->
  let w1 := {| db := db w; trace := EvQuery "Profile" :: trace w |} in
  let w2 := {| db := db w; trace := EvQuery "Profile" :: EvQuery "Profile" :: trace w |} in
  get_profile E handle w =
    match rows with
    | [] => (Ok None, w1)
    | [p] => (Ok (Some p), w1)
    | _ => (Ok (qs_first (fun p => - Profile.created_on p) rows), w2)
    end.
Proof.
  intros Hrows.
  unfold get_profile, try_except, bind, emit, get_db, lift, ret. cbn [db trace].
  rewrite Hrows. destruct rows as [|p [|q rest]]; cbn [qs_get db trace];
    rewrite ?Hrows; reflexivity.
Qed.

(** Membership in the rows of the lookup unfolds to the match of the
    handles under UPPER, on the stored rows. *)
Lemma profiles_iexact_In (E : Externals) (handle : string) (d : DB) (rows : list Profile.t)
  (p : Profile.t) :
  profiles_iexact E (PStr handle) d = Ok rows ->
  (In p rows <-> handle_matches E handle d p).
Proof.
  intros H. inversion H; subst rows; clear H.
  rewrite filter_In. unfold handle_matches, handle_iexact.
  split; intros [Hin H]; split; try exact Hin.
  - destruct (Profile.handle p) as [| | |c| |]; try discriminate.
    exists c. split; [reflexivity|]. now apply String.eqb_eq.
  - destruct H as [c [-> Hc]]. now apply String.eqb_eq.
Qed.

(** C8. [get_profile] never raises: for every handle (a text) and every
    state of the database it returns, and the database is only read.  It
    answers [None] when no stored profile has the handle; and when one or
    several stored profiles have it (compared without regard to case, as
    UPPER of the database folds it), it answers one of them that no other of
    them was created after. *)
Theorem get_profile_never_raises (E : Externals) (handle : string) (w : World) :
  exists (r : option Profile.t) (w' : World),
    get_profile E (PStr handle) w = (Ok r, w')
    /\ db w' = db w
    /\ ((forall p, ~ handle_matches E handle (db w) p) -> r = None)
    /\ (forall p, handle_matches E handle (db w) p ->
          exists m, r = Some m
                    /\ handle_matches E handle (db w) m
                    /\ forall q, handle_matches E handle (db w) q ->
                                 Profile.created_on q <= Profile.created_on m).
Proof.
  destruct (profiles_iexact E (PStr handle) (db w)) as [rows|e] eqn:Hrows; [|discriminate].
  assert (Hin : forall p, In p rows <-> handle_matches E handle (db w) p)
    by (intros p; exact (profiles_iexact_In E handle (db w) rows p Hrows)).
  rewrite (get_profile_run E (PStr handle) w rows Hrows). cbv zeta.
  destruct rows as [|a [|b rest]].
  - eexists _, _. split; [reflexivity|]. split; [reflexivity|]. split; [reflexivity|].
    intros p Hp. apply Hin in Hp. destruct Hp.
  - eexists _, _. split; [reflexivity|]. split; [reflexivity|]. split.
    + intros Hnone. exfalso. apply (Hnone a). apply Hin. now left.
    + intros p _. exists a. split; [reflexivity|]. split; [apply Hin; now left|].
      intros q Hq. apply Hin in Hq. destruct Hq as [<-|[]]. lia.
  - destruct (@qs_first_some _ (fun p => - Profile.created_on p) (a :: b :: rest))
      as [m Hm]; [discriminate|].
    exists (Some m). eexists. split; [rewrite Hm; reflexivity|].
    split; [reflexivity|]. split.
    + intros Hnone. exfalso. apply (Hnone a). apply Hin. now left.
    + intros p _. exists m. split; [reflexivity|].
      destruct (qs_first_least _ _ _ Hm) as [Hmin Hle].
      split; [now apply Hin|]. intros q Hq. apply Hin in Hq.
      specialize (Hle q Hq). simpl in Hle. lia.
Qed.

(** The two rows of the sample that share the handle of bob: the lookup
    answers the one created last, whatever the case of the letters asked. *)
Example get_profile_bob :
  fst (get_profile Sample.externals (PStr "BOB") (Sample.world [])) = Ok (Some Sample.bob_again).
Proof. reflexivity. Qed.

(** A handle that is no text is refused by the database, and [get_profile]
    has no handler for that. *)
Example get_profile_not_a_text :
  get_profile Sample.externals (PInt 42) (Sample.world [])
  = (Raise (DatabaseError "function upper does not exist"),
     {| db := Sample.database []; trace := [EvQuery "Profile"] |}).
Proof. reflexivity. Qed.

(** ** The detail view *)

Lemma re_match_digits_first (c : ascii) (rest : string) :
  re_match_digits (String c rest) = None <-> is_digit c = false.
Proof.
  unfold re_match_digits. simpl. destruct (is_digit c); split; congruence.
Qed.

(** The characters that [is_digit] accepts are the ten decimal digits. *)
Lemma is_digit_spec (c : ascii) :
  is_digit c = true <->
  In c ["0"; "1"; "2"; "3"; "4"; "5"; "6"; "7"; "8"; "9"]%char.
Proof.
  split.
  - destruct c as [[] [] [] [] [] [] [] []]; cbv; intros H; try discriminate; tauto.
  - simpl. intros H.
    repeat (destruct H as [<-|H]; [reflexivity|]). destruct H.
Qed.

(** C10. The detail view raises [ValueError] with the world untouched (no
    query has been issued, nothing written) for every [kudos_id] that is empty
    or whose first character is no decimal digit; and the check lets through
    every [kudos_id] whose first character is a digit, whatever follows: the
    view then goes on to the lookup of the token. *)
Theorem details_id_check (E : Externals) (request : Request.t) (name : string) (w : World) :
  (forall kudos_id,
      (kudos_id = "" \/ exists c rest, kudos_id = String c rest /\ is_digit c = false) ->
      exists msg, details E request kudos_id name w = (Raise (ValueError msg), w))
  /\ (forall c rest,
         is_digit c = true ->
         re_match_digits (String c rest) <> None
         /\ details E request (String c rest) name w =
            bind (get_Token_or_404 (PStr (String c rest))) (details_render E) w).
Proof.
  split.
  - intros kudos_id [->|[c [rest [-> Hc]]]]; eexists.
    + reflexivity.
    + unfold details. rewrite (proj2 (re_match_digits_first c rest) Hc). reflexivity.
  - intros c rest Hc.
    assert (Hm : re_match_digits (String c rest) <> None).
    { intros Hn. apply re_match_digits_first in Hn. congruence. }
    split; [exact Hm|].
    unfold details. destruct (re_match_digits (String c rest)); [reflexivity | contradiction].
Qed.

(** An id that starts with a digit and goes on with letters passes the check
    of the view and fails in the lookup, on the conversion to an integer. *)
Example details_digit_then_letters :
  details Sample.externals (Sample.request Sample.anonymous "10.0.0.9" None [])
          "12abc" "pythonista" (Sample.world [])
  = (Raise (ValueError "invalid literal for int() with base 10"), Sample.world []).
Proof. reflexivity. Qed.

Lemma for_each_pure {A B : Type} (f : A -> M B) (l : list A) :
  (forall x, exists y, forall w, f x w = (Ok y, w)) ->
  exists ys, forall w, for_each f l w = (Ok ys, w).
Proof.
  intros Hf. induction l as [|x rest [ys IH]]; simpl.
  - exists []. reflexivity.
  - destruct (Hf x) as [y Hy]. exists (y :: ys). intros w.
    unfold bind. rewrite Hy, IH. reflexivity.
Qed.

Lemma Token_get_pk_resolves (kudos_id : string) (T : Token.t) (w : World) :
  resolves_to (db w) kudos_id T ->
  Token_get_pk (PStr kudos_id) w
  = (Ok T, {| db := db w; trace := EvQuery "Token" :: trace w |}).
Proof.
  intros [z [Hz HT]]. unfold Token_get_pk. rewrite Hz. run. rewrite HT. reflexivity.
Qed.

Lemma get_Token_or_404_resolves (kudos_id : string) (T : Token.t) (w : World) :
  resolves_to (db w) kudos_id T ->
  get_Token_or_404 (PStr kudos_id) w
  = (Ok T, {| db := db w; trace := EvQuery "Token" :: trace w |}).
Proof.
  intros H. unfold get_Token_or_404, try_except.
  now rewrite (@Token_get_pk_resolves _ _ _ H).
Qed.

(** C9. For a clone token [T] (clone allowance 0) whose Gen0 template [G] is
    the one row with the token id [T] is cloned from on the contract of [T],
    the detail view of [T] renders, and the token in the page context carries
    the number of clones in the wild of [G] and, as its Gen0 allowance, the
    clone allowance of [G]; the database is only read. *)
Theorem details_clone_counts_from_gen0
  (E : Externals) (request : Request.t) (kudos_id name : string) (w : World)
  (T G : Token.t) :
  re_match_digits kudos_id <> None ->
  resolves_to (db w) kudos_id T ->
  Token.num_clones_allowed T = PInt 0 ->
  filter (cloned_from T) (tokens (db w)) = [G] ->
  (forall a, is_address E a = true -> exists v, to_normalized_address E a = Ok v) ->
  exists context w',
    details E request kudos_id name w = (Ok (TemplateResponse "kudos_details.html" context), w')
    /\ db w' = db w
    /\ exists k, assoc "kudos" context = Some (CToken k)
                 /\ Token.pk k = Token.pk T
                 /\ Token.num_clones_allowed k = PInt 0
                 /\ Token.num_clones_in_wild k = Token.num_clones_in_wild G
                 /\ Token.num_gen0_clones_allowed k = Some (Token.num_clones_allowed G).
Proof.
  intros Hm HT Hclone HG Hnorm.
  unfold details. destruct (re_match_digits kudos_id); [|contradiction].
  erewrite bind_ok by (apply get_Token_or_404_resolves; exact HT).
  unfold details_render. run.
  destruct (@for_each_pure _ _
              (fun rk => if is_address E (Token.owner_address rk)
                         then lift (to_normalized_address E (Token.owner_address rk))
                         else ret PNone)
              (filter (fun rk =>
                         db_exact (Token.name rk) (Token.name T)
                         && db_exact (Token.num_clones_allowed rk) (PInt 0)
                         && db_exact (Contract.network (Token.contract rk)) (KUDOS_NETWORK E))
                      (tokens (db w)))) as [addrs Haddrs].
  { intros rk. destruct (is_address E (Token.owner_address rk)) eqn:Ha.
    - destruct (Hnorm _ Ha) as [v Hv]. exists v. intros w0. unfold lift. now rewrite Hv.
    - exists PNone. reflexivity. }
  erewrite bind_ok by apply Haddrs. run. rewrite HG. cbn [qs_get]. run.
  eexists _, _. split; [reflexivity|]. split; [reflexivity|].
  eexists. split; [reflexivity|]. cbn. auto.
Qed.

(** The scenario of the specification: the detail view of the clone 99 of
    the Gen0 token 42. *)
Lemma details_clone_counts_from_gen0_witness :
  exists context w',
    details Sample.externals (Sample.request Sample.anonymous "10.0.0.9" None [])
            "99" "pythonista" (Sample.world [])
    = (Ok (TemplateResponse "kudos_details.html" context), w')
    /\ db w' = db (Sample.world [])
    /\ exists k, assoc "kudos" context = Some (CToken k)
                 /\ Token.pk k = Token.pk Sample.clone
                 /\ Token.num_clones_allowed k = PInt 0
                 /\ Token.num_clones_in_wild k = Token.num_clones_in_wild Sample.gen0
                 /\ Token.num_gen0_clones_allowed k
                    = Some (Token.num_clones_allowed Sample.gen0).
Proof.
  apply (@details_clone_counts_from_gen0 Sample.externals
           (Sample.request Sample.anonymous "10.0.0.9" None []) "99" "pythonista"
           (Sample.world []) Sample.clone Sample.gen0).
  - discriminate.
  - exists 99. split; reflexivity.
  - reflexivity.
  - reflexivity.
  - intros a _. exists a. reflexivity.
Defined.

(** ** Confirming the funding *)

Lemma qs_get_In {A : Type} (model : string) (f : A -> bool) (rows : list A) (x : A) :
  qs_get model (filter f rows) = Ok x -> In x rows /\ f x = true.
Proof.
  intros H. apply filter_In.
  destruct (filter f rows) as [|y [|z rest]]; try discriminate.
  inversion H; subst. now left.
Qed.

Lemma save_row_In {A : Type} (pk : A -> Z) (r x : A) (rows : list A) :
  In x rows -> pk x = pk r -> In r (save_row pk r rows).
Proof.
  intros Hin Hpk. unfold save_row.
  assert (Hex : existsb (fun y => pk y =? pk r) rows = true).
  { apply existsb_exists. exists x. split; [exact Hin | now apply Z.eqb_eq]. }
  rewrite Hex. apply in_map_iff. exists x. split; [|exact Hin].
  now rewrite (proj2 (Z.eqb_eq _ _) Hpk).
Qed.

(** The view up to the authorization check. *)
Lemma send_4_located (E : Externals) (request : Request.t) (w : World)
  (txid is_direct : pyval) (k : KudosTransfer.t) :
  send_4_locates request (db w) txid is_direct k ->
  send_4 E request w =
    let w1 := {| db := db w; trace := EvQuery "KudosTransfer" :: trace w |} in
    let is_authed :=
      py_or (PBool (py_eqb (KudosTransfer.ip k) (Request.ip request)))
            (py_and (KudosTransfer.from_username k)
                    (PBool (py_eqb (KudosTransfer.from_username k)
                                   (User.username (Request.user request))))) in
    if negb (truthy is_authed) then (Ok permission_denied, w1)
    else
      bind (KudosTransfer_save E (funded_record txid is_direct k))
           (fun _ => bind (notify E (funded_record txid is_direct k))
                          (fun _ => ret (OK_response "Kudos Sent"))) w1.
Proof.
  intros [params [dest [ct [salt [Hb [H1 [H2 [H3 [H4 [H5 H6]]]]]]]]]].
  unfold send_4, json_loads. rewrite Hb. run.
  rewrite H1. run. rewrite H2. run. rewrite H3. run. rewrite H4. run. rewrite H5. run.
  unfold KudosTransfer_get_metadata. run. rewrite H6. run.
  cbv zeta. unfold funded_record, permission_denied, OK_response.
  destruct (truthy is_direct);
    match goal with |- context [negb ?b] => destruct b end; reflexivity.
Qed.

(** C1. When the record a [send_4] request locates was created from another
    address than the caller's and under another sender name than the
    caller's user name, the view answers the Permission Denied response with
    status 401, and the database is as it was: the record is still there,
    untouched, and so its txid is still empty if it was. *)
Theorem send_4_permission_denied (E : Externals) (request : Request.t) (w : World)
  (txid is_direct : pyval) (k : KudosTransfer.t) :
  send_4_locates request (db w) txid is_direct k ->
  py_eqb (KudosTransfer.ip k) (Request.ip request) = false ->
  py_eqb (KudosTransfer.from_username k) (User.username (Request.user request)) = false ->
  exists w',
    send_4 E request w =
      (Ok (JsonResponse [("status", PStr "error"); ("message", PStr "Permission Denied")] 401), w')
    /\ db w' = db w
    /\ In k (kudos_transfers (db w'))
    /\ send_4_locates request (db w') txid is_direct k
    /\ count_notify (trace w') = count_notify (trace w).
Proof.
  intros Hloc Hip Huser.
  rewrite (send_4_located E request w txid is_direct k Hloc). cbv zeta. rewrite Hip, Huser.
  assert (Hdenied : truthy (py_or (PBool false)
                              (py_and (KudosTransfer.from_username k) (PBool false))) = false).
  { unfold py_or, py_and. simpl.
    destruct (truthy (KudosTransfer.from_username k)) eqn:Ht; [reflexivity | exact Ht]. }
  rewrite Hdenied. simpl negb. cbv iota.
  eexists. split; [reflexivity|]. simpl.
  split; [reflexivity|]. split; [|split; [exact Hloc | reflexivity]].
  destruct Hloc as [params [dest [ct [salt [_ [_ [_ [_ [_ [_ H6]]]]]]]]]].
  now apply qs_get_In in H6.
Qed.

(** The request of a stranger: another address, not logged in. *)
Lemma send_4_permission_denied_witness :
  exists w',
    send_4 Sample.externals
      (Sample.request Sample.anonymous "203.0.113.9"
         (Some (PDict [ ("txid", PStr "0xdeadbeef"); ("destinationAccount", PStr "0xabc");
                        ("creation_time", PInt 100); ("salt", PStr "s1") ])) [])
      (Sample.world [Sample.created])
    = (Ok (JsonResponse [("status", PStr "error"); ("message", PStr "Permission Denied")] 401), w')
    /\ db w' = db (Sample.world [Sample.created])
    /\ In Sample.created (kudos_transfers (db w'))
    /\ send_4_locates
         (Sample.request Sample.anonymous "203.0.113.9"
            (Some (PDict [ ("txid", PStr "0xdeadbeef"); ("destinationAccount", PStr "0xabc");
                           ("creation_time", PInt 100); ("salt", PStr "s1") ])) [])
         (db w') (PStr "0xdeadbeef") (PBool false) Sample.created
    /\ count_notify (trace w') = count_notify (trace (Sample.world [Sample.created])).
Proof.
  apply send_4_permission_denied.
  - exists (PDict [ ("txid", PStr "0xdeadbeef"); ("destinationAccount", PStr "0xabc");
                    ("creation_time", PInt 100); ("salt", PStr "s1") ]),
      (PStr "0xabc"), (PInt 100), (PStr "s1").
    repeat split; reflexivity.
  - reflexivity.
  - reflexivity.
Defined.

(** A save asks the database about the values first: the row is written
    when the columns take them, and the refusal is raised with nothing
    written otherwise. *)
Lemma KudosTransfer_save_run (E : Externals) (k : KudosTransfer.t) (w : World) :
  KudosTransfer_save E k w =
    match KudosTransfer_columns E k with
    | Ok _ =>
        (Ok tt,
         {| db := set_kudos_transfers
                    (save_row KudosTransfer.pk k (kudos_transfers (db w))) (db w);
            trace := EvWrite "KudosTransfer" (KudosTransfer.pk k) :: trace w |})
    | Raise e => (Raise e, w)
    end.
Proof.
  unfold KudosTransfer_save. destruct (KudosTransfer_columns E k) as [[]|e]; reflexivity.
Qed.

Lemma KudosTransfer_save_accepted (E : Externals) (k : KudosTransfer.t) (w : World) :
  KudosTransfer_columns E k = Ok tt ->
  KudosTransfer_save E k w =
    (Ok tt,
     {| db := set_kudos_transfers (save_row KudosTransfer.pk k (kudos_transfers (db w))) (db w);
        trace := EvWrite "KudosTransfer" (KudosTransfer.pk k) :: trace w |}).
Proof. intros H. rewrite KudosTransfer_save_run, H. reflexivity. Qed.

Lemma funded_record_pk (txid is_direct : pyval) (k : KudosTransfer.t) :
  KudosTransfer.pk (funded_record txid is_direct k) = KudosTransfer.pk k.
Proof. unfold funded_record. destruct (truthy is_direct); reflexivity. Qed.

(** C4, as the code has it.  An authorized [send_4] call that locates one
    record sets its txid to the transaction id of the request, and its
    receive_txid to the same value when the request is flagged
    direct-to-recipient (left as it was otherwise), and saves it.  When the
    database takes the values, the record is written and the notification
    sink is then called once, on the written record: the answer is the
    success response whatever value the sink returns, and an exception raised
    by the sink is not caught and becomes the outcome of the view, the record
    staying written.  When the database refuses the values (a null txid on
    the NOT NULL column), the refusal is the outcome of the view: nothing is
    written and the sink is not called. *)
Theorem send_4_confirms_funding (E : Externals) (request : Request.t) (w : World)
  (txid is_direct : pyval) (k : KudosTransfer.t) :
  send_4_locates request (db w) txid is_direct k ->
  send_4_authorized request k ->
  match KudosTransfer_columns E (funded_record txid is_direct k) with
  | Ok _ =>
      exists w',
        send_4 E request w =
          (match maybe_market_kudos_to_email E (funded_record txid is_direct k) with
           | Ok _ => Ok (JsonResponse [("status", PStr "OK"); ("message", PStr "Kudos Sent")] 200)
           | Raise e => Raise e
           end, w')
        /\ In (funded_record txid is_direct k) (kudos_transfers (db w'))
        /\ KudosTransfer.txid (funded_record txid is_direct k) = txid
        /\ KudosTransfer.receive_txid (funded_record txid is_direct k)
           = (if truthy is_direct then txid else KudosTransfer.receive_txid k)
        /\ trace w' = EvNotify (funded_record txid is_direct k)
                      :: EvWrite "KudosTransfer" (KudosTransfer.pk k)
                      :: EvQuery "KudosTransfer" :: trace w
        /\ count_notify (trace w') = S (count_notify (trace w))
  | Raise e =>
      exists w',
        send_4 E request w = (Raise e, w')
        /\ db w' = db w
        /\ count_notify (trace w') = count_notify (trace w)
  end.
Proof.
  intros Hloc Hauth.
  rewrite (send_4_located E request w txid is_direct k Hloc). cbv zeta.
  assert (Hok : truthy (py_or (PBool (py_eqb (KudosTransfer.ip k) (Request.ip request)))
                          (py_and (KudosTransfer.from_username k)
                             (PBool (py_eqb (KudosTransfer.from_username k)
                                       (User.username (Request.user request)))))) = true).
  { unfold py_or, py_and. destruct Hauth as [Hip | [Hname Heq]].
    - rewrite Hip. reflexivity.
    - rewrite Hname, Heq. simpl.
      destruct (py_eqb (KudosTransfer.ip k) (Request.ip request)); reflexivity. }
  rewrite Hok. simpl negb. cbv iota.
  destruct (KudosTransfer_columns E (funded_record txid is_direct k)) as [[]|e] eqn:Hcol.
  - erewrite bind_ok by (apply KudosTransfer_save_accepted; exact Hcol).
    unfold notify. run.
    rewrite (funded_record_pk txid is_direct k).
    eexists. split.
    + destruct (maybe_market_kudos_to_email E (funded_record txid is_direct k)); reflexivity.
    + cbn [db trace kudos_transfers set_kudos_transfers].
      split.
      * destruct Hloc as [params [dest [ct [salt [_ [_ [_ [_ [_ [_ H6]]]]]]]]]].
        apply qs_get_In in H6. destruct H6 as [Hin _].
        apply save_row_In with (x := k); [exact Hin|].
        symmetry. apply funded_record_pk.
      * split; [unfold funded_record; destruct (truthy is_direct); reflexivity|].
        split; [unfold funded_record; destruct (truthy is_direct); reflexivity|].
        split; reflexivity.
  - erewrite bind_raise by (rewrite KudosTransfer_save_run, Hcol; reflexivity).
    eexists. split; [reflexivity|]. split; reflexivity.
Qed.

(** The scenario of the specification: the sender confirms from the address
    the transfer was created from. *)
Lemma send_4_confirms_funding_witness :
  exists w',
    send_4 Sample.externals
      (Sample.request Sample.anonymous "10.0.0.1"
         (Some (PDict [ ("txid", PStr "0xdeadbeef"); ("destinationAccount", PStr "0xabc");
                        ("creation_time", PInt 100); ("salt", PStr "s1") ])) [])
      (Sample.world [Sample.created])
    = (Ok (JsonResponse [("status", PStr "OK"); ("message", PStr "Kudos Sent")] 200), w')
    /\ In Sample.funded (kudos_transfers (db w'))
    /\ KudosTransfer.txid Sample.funded = PStr "0xdeadbeef"
    /\ KudosTransfer.receive_txid Sample.funded = PStr ""
    /\ trace w' = [EvNotify Sample.funded; EvWrite "KudosTransfer" 7; EvQuery "KudosTransfer"]
    /\ count_notify (trace w') = 1%nat.
Proof.
  apply (send_4_confirms_funding Sample.externals
           (Sample.request Sample.anonymous "10.0.0.1"
              (Some (PDict [ ("txid", PStr "0xdeadbeef"); ("destinationAccount", PStr "0xabc");
                             ("creation_time", PInt 100); ("salt", PStr "s1") ])) [])
           (Sample.world [Sample.created]) (PStr "0xdeadbeef") (PBool false) Sample.created).
  - exists (PDict [ ("txid", PStr "0xdeadbeef"); ("destinationAccount", PStr "0xabc");
                    ("creation_time", PInt 100); ("salt", PStr "s1") ]),
      (PStr "0xabc"), (PInt 100), (PStr "s1").
    repeat split; reflexivity.
  - left. reflexivity.
Defined.

(** C4 as stated fails where the sink fails: with the mail server down, the
    same authorized request on the same created record does not get the
    success response; the exception of the sink is the outcome. *)
Lemma send_4_sink_failure_propagates :
  let request :=
    Sample.request Sample.anonymous "10.0.0.1"
      (Some (PDict [ ("txid", PStr "0xdeadbeef"); ("destinationAccount", PStr "0xabc");
                     ("creation_time", PInt 100); ("salt", PStr "s1") ])) [] in
  let w := Sample.world [Sample.created] in
  send_4_locates request (db w) (PStr "0xdeadbeef") (PBool false) Sample.created
  /\ send_4_authorized request Sample.created
  /\ KudosTransfer.txid Sample.created = PStr ""
  /\ fst (send_4 Sample.externals_mail_down request w)
     = Raise (ExternalError "mail server unreachable")
  /\ fst (send_4 Sample.externals_mail_down request w)
     <> Ok (JsonResponse [("status", PStr "OK"); ("message", PStr "Kudos Sent")] 200)
  /\ count_notify (trace (snd (send_4 Sample.externals_mail_down request w))) = 1%nat.
Proof.
  cbv zeta. split.
  - exists (PDict [ ("txid", PStr "0xdeadbeef"); ("destinationAccount", PStr "0xabc");
                    ("creation_time", PInt 100); ("salt", PStr "s1") ]),
      (PStr "0xabc"), (PInt 100), (PStr "s1").
    repeat split; reflexivity.
  - split; [left; reflexivity|]. split; [reflexivity|].
    split; [reflexivity|]. split; [discriminate | reflexivity].
Qed.

(** A body whose txid is JSON null: the sample database refuses the NULL,
    and the request ends in that error with the stored row as it was. *)
Example send_4_null_txid :
  send_4 Sample.externals
    (Sample.request Sample.anonymous "10.0.0.1"
       (Some (PDict [ ("txid", PNone); ("destinationAccount", PStr "0xabc");
                      ("creation_time", PInt 100); ("salt", PStr "s1") ])) [])
    (Sample.world [Sample.created])
  = (Raise (DatabaseError "null value in column violates not-null constraint"),
     {| db := Sample.database [Sample.created]; trace := [EvQuery "KudosTransfer"] |}).
Proof. reflexivity. Qed.

(** ** Claiming *)

Lemma filter_nil {A : Type} (f : A -> bool) (l : list A) :
  (forall x, In x l -> f x = false) -> filter f l = [].
Proof.
  intros H. induction l as [|x l IH]; simpl; [reflexivity|].
  rewrite (H x (or_introl eq_refl)). apply IH. intros y Hy. apply H. now right.
Qed.

Lemma quiet_ret {A : Type} (a : A) : quiet (ret a).
Proof. intros w. split; reflexivity. Qed.

Lemma quiet_lift {A : Type} (r : Res A) : quiet (lift r).
Proof. intros w. split; reflexivity. Qed.

Lemma quiet_bind {A B : Type} (m : M A) (k : A -> M B) :
  quiet m -> (forall a, quiet (k a)) -> quiet (bind m k).
Proof.
  intros Hm Hk w. unfold bind. specialize (Hm w).
  destruct (m w) as [[a|e] w1]; simpl in *.
  - destruct (Hk a w1) as [H1 H2]. destruct Hm as [H3 H4]. split; congruence.
  - exact Hm.
Qed.

Lemma quiet_query (model : string) : quiet (emit (EvQuery model)).
Proof. intros w. split; reflexivity. Qed.

Lemma quiet_chain_query (net addr : pyval) : quiet (emit (EvChainQuery net addr)).
Proof. intros w. split; reflexivity. Qed.

Create HintDb quiet.
#[local] Hint Resolve quiet_ret quiet_lift quiet_query quiet_chain_query : quiet.

Ltac quiet_steps :=
  repeat first [ solve [auto with quiet] | apply quiet_bind; [| intros ?] ].

(** The two checks of [receive] read the chain and nothing else of the
    world: the database is as before, and no message is issued. *)
Lemma claim_checks_quiet (E : Externals) (request : Request.t) (k : KudosTransfer.t) :
  quiet (claim_checks E request k).
Proof.
  unfold claim_checks, balance_of.
  apply quiet_bind; [|intros ?; quiet_steps].
  destruct (truthy (KudosTransfer.trust_url k)); quiet_steps.
Qed.

(** [receive] up to the guards. *)
Lemma receive_resolved (E : Externals) (request : Request.t) (key txid network : string)
  (w : World) (k : KudosTransfer.t) :
  receive_resolves (db w) key txid network k ->
  receive E request key txid network w =
    bind (claim_checks E request k)
      (fun checks =>
         let is_authed := fst checks in
         let not_mined_yet := snd checks in
         let is_authenticated := User.is_authenticated (Request.user request) in
         if negb is_authenticated
            || is_authenticated
               && negb (match getattr_profile request with Some _ => true | None => false end)
         then ret (login_redirect request)
         else
           bind
             (if truthy (KudosTransfer.receive_txid k) then
                bind (message "info" "This kudos has been received") (fun _ => ret k)
              else if negb (truthy is_authed) then
                bind (message "error" (wrong_user_text E k request)) (fun _ => ret k)
              else if not_mined_yet
                      && negb (truthy (GET_get (Request.GET request) "receive_txid")) then
                bind (message "info" (still_mining_text txid)) (fun _ => ret k)
              else if truthy (GET_get (Request.GET request) "receive_txid")
                      && negb (truthy (KudosTransfer.receive_txid k)) then
                bind (run_local k (try_except (claim_mutation E request) claim_except))
                     (fun r => ret (snd r))
              else ret k)
             (fun k' => ret (receive_page E request key k' is_authed not_mined_yet)))
      (after_query w).
Proof.
  intros Hk. unfold receive, receive_resolves in *. run. rewrite Hk. reflexivity.
Qed.

Lemma login_check_passes (request : Request.t) :
  logged_in_with_profile request ->
  negb (User.is_authenticated (Request.user request))
  || User.is_authenticated (Request.user request)
     && negb (match getattr_profile request with Some _ => true | None => false end)
  = false.
Proof. intros [Ha [p Hp]]. rewrite Ha, Hp. reflexivity. Qed.

Lemma login_check_fails (request : Request.t) :
  ~ logged_in_with_profile request ->
  negb (User.is_authenticated (Request.user request))
  || User.is_authenticated (Request.user request)
     && negb (match getattr_profile request with Some _ => true | None => false end)
  = true.
Proof.
  unfold logged_in_with_profile. intros Hn.
  destruct (User.is_authenticated (Request.user request)); [|reflexivity].
  destruct (getattr_profile request) as [p|]; [|reflexivity].
  exfalso. apply Hn. split; [reflexivity | now exists p].
Qed.

(** C2, as the code has it.  On a record whose receive_txid is set,
    [receive] changes no row of any table, whatever else happens.  When the
    two checks made before the guards return, a caller who is logged in and
    has a profile gets the page of the record as stored, with the single new
    message that the kudos has been received; any other caller is redirected
    to the login page and gets no message. *)
Theorem receive_already_received (E : Externals) (request : Request.t)
  (key txid network : string) (w : World) (k : KudosTransfer.t) :
  receive_resolves (db w) key txid network k ->
  truthy (KudosTransfer.receive_txid k) = true ->
  db (snd (receive E request key txid network w)) = db w
  /\ forall is_authed not_mined_yet w1,
      claim_checks E request k (after_query w) = (Ok (is_authed, not_mined_yet), w1) ->
      (logged_in_with_profile request ->
       receive E request key txid network w =
         (Ok (receive_page E request key k is_authed not_mined_yet),
          {| db := db w;
             trace := EvMessage "info" "This kudos has been received" :: trace w1 |})
       /\ messages_of (EvMessage "info" "This kudos has been received" :: trace w1)
          = ("info", "This kudos has been received") :: messages_of (trace w))
      /\ (~ logged_in_with_profile request ->
          receive E request key txid network w = (Ok (login_redirect request), w1)
          /\ messages_of (trace w1) = messages_of (trace w)).
Proof.
  intros Hk Hset.
  rewrite (receive_resolved E request key txid network w k Hk).
  pose proof (claim_checks_quiet E request k (after_query w)) as [Hdb Hmsg].
  split.
  - unfold bind at 1.
    destruct (claim_checks E request k (after_query w)) as [[[a nm]|e] w1];
      simpl in Hdb; [|exact Hdb].
    cbv zeta. cbn [fst snd]. rewrite Hset.
    destruct (negb (User.is_authenticated (Request.user request))
              || User.is_authenticated (Request.user request)
                 && negb (match getattr_profile request with
                          | Some _ => true | None => false end));
      [exact Hdb|]. unfold message. run. exact Hdb.
  - intros a nm w1 Hchecks. rewrite Hchecks in Hdb, Hmsg. simpl in Hdb, Hmsg.
    erewrite bind_ok by exact Hchecks. cbv zeta. cbn [fst snd]. rewrite Hset.
    split.
    + intros Hin. rewrite (login_check_passes request Hin).
      unfold message. run. rewrite Hdb. split; [reflexivity|].
      simpl. now rewrite Hmsg.
    + intros Hout. rewrite (login_check_fails request Hout).
      split; [reflexivity | exact Hmsg].
Qed.

(** The recipient comes back to a transfer that is already claimed. *)
Lemma receive_already_received_witness :
  let request := Sample.request Sample.user_bob "10.0.0.2" None [] in
  let w := Sample.world [Sample.claimed] in
  db (snd (receive Sample.externals request "k-recipient" "0xdeadbeef" "mainnet" w)) = db w
  /\ forall is_authed not_mined_yet w1,
      claim_checks Sample.externals request Sample.claimed (after_query w)
      = (Ok (is_authed, not_mined_yet), w1) ->
      (logged_in_with_profile request ->
       receive Sample.externals request "k-recipient" "0xdeadbeef" "mainnet" w =
         (Ok (receive_page Sample.externals request "k-recipient" Sample.claimed
                is_authed not_mined_yet),
          {| db := db w;
             trace := EvMessage "info" "This kudos has been received" :: trace w1 |})
       /\ messages_of (EvMessage "info" "This kudos has been received" :: trace w1)
          = ("info", "This kudos has been received") :: messages_of (trace w))
      /\ (~ logged_in_with_profile request ->
          receive Sample.externals request "k-recipient" "0xdeadbeef" "mainnet" w
          = (Ok (login_redirect request), w1)
          /\ messages_of (trace w1) = messages_of (trace w)).
Proof.
  cbv zeta.
  apply (receive_already_received Sample.externals
           (Sample.request Sample.user_bob "10.0.0.2" None [])
           "k-recipient" "0xdeadbeef" "mainnet" (Sample.world [Sample.claimed]) Sample.claimed).
  - reflexivity.
  - reflexivity.
Defined.

(** What the recipient of the sample gets, in full. *)
Example receive_already_received_bob :
  receive Sample.externals (Sample.request Sample.user_bob "10.0.0.2" None [])
          "k-recipient" "0xdeadbeef" "mainnet" (Sample.world [Sample.claimed])
  = (Ok (receive_page Sample.externals (Sample.request Sample.user_bob "10.0.0.2" None [])
           "k-recipient" Sample.claimed (PBool true) false),
     {| db := Sample.database [Sample.claimed];
        trace := [ EvMessage "info" "This kudos has been received";
                   EvChainQuery (PStr "mainnet") (PStr "0xabc");
                   EvQuery "KudosTransfer" ] |}).
Proof. reflexivity. Qed.

(** C2 as stated fails for a caller who is not logged in: on the claimed
    record, the answer is the redirect to the login page and no message is
    issued. *)
Lemma receive_already_received_anonymous :
  let request := Sample.request Sample.anonymous "10.0.0.2" None [] in
  let w := Sample.world [Sample.claimed] in
  receive_resolves (db w) "k-recipient" "0xdeadbeef" "mainnet" Sample.claimed
  /\ truthy (KudosTransfer.receive_txid Sample.claimed) = true
  /\ fst (receive Sample.externals request "k-recipient" "0xdeadbeef" "mainnet" w)
     = Ok (HttpResponseRedirect "/login/github?next=/kudos/receive")
  /\ messages_of
       (trace (snd (receive Sample.externals request "k-recipient" "0xdeadbeef" "mainnet" w)))
     = [].
Proof. cbv zeta. repeat split; reflexivity. Qed.

(** C5. When no transfer with the given txid and network carries the key as
    its recipient hash or as its funder hash, no record resolves, and
    [receive] ends in an error: the attribute read on the missing record
    raises, nothing catches it, and the caller gets the error page of the
    framework.  Only the one query has been made: the database is as it was
    and no message was issued. *)
Theorem receive_unknown_key (E : Externals) (request : Request.t)
  (key txid network : string) (w : World) :
  (forall k, In k (kudos_transfers (db w)) ->
             db_exact (KudosTransfer.txid k) (PStr txid) = true ->
             db_exact (KudosTransfer.network k) (PStr network) = true ->
             json_key_exact (KudosTransfer.metadata k) "reference_hash_for_receipient" (PStr key)
             = false
             /\ json_key_exact (KudosTransfer.metadata k) "reference_hash_for_funder" (PStr key)
                = false) ->
  qs_first KudosTransfer.pk (claim_candidates key txid network (db w)) = None
  /\ receive E request key txid network w
     = (Raise (AttributeError "'NoneType' object has no attribute 'trust_url'"),
        {| db := db w; trace := EvQuery "KudosTransfer" :: trace w |}).
Proof.
  intros Hkey.
  assert (Hnone : claim_candidates key txid network (db w) = []).
  { unfold claim_candidates. apply filter_nil. intros k Hin.
    apply filter_In in Hin. destruct Hin as [Hin Hsel].
    apply andb_prop in Hsel. destruct Hsel as [Hsel Hnet].
    apply andb_prop in Hsel. destruct Hsel as [_ Htx].
    destruct (Hkey k Hin Htx Hnet) as [H1 H2]. rewrite H1, H2. reflexivity. }
  split.
  - rewrite Hnone. reflexivity.
  - unfold receive. run. rewrite Hnone. reflexivity.
Qed.

(** The funded sample transfer, asked for with a key it does not carry. *)
Lemma receive_unknown_key_witness :
  qs_first KudosTransfer.pk
    (claim_candidates "k-guess" "0xdeadbeef" "mainnet" (db (Sample.world [Sample.funded])))
  = None
  /\ receive Sample.externals (Sample.request Sample.user_bob "10.0.0.2" None [])
             "k-guess" "0xdeadbeef" "mainnet" (Sample.world [Sample.funded])
     = (Raise (AttributeError "'NoneType' object has no attribute 'trust_url'"),
        {| db := db (Sample.world [Sample.funded]);
           trace := EvQuery "KudosTransfer" :: trace (Sample.world [Sample.funded]) |}).
Proof.
  apply receive_unknown_key.
  intros k [<-|[]] _ _. split; reflexivity.
Defined.

(** C6, as the code has it.  When the mutation block of [receive] raises,
    the exception stops there: its text is issued to the user as an error
    message and logged, and the view answers the page.  The page shows the
    record as the block left it, and the world is as the block left it; when
    the block fails on its first statement (no [save_addr] in the query) that
    is the record and the world from before the block. *)
Theorem receive_swallows_mutation_error (E : Externals) (request : Request.t)
  (key txid network : string) (w w1 w2 : World) (k k' : KudosTransfer.t)
  (is_authed : pyval) (not_mined_yet : bool) (e : exn) :
  receive_resolves (db w) key txid network k ->
  claim_checks E request k (after_query w) = (Ok (is_authed, not_mined_yet), w1) ->
  logged_in_with_profile request ->
  truthy (KudosTransfer.receive_txid k) = false ->
  truthy is_authed = true ->
  truthy (GET_get (Request.GET request) "receive_txid") = true ->
  claim_mutation E request (k, w1) = (Raise e, (k', w2)) ->
  receive E request key txid network w =
    (Ok (receive_page E request key k' is_authed not_mined_yet),
     {| db := db w2;
        trace := EvLog "exception" (exn_str e) :: EvMessage "error" (exn_str e) :: trace w2 |})
  /\ (assoc "save_addr" (Request.GET request) = None ->
      e = KeyError "save_addr" /\ k' = k /\ w2 = w1).
Proof.
  intros Hk Hchecks Hin Hunset Hauth Hget Hmut. split.
  - rewrite (receive_resolved E request key txid network w k Hk).
    erewrite bind_ok by exact Hchecks. cbv zeta. cbn [fst snd].
    rewrite (login_check_passes request Hin), Hunset, Hauth, Hget.
    rewrite Bool.andb_false_r. cbn [negb andb].
    unfold run_local, try_except. rewrite bind_assoc. unfold bind at 1.
    rewrite Hmut. reflexivity.
  - intros Hmissing. unfold claim_mutation, GET_getitem in Hmut.
    rewrite Hmissing in Hmut. rewrite bind_lift_raise in Hmut.
    inversion Hmut. auto.
Qed.

(** The recipient submits the claim form without the [save_addr] field. *)
Lemma receive_swallows_mutation_error_witness :
  let request := Sample.request Sample.user_bob "10.0.0.2" None [("receive_txid", "0xfeed")] in
  let w := Sample.world [Sample.funded] in
  let w1 := {| db := db w;
               trace := [EvChainQuery (PStr "mainnet") (PStr "0xabc"); EvQuery "KudosTransfer"] |} in
  receive Sample.externals request "k-recipient" "0xdeadbeef" "mainnet" w =
    (Ok (receive_page Sample.externals request "k-recipient" Sample.funded (PBool true) false),
     {| db := db w1;
        trace := EvLog "exception" (exn_str (KeyError "save_addr"))
                 :: EvMessage "error" (exn_str (KeyError "save_addr")) :: trace w1 |})
  /\ (assoc "save_addr" (Request.GET request) = None ->
      KeyError "save_addr" = KeyError "save_addr" /\ Sample.funded = Sample.funded /\ w1 = w1).
Proof.
  cbv zeta.
  apply (receive_swallows_mutation_error Sample.externals
           (Sample.request Sample.user_bob "10.0.0.2" None [("receive_txid", "0xfeed")])
           "k-recipient" "0xdeadbeef" "mainnet" (Sample.world [Sample.funded])).
  - reflexivity.
  - reflexivity.
  - split; [reflexivity | eexists; reflexivity].
  - reflexivity.
  - reflexivity.
  - reflexivity.
  - reflexivity.
Defined.

(** C6 as stated fails on the state of the page: the recipient submits the
    claim form with an empty [save_addr] and no [forwarding_address].  The
    block assigns receive_txid, then raises on the missing field; the
    exception is swallowed and the page is rendered, but with the assigned
    receive_txid and with its inputs disabled, while the stored row is as
    before. *)
Lemma receive_failed_mutation_page :
  let request :=
    Sample.request Sample.user_bob "10.0.0.2" None
      [("receive_txid", "0xfeed"); ("save_addr", "")] in
  let w := Sample.world [Sample.funded] in
  let w1 := {| db := db w;
               trace := [EvChainQuery (PStr "mainnet") (PStr "0xabc"); EvQuery "KudosTransfer"] |} in
  let assigned := KudosTransfer.set_receive_txid (PStr "0xfeed") Sample.funded in
  claim_mutation Sample.externals request (Sample.funded, w1)
  = (Raise (KeyError "forwarding_address"), (assigned, w1))
  /\ receive Sample.externals request "k-recipient" "0xdeadbeef" "mainnet" w
     = (Ok (receive_page Sample.externals request "k-recipient" assigned (PBool true) false),
        {| db := db w;
           trace := EvLog "exception" "'forwarding_address'"
                    :: EvMessage "error" "'forwarding_address'" :: trace w1 |})
  /\ receive_page Sample.externals request "k-recipient" assigned (PBool true) false
     <> receive_page Sample.externals request "k-recipient" Sample.funded (PBool true) false
  /\ KudosTransfer.receive_txid assigned = PStr "0xfeed"
  /\ KudosTransfer.receive_txid Sample.funded = PStr ""
  /\ kudos_transfers (db w) = [Sample.funded].
Proof.
  cbv zeta. repeat split; try reflexivity. discriminate.
Qed.

(** ** Creating a transfer *)

Lemma quiet_raise {A : Type} (e : exn) : quiet (@raise World A e).
Proof. intros w. split; reflexivity. Qed.

Lemma quiet_try_except {A : Type} (m : M A) (h : exn -> M A) :
  quiet m -> (forall e, quiet (h e)) -> quiet (try_except m h).
Proof.
  intros Hm Hh w. unfold try_except. specialize (Hm w).
  destruct (m w) as [[a|e] w1]; simpl in *.
  - exact Hm.
  - destruct (Hh e w1) as [H1 H2]. destruct Hm as [H3 H4]. split; congruence.
Qed.

Lemma quiet_get_db : quiet get_db.
Proof. intros w. split; reflexivity. Qed.

#[local] Hint Resolve quiet_raise quiet_get_db : quiet.

Lemma quiet_Token_get_pk (v : pyval) : quiet (Token_get_pk v).
Proof. unfold Token_get_pk. destruct v; quiet_steps. Qed.

Lemma quiet_send_3_token (v : pyval) : quiet (send_3_token v).
Proof.
  unfold send_3_token. apply quiet_try_except; [apply quiet_Token_get_pk|].
  intros e. destruct e; auto with quiet.
Qed.

Lemma quiet_get_profile (E : Externals) (handle : pyval) : quiet (get_profile E handle).
Proof.
  unfold get_profile. apply quiet_try_except; [quiet_steps|].
  intros e. destruct e; quiet_steps.
Qed.

Lemma quiet_send_3_inputs (E : Externals) (request : Request.t) :
  quiet (send_3_inputs E request).
Proof.
  unfold send_3_inputs, user_profile, json_loads.
  apply quiet_bind.
  - destruct (User.is_authenticated (Request.user request)); [|quiet_steps].
    apply quiet_bind; [quiet_steps|]. intros [p|]; [|quiet_steps].
    apply quiet_bind; [quiet_steps|]. intros [p'|]; quiet_steps.
  - intros access_token. apply quiet_bind.
    + destruct (Request.body request); quiet_steps.
    + intros params. do 5 (apply quiet_bind; [quiet_steps | intros ?]).
      apply quiet_bind; [|intros ?; quiet_steps].
      match goal with |- quiet (if ?b then _ else _) => destruct b end; quiet_steps.
Qed.

Lemma quiet_fails_clean {A : Type} (m : M A) : quiet m -> fails_clean m.
Proof. intros Hm w e w' H. destruct (Hm w) as [Hdb _]. now rewrite H in Hdb. Qed.

Lemma fails_clean_bind {A B : Type} (m : M A) (k : A -> M B) :
  quiet m -> (forall a, fails_clean (k a)) -> fails_clean (bind m k).
Proof.
  intros Hm Hk w e w'. unfold bind. destruct (Hm w) as [Hdb _].
  destruct (m w) as [[a|e1] w1]; simpl in Hdb; intros H.
  - rewrite (Hk a w1 e w' H). exact Hdb.
  - inversion H; subst. exact Hdb.
Qed.

(** A row is created when the database takes its values, under a new
    primary key; a refusal is raised with nothing written. *)
Lemma KudosTransfer_create_run (E : Externals) (k : KudosTransfer.t) (w : World) :
  KudosTransfer_create E k w =
    match KudosTransfer_columns E k with
    | Ok _ =>
        (Ok tt,
         {| db := set_kudos_transfers
                    (kudos_transfers (db w)
                       ++ [KudosTransfer.set_pk
                             (next_pk KudosTransfer.pk (kudos_transfers (db w))) k]) (db w);
            trace := EvWrite "KudosTransfer"
                       (next_pk KudosTransfer.pk (kudos_transfers (db w))) :: trace w |})
    | Raise e => (Raise e, w)
    end.
Proof.
  unfold KudosTransfer_create. destruct (KudosTransfer_columns E k) as [[]|e]; reflexivity.
Qed.

(** Every failing [send_3] leaves the database as it was: the one write of
    the view is its last step, and a write that is refused writes nothing. *)
Lemma send_3_fails_clean (E : Externals) (request : Request.t) :
  fails_clean (send_3 E request).
Proof.
  unfold send_3. cbv zeta.
  apply fails_clean_bind; [apply quiet_send_3_inputs|].
  intros [[[params from_username] to_username] to_emails].
  apply fails_clean_bind; [quiet_steps|]. intros kudos_id.
  destruct (negb (truthy kudos_id)); [apply quiet_fails_clean; quiet_steps|].
  apply fails_clean_bind; [apply quiet_send_3_token|]. intros token.
  do 11 (apply fails_clean_bind; [quiet_steps | intros ?]).
  do 2 (apply fails_clean_bind; [apply quiet_get_profile | intros ?]).
  intros w e w' H. unfold bind in H. rewrite KudosTransfer_create_run in H.
  match type of H with
  | context [KudosTransfer_columns E ?K] => destruct (KudosTransfer_columns E K) as [[]|e0]
  end; [discriminate|]. now inversion H.
Qed.

Lemma send_3_token_unknown (kudos_id : pyval) (w : World) :
  no_such_token (db w) kudos_id ->
  fst (send_3_token kudos_id w) = Raise Http404.
Proof.
  intros [z [Hz Hnone]]. unfold send_3_token, try_except, Token_get_pk.
  assert (Hrows : filter (fun k => Token.pk k =? z) (tokens (db w)) = []).
  { apply filter_nil. intros k Hin. apply Z.eqb_neq. now apply Hnone. }
  destruct kudos_id; try discriminate; rewrite Hz; run; rewrite Hrows; reflexivity.
Qed.

(** C3, as the code has it.  A [send_3] request that gets as far as the
    token check fails with [Http404] when its body has no [kudosId], or a
    [kudosId] that is empty, zero or otherwise false, or one that reads as
    an integer that is the primary key of no token; and then the database
    is as it was: no transfer row has been added. *)
Theorem send_3_unknown_token (E : Externals) (request : Request.t) (w w1 : World)
  (params from_username to_username kudos_id : pyval) (to_emails : list pyval) :
  send_3_inputs E request w = (Ok (params, from_username, to_username, to_emails), w1) ->
  py_get params "kudosId" PNone = Ok kudos_id ->
  truthy kudos_id = false \/ no_such_token (db w) kudos_id ->
  exists w',
    send_3 E request w = (Raise Http404, w')
    /\ db w' = db w
    /\ kudos_transfers (db w') = kudos_transfers (db w).
Proof.
  intros Hin Hid Hcase.
  assert (H404 : exists w', send_3 E request w = (Raise Http404, w')).
  { unfold send_3. cbv zeta. erewrite bind_ok by exact Hin. cbv beta iota.
    rewrite Hid. run.
    destruct (truthy kudos_id) eqn:Ht; cbn [negb].
    - destruct Hcase as [Hf|Hno]; [discriminate|].
      pose proof (quiet_send_3_inputs E request w) as [Hdb _].
      rewrite Hin in Hdb. simpl in Hdb. rewrite <- Hdb in Hno.
      pose proof (send_3_token_unknown kudos_id w1 Hno) as Htok.
      destruct (send_3_token kudos_id w1) as [r w2] eqn:Hrun. simpl in Htok. subst r.
      exists w2. erewrite bind_raise by exact Hrun. reflexivity.
    - exists w1. reflexivity. }
  destruct H404 as [w' Hrun]. exists w'. split; [exact Hrun|].
  pose proof (send_3_fails_clean E request w Http404 w' Hrun) as Hdb.
  split; [exact Hdb | now rewrite Hdb].
Qed.

(** A logged-in sender names a token that does not exist. *)
Lemma send_3_unknown_token_witness :
  exists w',
    send_3 Sample.externals
      (Sample.request Sample.user_alice "10.0.0.1"
         (Some (PDict [("kudosId", PInt 1234); ("username", PStr "@bob")])) [])
      (Sample.world [Sample.created])
    = (Raise Http404, w')
    /\ db w' = db (Sample.world [Sample.created])
    /\ kudos_transfers (db w') = kudos_transfers (db (Sample.world [Sample.created])).
Proof.
  apply (send_3_unknown_token Sample.externals
           (Sample.request Sample.user_alice "10.0.0.1"
              (Some (PDict [("kudosId", PInt 1234); ("username", PStr "@bob")])) [])
           (Sample.world [Sample.created]) (Sample.world [Sample.created])
           (PDict [("kudosId", PInt 1234); ("username", PStr "@bob")])
           (PStr "alice") (PStr "bob") (PInt 1234) []).
  - reflexivity.
  - reflexivity.
  - right. exists 1234. split; [reflexivity|].
    intros k [<-|[<-|[]]]; discriminate.
Defined.

(** C3 as stated fails for a token reference that is no number: the lookup
    raises [ValueError] on the conversion of the key, which the handler for
    a missing token does not catch; the outcome is that error and not
    [Http404].  No row is added. *)
Lemma send_3_token_reference_not_a_number :
  let request :=
    Sample.request Sample.user_alice "10.0.0.1"
      (Some (PDict [("kudosId", PStr "abc"); ("username", PStr "@bob")])) [] in
  let w := Sample.world [Sample.created] in
  (forall w0, fst (Token_get_pk (PStr "abc") w0)
              = Raise (ValueError "invalid literal for int() with base 10"))
  /\ fst (send_3 Sample.externals request w)
     = Raise (ValueError "invalid literal for int() with base 10")
  /\ fst (send_3 Sample.externals request w) <> Raise Http404
  /\ db (snd (send_3 Sample.externals request w)) = db w.
Proof.
  cbv zeta. split; [intros w0; reflexivity|].
  split; [reflexivity|]. split; [discriminate | reflexivity].
Qed.

(** ** The bulk coupon gate *)

Lemma receive_bulk_unknown_secret (request : Request.t) (secret : string) (w : World) :
  filter (fun c => db_exact (BulkTransferCoupon.secret c) (PStr secret)) (coupons (db w)) = [] ->
  receive_bulk request secret w
  = (Raise Http404, {| db := db w; trace := EvQuery "BulkTransferCoupon" :: trace w |}).
Proof. intros H. unfold receive_bulk. run. rewrite H. reflexivity. Qed.

(** The gate lets a profile through when it has no redemption row for the
    coupon, and only reads. *)
Lemma receive_bulk_permits (request : Request.t) (secret : string) (w : World)
  (c : BulkTransferCoupon.t) (p : Profile.t) :
  qs_first BulkTransferCoupon.pk
    (filter (fun c => db_exact (BulkTransferCoupon.secret c) (PStr secret)) (coupons (db w)))
  = Some c ->
  User.profile (Request.user request) = Ok (Some p) ->
  (forall r, In r (redemptions (db w)) ->
             BulkTransferRedemption.redeemed_by r = Profile.pk p ->
             BulkTransferRedemption.coupon r <> BulkTransferCoupon.pk c) ->
  exists w',
    receive_bulk request secret w
    = (Ok (TemplateResponse "transaction/receive_bulk.html" [("coupon", CCoupon (Some c))]), w')
    /\ db w' = db w.
Proof.
  intros Hc Hp Hnone. unfold receive_bulk, user_profile. run.
  destruct (filter (fun c0 => db_exact (BulkTransferCoupon.secret c0) (PStr secret))
              (coupons (db w))) as [|c0 cs] eqn:Hcs; [discriminate|].
  cbn [negb]. run. rewrite Hc, Hp. run.
  rewrite filter_nil.
  - eexists. split; reflexivity.
  - intros r Hr.
    destruct (BulkTransferRedemption.redeemed_by r =? Profile.pk p) eqn:Hby; [|reflexivity].
    apply Z.eqb_eq in Hby. apply (Hnone r Hr) in Hby.
    apply Z.eqb_neq in Hby. now rewrite Hby.
Qed.

(** C7, where the code departs from it.  On a profile that has a redemption
    row for the resolved coupon, the gate executes [raise HttpResponseForbidden];
    that class is a response, not an exception, so the outcome is a raised
    [TypeError] and no Forbidden response.  Nothing is written. *)
Theorem receive_bulk_redeemed (request : Request.t) (secret : string) (w : World)
  (c : BulkTransferCoupon.t) (p : Profile.t) (r : BulkTransferRedemption.t) :
  qs_first BulkTransferCoupon.pk
    (filter (fun c => db_exact (BulkTransferCoupon.secret c) (PStr secret)) (coupons (db w)))
  = Some c ->
  User.profile (Request.user request) = Ok (Some p) ->
  In r (redemptions (db w)) ->
  BulkTransferRedemption.redeemed_by r = Profile.pk p ->
  BulkTransferRedemption.coupon r = BulkTransferCoupon.pk c ->
  exists w',
    receive_bulk request secret w
    = (Raise (TypeError "exceptions must derive from BaseException"), w')
    /\ db w' = db w.
Proof.
  intros Hc Hp Hr Hby Hcoupon. unfold receive_bulk, user_profile. run.
  destruct (filter (fun c0 => db_exact (BulkTransferCoupon.secret c0) (PStr secret))
              (coupons (db w))) as [|c0 cs] eqn:Hcs; [discriminate|].
  cbn [negb]. run. rewrite Hc, Hp. run.
  destruct (filter _ (redemptions (db w))) as [|r0 rs] eqn:Hrs.
  - exfalso.
    assert (Hin : In r (filter (fun r : BulkTransferRedemption.t =>
                                  (BulkTransferRedemption.redeemed_by r =? Profile.pk p)
                                  && (BulkTransferRedemption.coupon r =? BulkTransferCoupon.pk c))
                               (redemptions (db w)))).
    { apply filter_In. split; [exact Hr|].
      rewrite Hby, Hcoupon, !Z.eqb_refl. reflexivity. }
    rewrite Hrs in Hin. destruct Hin.
  - eexists. split; reflexivity.
Qed.

(** The profile of the sample that has redeemed the coupon asks for it
    again. *)
Lemma receive_bulk_redeemed_witness :
  exists w',
    receive_bulk (Sample.request Sample.user_bob "10.0.0.2" None []) "s3cr3t" (Sample.world [])
    = (Raise (TypeError "exceptions must derive from BaseException"), w')
    /\ db w' = db (Sample.world []).
Proof.
  apply (receive_bulk_redeemed (Sample.request Sample.user_bob "10.0.0.2" None []) "s3cr3t"
           (Sample.world []) Sample.coupon Sample.bob Sample.redemption_by_bob).
  - reflexivity.
  - reflexivity.
  - left. reflexivity.
  - reflexivity.
  - reflexivity.
Defined.

(** The same run, in full: three queries, then the [TypeError]. *)
Example receive_bulk_repeat_run :
  receive_bulk (Sample.request Sample.user_bob "10.0.0.2" None []) "s3cr3t" (Sample.world [])
  = (Raise (TypeError "exceptions must derive from BaseException"),
     {| db := Sample.database [];
        trace := [ EvQuery "BulkTransferRedemption"; EvQuery "BulkTransferCoupon";
                   EvQuery "BulkTransferCoupon" ] |}).
Proof. reflexivity. Qed.

(** Another profile, which has not redeemed the coupon, is let through. *)
Example receive_bulk_first_time :
  fst (receive_bulk (Sample.request Sample.user_alice "10.0.0.1" None []) "s3cr3t"
         (Sample.world []))
  = Ok (TemplateResponse "transaction/receive_bulk.html" [("coupon", CCoupon (Some Sample.coupon))]).
Proof. reflexivity. Qed.

(** * Further properties *)

(** ** The clean-up command *)

Lemma delete_older_In {A : Type} (created_on : A -> Z) (t : Z) (rows : list A) (r : A) :
  In r (Cleanup.delete_older created_on t rows) <-> In r rows /\ t <= created_on r.
Proof.
  unfold Cleanup.delete_older. rewrite filter_In.
  destruct (Z.ltb_spec (created_on r) t); simpl; intuition (try discriminate; lia).
Qed.

Lemma delete_older_twice {A : Type} (created_on : A -> Z) (t1 t2 : Z) (rows : list A) :
  Cleanup.delete_older created_on t2 (Cleanup.delete_older created_on t1 rows)
  = Cleanup.delete_older created_on (Z.max t1 t2) rows.
Proof.
  unfold Cleanup.delete_older. induction rows as [|r rows IH]; simpl; [reflexivity|].
  destruct (Z.ltb_spec (created_on r) t1), (Z.ltb_spec (created_on r) (Z.max t1 t2));
    simpl; try lia.
  - exact IH.
  - destruct (Z.ltb_spec (created_on r) t2); simpl; [exact IH | lia].
  - destruct (Z.ltb_spec (created_on r) t2); simpl; [lia | now rewrite IH].
Qed.

(** X1. After the clean-up command has run at time [now], each of its two
    tables holds exactly the rows it held before that are at most seven days
    old; a row created exactly seven days before [now] stays. *)
Theorem cleanup_keeps_the_last_seven_days (now : Z) (d : Cleanup.Tables) :
  (forall r, In r (Cleanup.gas_profiles (Cleanup.handle now d)) <->
             In r (Cleanup.gas_profiles d)
             /\ now - GasProfile.created_on r <= 7 * 86400000000)
  /\ (forall r, In r (Cleanup.conversion_rates (Cleanup.handle now d)) <->
                In r (Cleanup.conversion_rates d)
                /\ now - ConversionRate.created_on r <= 7 * 86400000000).
Proof.
  unfold Cleanup.handle, Cleanup.timedelta_days. cbn [Cleanup.gas_profiles Cleanup.conversion_rates].
  split; intros r; rewrite delete_older_In; intuition lia.
Qed.

(** X2. Running the clean-up at [t1] and then at [t2] leaves what one run
    at the later of the two times leaves: a second run at the same time, or
    a run with an earlier clock, removes nothing more. *)
Theorem cleanup_runs_compose (t1 t2 : Z) (d : Cleanup.Tables) :
  Cleanup.handle t2 (Cleanup.handle t1 d) = Cleanup.handle (Z.max t1 t2) d.
Proof.
  unfold Cleanup.handle. cbn [Cleanup.gas_profiles Cleanup.conversion_rates].
  rewrite !delete_older_twice.
  replace (Z.max (t1 - Cleanup.timedelta_days 7) (t2 - Cleanup.timedelta_days 7))
    with (Z.max t1 t2 - Cleanup.timedelta_days 7) by lia.
  reflexivity.
Qed.

(** ** Profile lookup, again *)

Lemma get_profile_some (E : Externals) (handle : string) (w w' : World) (p : Profile.t) :
  get_profile E (PStr handle) w = (Ok (Some p), w') ->
  In p (profiles (db w))
  /\ exists c, Profile.handle p = PStr c /\ db_upper E c = db_upper E handle.
Proof.
  destruct (profiles_iexact E (PStr handle) (db w)) as [rows|e] eqn:Hrows; [|discriminate].
  rewrite (get_profile_run E (PStr handle) w rows Hrows). cbv zeta. intros H.
  apply (profiles_iexact_In E handle (db w) rows p Hrows).
  destruct rows as [|a [|b rest]].
  - discriminate.
  - inversion H; subst. now left.
  - assert (Hfirst : qs_first (fun q => - Profile.created_on q) (a :: b :: rest) = Some p)
      by congruence.
    now apply qs_first_least in Hfirst.
Qed.

(** X3. Whenever [get_profile] answers a profile for a handle, that profile
    is a stored row whose handle is the asked one up to the case of its
    letters, as UPPER of the database folds it. *)
Theorem get_profile_sound (E : Externals) (handle : string) (w w' : World) (p : Profile.t) :
  get_profile E (PStr handle) w = (Ok (Some p), w') ->
  In p (profiles (db w))
  /\ exists c, Profile.handle p = PStr c /\ db_upper E c = db_upper E handle.
Proof.
  destruct (profiles_iexact E (PStr handle) (db w)) as [rows|e] eqn:Hrows; [|discriminate].
  rewrite (get_profile_run E (PStr handle) w rows Hrows). cbv zeta. intros H.
  apply (profiles_iexact_In E handle (db w) rows p Hrows).
  destruct rows as [|a [|b rest]].
  - discriminate.
  - inversion H; subst. now left.
  - assert (Hfirst : qs_first (fun q => - Profile.created_on q) (a :: b :: rest) = Some p)
      by congruence.
    now apply qs_first_least in Hfirst.
Qed.

Lemma get_profile_sound_witness :
  In Sample.bob_again (profiles (db (Sample.world [])))
  /\ exists c, Profile.handle Sample.bob_again = PStr c
               /\ db_upper Sample.externals c = db_upper Sample.externals "BOB".
Proof.
  apply (get_profile_sound Sample.externals "BOB" (Sample.world [])
           {| db := db (Sample.world []); trace := [EvQuery "Profile"; EvQuery "Profile"] |}
           Sample.bob_again).
  reflexivity.
Defined.

(** For a text, and for [None], [get_profile] always answers, and only
    reads. *)
Lemma get_profile_returns (E : Externals) (handle : pyval) (w : World) :
  text_or_none handle = true ->
  exists r t, get_profile E handle w = (Ok r, {| db := db w; trace := t |})
              /\ messages_of t = messages_of (trace w).
Proof.
  intros Htext. destruct (profiles_iexact_text E handle (db w) Htext) as [rows Hrows].
  rewrite (get_profile_run E handle w rows Hrows). cbv zeta.
  destruct rows as [|a [|b rest]]; eexists _, _; split; reflexivity.
Qed.

(** What [get_profile] answers depends on the rows of the database only. *)
Lemma get_profile_answer (E : Externals) (handle : pyval) (w1 w2 : World) :
  db w1 = db w2 -> fst (get_profile E handle w1) = fst (get_profile E handle w2).
Proof.
  intros Hdb. destruct (profiles_iexact E handle (db w1)) as [rows|e] eqn:Hrows.
  - rewrite (get_profile_run E handle w1 rows Hrows).
    rewrite Hdb in Hrows. rewrite (get_profile_run E handle w2 rows Hrows). cbv zeta.
    destruct rows as [|a [|b rest]]; reflexivity.
  - destruct (profiles_iexact_refused E handle (db w1) e Hrows) as [msg ->].
    unfold get_profile, try_except, bind, emit, get_db, lift. cbn [db trace].
    rewrite <- Hdb, Hrows. reflexivity.
Qed.

(** ** The preferred wallet *)

(** X4. [kudos_preferred_wallet] never raises and only reads: it answers
    a JSON object whose [addresses] list has at most one entry, and an entry
    is the non-empty payout address of a stored profile whose handle is the
    asked one without its [@] signs, up to case. *)
Theorem kudos_preferred_wallet_answer (E : Externals) (request : Request.t)
  (handle : string) (w : World) :
  exists addresses w',
    kudos_preferred_wallet E request handle w
    = (Ok (JsonResponse [("addresses", PList addresses)] 200), w')
    /\ db w' = db w
    /\ (List.length addresses <= 1)%nat
    /\ forall a, In a addresses ->
         truthy a = true
         /\ exists p c, In p (profiles (db w))
                        /\ Profile.preferred_payout_address p = a
                        /\ Profile.handle p = PStr c
                        /\ db_upper E c = db_upper E (replace_at handle).
Proof.
  unfold kudos_preferred_wallet.
  destruct (get_profile E (PStr (replace_at handle)) w) as [[r|e] w1] eqn:Hrun.
  2:{ destruct (get_profile_returns E (PStr (replace_at handle)) w eq_refl) as [r [t [H _]]].
      congruence. }
  assert (Hdb : db w1 = db w).
  { destruct (get_profile_returns E (PStr (replace_at handle)) w eq_refl) as [r' [t [H _]]].
    rewrite Hrun in H. inversion H. reflexivity. }
  erewrite bind_ok by exact Hrun. cbv zeta.
  destruct r as [p|].
  - destruct (get_profile_some E _ _ _ _ Hrun) as [Hin [c [Hc Hup]]].
    destruct (truthy (Profile.preferred_payout_address p)) eqn:Ht.
    + eexists _, _. split; [reflexivity|]. split; [exact Hdb|]. split; [simpl; lia|].
      intros a [<-|[]]. split; [exact Ht|]. exists p, c. auto.
    + eexists _, _. split; [reflexivity|]. split; [exact Hdb|]. split; [simpl; lia|].
      intros a [].
  - eexists _, _. split; [reflexivity|]. split; [exact Hdb|]. split; [simpl; lia|].
    intros a [].
Qed.

Lemma profiles_iexact_case (E : Externals) (h1 h2 : string) (d : DB) :
  db_upper E h1 = db_upper E h2 ->
  profiles_iexact E (PStr h1) d = profiles_iexact E (PStr h2) d.
Proof.
  intros H. unfold profiles_iexact. f_equal. apply filter_ext. intros p.
  unfold handle_iexact. destruct (Profile.handle p); try reflexivity.
  now rewrite H.
Qed.

(** X5. The answer of [kudos_preferred_wallet] does not depend on the [@]
    signs of the handle, nor on the case of its letters (as UPPER of the
    database folds it), nor on who asks. *)
Theorem kudos_preferred_wallet_ignores_sigil_and_case (E : Externals)
  (request1 request2 : Request.t) (h1 h2 : string) (w : World) :
  db_upper E (replace_at h1) = db_upper E (replace_at h2) ->
  fst (kudos_preferred_wallet E request1 h1 w) = fst (kudos_preferred_wallet E request2 h2 w).
Proof.
  intros H. unfold kudos_preferred_wallet, bind.
  destruct (profiles_iexact E (PStr (replace_at h2)) (db w)) as [rows|e] eqn:Hrows;
    [|discriminate].
  rewrite (get_profile_run E (PStr (replace_at h2)) w rows Hrows).
  rewrite <- (profiles_iexact_case E _ _ (db w) H) in Hrows.
  rewrite (get_profile_run E (PStr (replace_at h1)) w rows Hrows). cbv zeta.
  destruct rows as [|a [|b rest]]; reflexivity.
Qed.

Lemma kudos_preferred_wallet_ignores_sigil_and_case_witness :
  fst (kudos_preferred_wallet Sample.externals
         (Sample.request Sample.anonymous "10.0.0.9" None []) "@Alice" (Sample.world []))
  = fst (kudos_preferred_wallet Sample.externals
           (Sample.request Sample.user_bob "10.0.0.2" None []) "alice" (Sample.world [])).
Proof.
  apply kudos_preferred_wallet_ignores_sigil_and_case. reflexivity.
Defined.

Example kudos_preferred_wallet_alice :
  fst (kudos_preferred_wallet Sample.externals
         (Sample.request Sample.anonymous "10.0.0.9" None []) "@Alice" (Sample.world []))
  = Ok (JsonResponse
          [("addresses", PList [PStr "0x5a3f1e683ab54da2c42d1d2b1a1b1c0a3dd0cd0e"])] 200).
Proof. reflexivity. Qed.

Example cleanup_on_day_ten :
  Cleanup.handle (10 * Scenario.day) Scenario.tables
  = {| Cleanup.gas_profiles :=
         [ {| GasProfile.pk := 2; GasProfile.created_on := 3 * Scenario.day |};
           {| GasProfile.pk := 3; GasProfile.created_on := 9 * Scenario.day |} ];
       Cleanup.conversion_rates := [] |}.
Proof. reflexivity. Qed.

(** ** Confirming the funding, again *)

Lemma authorized_is_authed (request : Request.t) (k : KudosTransfer.t) :
  send_4_authorized request k ->
  truthy (py_or (PBool (py_eqb (KudosTransfer.ip k) (Request.ip request)))
            (py_and (KudosTransfer.from_username k)
               (PBool (py_eqb (KudosTransfer.from_username k)
                         (User.username (Request.user request)))))) = true.
Proof.
  unfold py_or, py_and. intros [Hip | [Hname Heq]].
  - rewrite Hip. reflexivity.
  - rewrite Hname, Heq. simpl.
    destruct (py_eqb (KudosTransfer.ip k) (Request.ip request)); reflexivity.
Qed.

(** An authorized call whose record the database takes and whose
    notification returns, in full. *)
Lemma send_4_run (E : Externals) (request : Request.t) (w : World)
  (txid is_direct v : pyval) (k : KudosTransfer.t) :
  send_4_locates request (db w) txid is_direct k ->
  send_4_authorized request k ->
  KudosTransfer_columns E (funded_record txid is_direct k) = Ok tt ->
  maybe_market_kudos_to_email E (funded_record txid is_direct k) = Ok v ->
  send_4 E request w =
    (Ok (JsonResponse [("status", PStr "OK"); ("message", PStr "Kudos Sent")] 200),
     {| db := set_kudos_transfers
                (save_row KudosTransfer.pk (funded_record txid is_direct k)
                   (kudos_transfers (db w))) (db w);
        trace := EvNotify (funded_record txid is_direct k)
                 :: EvWrite "KudosTransfer" (KudosTransfer.pk k)
                 :: EvQuery "KudosTransfer" :: trace w |}).
Proof.
  intros Hloc Hauth Hcol Hsink.
  rewrite (send_4_located E request w txid is_direct k Hloc). cbv zeta.
  rewrite (authorized_is_authed request k Hauth). simpl negb. cbv iota.
  erewrite bind_ok by (apply KudosTransfer_save_accepted; exact Hcol).
  unfold notify. run. rewrite Hsink, (funded_record_pk txid is_direct k). reflexivity.
Qed.

(** X6. A transfer stored without a sender name can be confirmed from the
    address it was created from only: from any other address [send_4]
    answers Permission Denied (401) and writes nothing, also when the
    caller's user name equals the stored (empty) name. *)
Theorem send_4_unsigned_needs_ip (E : Externals) (request : Request.t) (w : World)
  (txid is_direct : pyval) (k : KudosTransfer.t) :
  send_4_locates request (db w) txid is_direct k ->
  truthy (KudosTransfer.from_username k) = false ->
  py_eqb (KudosTransfer.ip k) (Request.ip request) = false ->
  exists w',
    send_4 E request w =
      (Ok (JsonResponse [("status", PStr "error"); ("message", PStr "Permission Denied")] 401), w')
    /\ db w' = db w.
Proof.
  intros Hloc Hname Hip.
  rewrite (send_4_located E request w txid is_direct k Hloc). cbv zeta.
  rewrite Hip. unfold py_or, py_and. rewrite Hname. cbn [truthy]. rewrite Hname.
  eexists. split; reflexivity.
Qed.

(** An anonymous caller, whose user name is the empty name the transfer was
    stored with, asks from another address. *)
Lemma send_4_unsigned_needs_ip_witness :
  py_eqb (KudosTransfer.from_username Scenario.unsigned) (User.username Sample.anonymous) = true
  /\ exists w',
      send_4 Sample.externals
        (Sample.request Sample.anonymous "203.0.113.9"
           (Some (Scenario.confirm_body "0xc0ffee" "0xdef" 200 "s2")) [])
        (Sample.world [Scenario.unsigned])
      = (Ok (JsonResponse [("status", PStr "error"); ("message", PStr "Permission Denied")] 401),
         w')
      /\ db w' = db (Sample.world [Scenario.unsigned]).
Proof.
  split; [reflexivity|].
  apply (send_4_unsigned_needs_ip Sample.externals
           (Sample.request Sample.anonymous "203.0.113.9"
              (Some (Scenario.confirm_body "0xc0ffee" "0xdef" 200 "s2")) [])
           (Sample.world [Scenario.unsigned]) (PStr "0xc0ffee") (PBool false) Scenario.unsigned).
  - exists (Scenario.confirm_body "0xc0ffee" "0xdef" 200 "s2"),
      (PStr "0xdef"), (PInt 200), (PStr "s2").
    repeat split; reflexivity.
  - reflexivity.
  - reflexivity.
Defined.

Lemma pk_identifies (rows : list KudosTransfer.t) (x y : KudosTransfer.t) :
  unique_pks rows -> In x rows -> In y rows ->
  KudosTransfer.pk x = KudosTransfer.pk y -> x = y.
Proof.
  unfold unique_pks. induction rows as [|a rows IH]; simpl; [tauto|].
  intros Hnd Hx Hy Hpk. inversion Hnd as [|? ? Hnotin Hnd']; subst.
  destruct Hx as [->|Hx], Hy as [->|Hy].
  - reflexivity.
  - exfalso. apply Hnotin. rewrite Hpk. now apply in_map.
  - exfalso. apply Hnotin. rewrite <- Hpk. now apply in_map.
  - now apply IH.
Qed.

Lemma save_row_present {A : Type} (pk : A -> Z) (r x : A) (rows : list A) :
  In x rows -> pk x = pk r ->
  save_row pk r rows = map (fun y => if pk y =? pk r then r else y) rows.
Proof.
  intros Hin Hpk. unfold save_row.
  assert (Hex : existsb (fun y => pk y =? pk r) rows = true).
  { apply existsb_exists. exists x. split; [exact Hin | now apply Z.eqb_eq]. }
  now rewrite Hex.
Qed.

(** Saving a changed copy of a row keeps the answer of a query that does
    not look at what was changed. *)
Lemma filter_save_row (P : KudosTransfer.t -> bool) (k k' : KudosTransfer.t)
  (rows : list KudosTransfer.t) :
  unique_pks rows -> In k rows ->
  KudosTransfer.pk k' = KudosTransfer.pk k -> P k' = P k ->
  filter P (save_row KudosTransfer.pk k' rows)
  = map (fun y => if KudosTransfer.pk y =? KudosTransfer.pk k' then k' else y) (filter P rows).
Proof.
  intros Hu Hin Hpk HP.
  rewrite (save_row_present KudosTransfer.pk k' k rows Hin (eq_sym Hpk)).
  assert (Hsame : forall y, In y rows ->
                            KudosTransfer.pk y = KudosTransfer.pk k' -> y = k).
  { intros y Hy Hyk. apply (pk_identifies rows y k Hu Hy Hin). congruence. }
  clear Hu Hin. induction rows as [|a rows IH]; simpl; [reflexivity|].
  assert (IH' := IH (fun y Hy => Hsame y (or_intror Hy))).
  destruct (Z.eqb_spec (KudosTransfer.pk a) (KudosTransfer.pk k')) as [Heq|Hne].
  - rewrite (Hsame a (or_introl eq_refl) Heq), HP.
    destruct (P k); simpl; rewrite IH'; [|reflexivity].
    rewrite <- Hpk, Z.eqb_refl. reflexivity.
  - destruct (P a); simpl; rewrite IH'; [|reflexivity].
    now rewrite (proj2 (Z.eqb_neq _ _) Hne).
Qed.

Lemma save_row_again {A : Type} (pk : A -> Z) (r x : A) (rows : list A) :
  In x rows -> pk x = pk r ->
  save_row pk r (save_row pk r rows) = save_row pk r rows.
Proof.
  intros Hin Hpk.
  rewrite (save_row_present pk r x rows Hin Hpk).
  rewrite (save_row_present pk r r).
  - rewrite map_map. apply map_ext. intros y.
    destruct (pk y =? pk r) eqn:Hy; [now rewrite Z.eqb_refl | now rewrite Hy].
  - apply in_map_iff. exists x. split; [|exact Hin].
    now rewrite (proj2 (Z.eqb_eq _ _) Hpk).
  - reflexivity.
Qed.

Lemma funded_record_again (txid is_direct : pyval) (k : KudosTransfer.t) :
  funded_record txid is_direct (funded_record txid is_direct k) = funded_record txid is_direct k.
Proof. unfold funded_record. destruct (truthy is_direct), k; reflexivity. Qed.

(** X7. Confirming twice re-saves the same values: when the rows of the
    transfer table have different primary keys, the database takes the
    record with the transaction id of the request and the notification
    returns, the same authorized request sent a second time locates the
    record it wrote, succeeds again and leaves the database exactly as the
    first call left it.  The notification is sent again. *)
Theorem send_4_repeated (E : Externals) (request : Request.t) (w : World)
  (txid is_direct v : pyval) (k : KudosTransfer.t) :
  send_4_locates request (db w) txid is_direct k ->
  send_4_authorized request k ->
  unique_pks (kudos_transfers (db w)) ->
  KudosTransfer_columns E (funded_record txid is_direct k) = Ok tt ->
  maybe_market_kudos_to_email E (funded_record txid is_direct k) = Ok v ->
  let w1 := snd (send_4 E request w) in
  send_4_locates request (db w1) txid is_direct (funded_record txid is_direct k)
  /\ fst (send_4 E request w1)
     = Ok (JsonResponse [("status", PStr "OK"); ("message", PStr "Kudos Sent")] 200)
  /\ db (snd (send_4 E request w1)) = db w1
  /\ count_notify (trace (snd (send_4 E request w1))) = S (S (count_notify (trace w))).
Proof.
  intros Hloc Hauth Hu Hcol Hsink.
  rewrite (send_4_run E request w txid is_direct v k Hloc Hauth Hcol Hsink). cbv zeta. cbn [snd].
  set (k' := funded_record txid is_direct k).
  set (rows' := save_row KudosTransfer.pk k' (kudos_transfers (db w))).
  assert (Hin : In k (kudos_transfers (db w))).
  { destruct Hloc as [params [dest [ct [salt [_ [_ [_ [_ [_ [_ H6]]]]]]]]]].
    now apply qs_get_In in H6. }
  assert (Hloc' : send_4_locates request
                    (set_kudos_transfers rows' (db w)) txid is_direct k').
  { destruct Hloc as [params [dest [ct [salt [Hb [H1 [H2 [H3 [H4 [H5 H6]]]]]]]]]].
    exists params, dest, ct, salt. repeat (split; [assumption|]).
    cbn [kudos_transfers set_kudos_transfers]. unfold rows'.
    rewrite (filter_save_row (metadata_triple dest ct salt) k k' _ Hu Hin).
    - destruct (filter (metadata_triple dest ct salt) (kudos_transfers (db w)))
        as [|a [|b rest]]; try discriminate.
      inversion H6; subst a. simpl.
      unfold k'. rewrite funded_record_pk, Z.eqb_refl. reflexivity.
    - apply funded_record_pk.
    - unfold k', funded_record, metadata_triple. destruct (truthy is_direct); reflexivity. }
  assert (Hauth' : send_4_authorized request k').
  { unfold send_4_authorized, k', funded_record in *.
    destruct (truthy is_direct); exact Hauth. }
  split; [exact Hloc'|].
  match goal with |- context [send_4 E request ?W] => set (w1 := W) end.
  change (send_4_locates request (db w1) txid is_direct k') in Hloc'.
  rewrite (send_4_run E request w1 txid is_direct v k' Hloc' Hauth').
  2:{ unfold k'. now rewrite funded_record_again. }
  2:{ unfold k'. now rewrite funded_record_again. }
  cbn [fst snd db trace]. split; [reflexivity|]. split; [|reflexivity].
  cbn [kudos_transfers set_kudos_transfers]. unfold k' at 1. rewrite funded_record_again.
  fold k'. unfold w1. cbn [db kudos_transfers set_kudos_transfers]. unfold rows'.
  rewrite (save_row_again KudosTransfer.pk k' k _ Hin).
  - reflexivity.
  - symmetry. apply funded_record_pk.
Qed.

Lemma send_4_repeated_witness :
  let request :=
    Sample.request Sample.anonymous "10.0.0.1"
      (Some (Scenario.confirm_body "0xdeadbeef" "0xabc" 100 "s1")) [] in
  let w1 := snd (send_4 Sample.externals request (Sample.world [Sample.created; Scenario.unsigned])) in
  send_4_locates request (db w1) (PStr "0xdeadbeef") (PBool false)
    (funded_record (PStr "0xdeadbeef") (PBool false) Sample.created)
  /\ fst (send_4 Sample.externals request w1)
     = Ok (JsonResponse [("status", PStr "OK"); ("message", PStr "Kudos Sent")] 200)
  /\ db (snd (send_4 Sample.externals request w1)) = db w1
  /\ count_notify (trace (snd (send_4 Sample.externals request w1)))
     = S (S (count_notify (trace (Sample.world [Sample.created; Scenario.unsigned])))).
Proof.
  apply (send_4_repeated Sample.externals
           (Sample.request Sample.anonymous "10.0.0.1"
              (Some (Scenario.confirm_body "0xdeadbeef" "0xabc" 100 "s1")) [])
           (Sample.world [Sample.created; Scenario.unsigned])
           (PStr "0xdeadbeef") (PBool false) (PBool true) Sample.created).
  - exists (Scenario.confirm_body "0xdeadbeef" "0xabc" 100 "s1"),
      (PStr "0xabc"), (PInt 100), (PStr "s1").
    repeat split; reflexivity.
  - left. reflexivity.
  - unfold unique_pks. simpl. repeat constructor; simpl; intuition discriminate.
  - reflexivity.
  - reflexivity.
Defined.

(** ** Creating a transfer, again *)

Lemma next_pk_fresh {A : Type} (pk : A -> Z) (rows : list A) (r : A) :
  In r rows -> pk r < next_pk pk rows.
Proof.
  unfold next_pk. induction rows as [|a rows IH]; simpl; [tauto|].
  intros [->|Hin]; [lia | specialize (IH Hin); lia].
Qed.

Lemma send_3_token_resolves (kudos_id : pyval) (z : Z) (T : Token.t) (w : World) :
  truthy kudos_id = true ->
  py_int kudos_id = Ok z ->
  filter (fun k => Token.pk k =? z) (tokens (db w)) = [T] ->
  send_3_token kudos_id w = (Ok T, {| db := db w; trace := EvQuery "Token" :: trace w |}).
Proof.
  intros Ht Hz HT. unfold send_3_token, try_except, Token_get_pk.
  destruct kudos_id; try discriminate; rewrite Hz; run; rewrite HT; reflexivity.
Qed.

Lemma has_key_value (d : list (string * pyval)) (keys : list string) (k : string) :
  has_keys d keys -> In k keys -> exists v, assoc k d = Some v.
Proof.
  intros H Hin. specialize (H k Hin). destruct (assoc k d) as [v|]; [now exists v | congruence].
Qed.

(** The answer of [get_profile] in a world with the same rows. *)
Lemma get_profile_found (E : Externals) (handle : pyval) (w w0 : World)
  (r : option Profile.t) :
  fst (get_profile E handle w) = Ok r -> db w0 = db w ->
  exists t, get_profile E handle w0 = (Ok r, {| db := db w; trace := t |}).
Proof.
  intros Hr Hdb. rewrite <- (get_profile_answer E handle w0 w Hdb) in Hr.
  destruct (quiet_get_profile E handle w0) as [Hq _].
  destruct (get_profile E handle w0) as [r' [d' t']]. cbn [fst snd db] in *. subst.
  exists t'. now rewrite Hdb.
Qed.

(** The successful run of [send_3], in full: the row added is the one of
    the body and of the two profiles found, under a new primary key. *)
Lemma send_3_run (E : Externals) (request : Request.t) (w w1 : World)
  (d : list (string * pyval)) (from_username to_username kudos_id : pyval)
  (to_emails : list pyval) (z : Z) (T : Token.t) (rp sp : option Profile.t) :
  send_3_inputs E request w = (Ok (PDict d, from_username, to_username, to_emails), w1) ->
  assoc "kudosId" d = Some kudos_id ->
  truthy kudos_id = true ->
  py_int kudos_id = Ok z ->
  filter (fun k => Token.pk k =? z) (tokens (db w)) = [T] ->
  has_keys d send_3_required ->
  fst (get_profile E to_username w) = Ok rp ->
  fst (get_profile E from_username w) = Ok sp ->
  KudosTransfer_columns E (created_record E request d from_username to_emails T rp sp) = Ok tt ->
  exists t,
    send_3 E request w =
      (Ok (JsonResponse [("status", PStr "OK"); ("message", PStr "Kudos Created")] 200),
       {| db := set_kudos_transfers
                  (kudos_transfers (db w)
                     ++ [KudosTransfer.set_pk
                           (next_pk KudosTransfer.pk (kudos_transfers (db w)))
                           (created_record E request d from_username to_emails T rp sp)])
                  (db w);
          trace := t |}).
Proof.
  intros Hin Hid Htruthy Hz HT Hkeys Hrp Hsp Hcol.
  assert (Hdb : db w1 = db w).
  { pose proof (quiet_send_3_inputs E request w) as [H _]. now rewrite Hin in H. }
  unfold send_3. cbv zeta. erewrite bind_ok by exact Hin. cbv beta iota.
  unfold py_get at 1. rewrite Hid. run. rewrite Htruthy. cbn [negb].
  erewrite bind_ok
    by (apply (send_3_token_resolves kudos_id z T); [assumption | assumption | now rewrite Hdb]).
  unfold send_3_required in Hkeys.
  destruct (has_key_value d _ "amount" Hkeys) as [amount Ha]; [simpl; tauto|].
  destruct (has_key_value d _ "comments_public" Hkeys) as [comments Hc]; [simpl; tauto|].
  destruct (has_key_value d _ "github_url" Hkeys) as [url Hg]; [simpl; tauto|].
  destruct (has_key_value d _ "from_name" Hkeys) as [fname Hfn]; [simpl; tauto|].
  destruct (has_key_value d _ "from_email" Hkeys) as [femail Hfe]; [simpl; tauto|].
  destruct (has_key_value d _ "username" Hkeys) as [uname Hu]; [simpl; tauto|].
  destruct (has_key_value d _ "network" Hkeys) as [net Hn]; [simpl; tauto|].
  destruct (has_key_value d _ "tokenAddress" Hkeys) as [taddr Hta]; [simpl; tauto|].
  destruct (has_key_value d _ "from_address" Hkeys) as [faddr Hfa]; [simpl; tauto|].
  destruct (has_key_value d _ "is_for_bounty_fulfiller" Hkeys) as [isb Hb]; [simpl; tauto|].
  destruct (has_key_value d _ "metadata" Hkeys) as [meta Hm]; [simpl; tauto|].
  assert (Hrow : created_record E request d from_username to_emails T rp sp
                 = {| KudosTransfer.pk := 0;
                      KudosTransfer.web3_type := KudosTransfer.web3_type (KudosTransfer_defaults E);
                      KudosTransfer.emails := PList to_emails;
                      KudosTransfer.kudos_token_cloned_from := Token.pk T;
                      KudosTransfer.amount := amount;
                      KudosTransfer.comments_public := comments;
                      KudosTransfer.ip := Request.ip request;
                      KudosTransfer.github_url := url;
                      KudosTransfer.from_name := fname;
                      KudosTransfer.from_email := femail;
                      KudosTransfer.from_username := from_username;
                      KudosTransfer.username := uname;
                      KudosTransfer.network := net;
                      KudosTransfer.tokenAddress := taddr;
                      KudosTransfer.from_address := faddr;
                      KudosTransfer.is_for_bounty_fulfiller := isb;
                      KudosTransfer.metadata := meta;
                      KudosTransfer.recipient_profile := option_map Profile.pk rp;
                      KudosTransfer.sender_profile := option_map Profile.pk sp;
                      KudosTransfer.txid := KudosTransfer.txid (KudosTransfer_defaults E);
                      KudosTransfer.receive_txid :=
                        KudosTransfer.receive_txid (KudosTransfer_defaults E);
                      KudosTransfer.receive_address :=
                        KudosTransfer.receive_address (KudosTransfer_defaults E);
                      KudosTransfer.received_on :=
                        KudosTransfer.received_on (KudosTransfer_defaults E);
                      KudosTransfer.trust_url := KudosTransfer.trust_url (KudosTransfer_defaults E) |}).
  { unfold created_record, field.
    rewrite Ha, Hc, Hg, Hfn, Hfe, Hu, Hn, Hta, Hfa, Hb, Hm. reflexivity. }
  unfold py_getitem. rewrite Ha, Hc, Hg, Hfn, Hfe, Hu, Hn, Hta, Hfa, Hb, Hm. run.
  match goal with |- context [bind (get_profile E to_username) _ ?W] =>
    destruct (get_profile_found E to_username w W rp Hrp Hdb) as [t1 Hrp'] end.
  erewrite bind_ok by exact Hrp'. cbn [db trace].
  match goal with |- context [bind (get_profile E from_username) _ ?W] =>
    destruct (get_profile_found E from_username w W sp Hsp eq_refl) as [t2 Hsp'] end.
  erewrite bind_ok by exact Hsp'. cbn [db trace].
  rewrite <- Hrow.
  erewrite bind_ok by (rewrite KudosTransfer_create_run, Hcol; reflexivity).
  eexists. reflexivity.
Qed.

Lemma on_success_bind {A B : Type} (Q : DB -> DB -> Prop) (m : M A) (k : A -> M B) :
  quiet m -> (forall a, on_success Q (k a)) -> on_success Q (bind m k).
Proof.
  intros Hm Hk w b w'. unfold bind. destruct (Hm w) as [Hdb _].
  destruct (m w) as [[a|e] w1]; simpl in Hdb; intros H; [|discriminate].
  rewrite <- Hdb. exact (Hk a w1 b w' H).
Qed.

Lemma on_success_quiet_raise {A : Type} (Q : DB -> DB -> Prop) (e : exn) :
  on_success Q (@raise World A e).
Proof. intros w a w' H. discriminate H. Qed.

(** X8. [send_3] writes all or nothing.  When it raises, whatever the
    exception, the database is as it was.  When it answers, exactly one
    transfer row has been added after the old ones, with a primary key above
    all of theirs, carrying the caller's address and the default (empty)
    txid, receive_txid and received_on of a new row; no other table has
    changed. *)
Theorem send_3_all_or_nothing (E : Externals) (request : Request.t) (w w' : World)
  (r : Res Response) :
  send_3 E request w = (r, w') ->
  match r with
  | Raise _ => db w' = db w
  | Ok _ => transfer_added E request (db w) (db w')
  end.
Proof.
  intros Hrun. destruct r as [resp|e].
  - revert w resp w' Hrun. change (on_success (transfer_added E request) (send_3 E request)).
    unfold send_3. cbv zeta.
    apply on_success_bind; [apply quiet_send_3_inputs|].
    intros [[[params from_username] to_username] to_emails].
    apply on_success_bind; [quiet_steps|]. intros kudos_id.
    destruct (negb (truthy kudos_id)); [apply on_success_quiet_raise|].
    apply on_success_bind; [apply quiet_send_3_token|]. intros token.
    do 11 (apply on_success_bind; [quiet_steps | intros ?]).
    do 2 (apply on_success_bind; [apply quiet_get_profile | intros ?]).
    intros w0 resp w0' H. unfold bind in H. rewrite KudosTransfer_create_run in H.
    match type of H with
    | context [KudosTransfer_columns E ?K] => destruct (KudosTransfer_columns E K) as [[]|e0]
    end; [|discriminate].
    inversion H; subst. cbn [db].
    eexists. split; [reflexivity|]. split.
    + intros k Hk. cbn. now apply next_pk_fresh.
    + cbn. repeat split; reflexivity.
  - exact (send_3_fails_clean E request w e w' Hrun).
Qed.

(** A logged-in sender creates a transfer of the Gen0 token 42. *)
Lemma send_3_all_or_nothing_witness :
  transfer_added Sample.externals
    (Sample.request Sample.user_alice "10.0.0.1"
       (Some (PDict (Scenario.create_fields (PInt 42)))) [])
    (db (Sample.world [Scenario.unsigned]))
    (db (snd (send_3 Sample.externals
                (Sample.request Sample.user_alice "10.0.0.1"
                   (Some (PDict (Scenario.create_fields (PInt 42)))) [])
                (Sample.world [Scenario.unsigned])))).
Proof.
  apply (send_3_all_or_nothing Sample.externals
           (Sample.request Sample.user_alice "10.0.0.1"
              (Some (PDict (Scenario.create_fields (PInt 42)))) [])
           (Sample.world [Scenario.unsigned]) _
           (Ok (JsonResponse [("status", PStr "OK"); ("message", PStr "Kudos Created")] 200))).
  reflexivity.
Defined.

Lemma save_row_last {A : Type} (pk : A -> Z) (r r' : A) (rows : list A) :
  (forall k, In k rows -> pk k < pk r) -> pk r' = pk r ->
  save_row pk r' (rows ++ [r]) = rows ++ [r'].
Proof.
  intros Hfresh Hpk.
  rewrite (save_row_present pk r' r); [|apply in_or_app; right; now left | now symmetry].
  rewrite map_app. simpl. rewrite Hpk, Z.eqb_refl. f_equal.
  rewrite <- (map_id rows) at 2. apply map_ext_in. intros k Hk.
  specialize (Hfresh k Hk). destruct (Z.eqb_spec (pk k) (pk r)); [lia | reflexivity].
Qed.

(** X9. Create, then confirm.  When [send_3] goes through for a request
    (its inputs are read, its token exists, its body has the fields of a
    transfer, the two profile lookups answer and the database takes the
    values of the new row), it has added that row, with the default txid,
    under a new primary key; and a [send_4] request from the same address,
    whose triple is the one of the metadata just stored and of no older row,
    then succeeds (the database taking the row with the transaction id, the
    notification returning) and leaves the table with that one row changed:
    its txid is the transaction id of the request. *)
Theorem send_3_then_send_4 (E : Externals) (request request2 : Request.t) (w w0 : World)
  (d : list (string * pyval)) (from_username to_username kudos_id meta : pyval)
  (to_emails : list pyval) (z : Z) (T : Token.t) (rp sp : option Profile.t)
  (txid is_direct address creation_time salt : pyval) :
  send_3_inputs E request w = (Ok (PDict d, from_username, to_username, to_emails), w0) ->
  assoc "kudosId" d = Some kudos_id ->
  truthy kudos_id = true ->
  py_int kudos_id = Ok z ->
  filter (fun k => Token.pk k =? z) (tokens (db w)) = [T] ->
  has_keys d send_3_required ->
  assoc "metadata" d = Some meta ->
  fst (get_profile E to_username w) = Ok rp ->
  fst (get_profile E from_username w) = Ok sp ->
  KudosTransfer_columns E (created_record E request d from_username to_emails T rp sp) = Ok tt ->
  send_4_body request2 txid is_direct address creation_time salt ->
  json_key_exact meta "address" address = true ->
  json_key_exact meta "creation_time" creation_time = true ->
  json_key_exact meta "salt" salt = true ->
  (forall k, In k (kudos_transfers (db w)) ->
             metadata_triple address creation_time salt k = false) ->
  py_eqb (Request.ip request) (Request.ip request2) = true ->
  KudosTransfer_columns E
    (funded_record txid is_direct
       (KudosTransfer.set_pk (next_pk KudosTransfer.pk (kudos_transfers (db w)))
          (created_record E request d from_username to_emails T rp sp))) = Ok tt ->
  (forall k, exists v, maybe_market_kudos_to_email E k = Ok v) ->
  exists row w1 w2,
    row = KudosTransfer.set_pk (next_pk KudosTransfer.pk (kudos_transfers (db w)))
            (created_record E request d from_username to_emails T rp sp)
    /\ send_3 E request w
       = (Ok (JsonResponse [("status", PStr "OK"); ("message", PStr "Kudos Created")] 200), w1)
    /\ kudos_transfers (db w1) = kudos_transfers (db w) ++ [row]
    /\ KudosTransfer.txid row = KudosTransfer.txid (KudosTransfer_defaults E)
    /\ send_4 E request2 w1
       = (Ok (JsonResponse [("status", PStr "OK"); ("message", PStr "Kudos Sent")] 200), w2)
    /\ kudos_transfers (db w2)
       = kudos_transfers (db w) ++ [funded_record txid is_direct row]
    /\ KudosTransfer.txid (funded_record txid is_direct row) = txid.
Proof.
  intros Hin Hid Htruthy Hz HT Hkeys Hmeta Hrp Hsp Hcol Hbody Ha Hc Hs Hold Hip Hcol2 Hsink.
  destruct (send_3_run E request w w0 d from_username to_username kudos_id to_emails z T rp sp
              Hin Hid Htruthy Hz HT Hkeys Hrp Hsp Hcol)
    as [t Hrun].
  set (row := KudosTransfer.set_pk (next_pk KudosTransfer.pk (kudos_transfers (db w)))
                (created_record E request d from_username to_emails T rp sp)) in *.
  assert (Hmeta' : KudosTransfer.metadata row = meta).
  { unfold row, created_record, field. cbn. now rewrite Hmeta. }
  assert (Hrip : KudosTransfer.ip row = Request.ip request) by reflexivity.
  assert (Hpk : KudosTransfer.pk row = next_pk KudosTransfer.pk (kudos_transfers (db w)))
    by reflexivity.
  set (w1 := {| db := set_kudos_transfers (kudos_transfers (db w) ++ [row]) (db w);
                trace := t |}) in *.
  assert (Hloc : send_4_locates request2 (db w1) txid is_direct row).
  { destruct Hbody as [params [Hb [H1 [H2 [H3 [H4 H5]]]]]].
    exists params, address, creation_time, salt. repeat (split; [assumption|]).
    unfold w1. cbn [db kudos_transfers set_kudos_transfers].
    rewrite filter_app, (filter_nil _ _ Hold). simpl.
    unfold metadata_triple. rewrite Hmeta', Ha, Hc, Hs. reflexivity. }
  assert (Hauth : send_4_authorized request2 row).
  { left. now rewrite Hrip. }
  destruct (Hsink (funded_record txid is_direct row)) as [v Hv].
  exists row, w1. eexists. split; [reflexivity|]. split; [exact Hrun|].
  split; [reflexivity|]. split; [reflexivity|]. split.
  - exact (send_4_run E request2 w1 txid is_direct v row Hloc Hauth Hcol2 Hv).
  - cbn [db kudos_transfers set_kudos_transfers]. split.
    + apply save_row_last.
      * intros k Hk. rewrite Hpk. now apply next_pk_fresh.
      * apply funded_record_pk.
    + unfold funded_record. destruct (truthy is_direct); reflexivity.
Qed.

(** The scenario of the specification from its start: the transfer is
    created, then confirmed from the same address. *)
Lemma send_3_then_send_4_witness :
  let request :=
    Sample.request Sample.user_alice "10.0.0.1"
      (Some (PDict (Scenario.create_fields (PInt 42)))) [] in
  let request2 :=
    Sample.request Sample.anonymous "10.0.0.1"
      (Some (Scenario.confirm_body "0xdeadbeef" "0xabc" 100 "s1")) [] in
  let w := Sample.world [Scenario.unsigned] in
  exists row w1 w2,
    row = KudosTransfer.set_pk (next_pk KudosTransfer.pk (kudos_transfers (db w)))
            (created_record Sample.externals request (Scenario.create_fields (PInt 42))
               (PStr "alice") [PStr "bob@example.org"] Sample.gen0
               (Some Sample.bob_again) (Some Sample.alice))
    /\ send_3 Sample.externals request w
       = (Ok (JsonResponse [("status", PStr "OK"); ("message", PStr "Kudos Created")] 200), w1)
    /\ kudos_transfers (db w1) = kudos_transfers (db w) ++ [row]
    /\ KudosTransfer.txid row = KudosTransfer.txid (KudosTransfer_defaults Sample.externals)
    /\ send_4 Sample.externals request2 w1
       = (Ok (JsonResponse [("status", PStr "OK"); ("message", PStr "Kudos Sent")] 200), w2)
    /\ kudos_transfers (db w2)
       = kudos_transfers (db w) ++ [funded_record (PStr "0xdeadbeef") (PBool false) row]
    /\ KudosTransfer.txid (funded_record (PStr "0xdeadbeef") (PBool false) row)
       = PStr "0xdeadbeef".
Proof.
  cbv zeta.
  apply (send_3_then_send_4 Sample.externals
           (Sample.request Sample.user_alice "10.0.0.1"
              (Some (PDict (Scenario.create_fields (PInt 42)))) [])
           (Sample.request Sample.anonymous "10.0.0.1"
              (Some (Scenario.confirm_body "0xdeadbeef" "0xabc" 100 "s1")) [])
           (Sample.world [Scenario.unsigned]) (Sample.world [Scenario.unsigned])
           (Scenario.create_fields (PInt 42)) (PStr "alice") (PStr "bob") (PInt 42)
           Sample.transfer_metadata [PStr "bob@example.org"] 42 Sample.gen0
           (Some Sample.bob_again) (Some Sample.alice)
           (PStr "0xdeadbeef") (PBool false) (PStr "0xabc") (PInt 100) (PStr "s1")).
  - reflexivity.
  - reflexivity.
  - reflexivity.
  - reflexivity.
  - reflexivity.
  - intros k Hk. simpl in Hk.
    repeat (destruct Hk as [<-|Hk]; [discriminate|]). destruct Hk.
  - reflexivity.
  - reflexivity.
  - reflexivity.
  - reflexivity.
  - exists (Scenario.confirm_body "0xdeadbeef" "0xabc" 100 "s1"). repeat split; reflexivity.
  - reflexivity.
  - reflexivity.
  - reflexivity.
  - intros k [<-|[]]. reflexivity.
  - reflexivity.
  - reflexivity.
  - intros k. exists (PBool true). reflexivity.
Defined.

(** A body whose amount is no number: the sample database refuses the new
    row, and [send_3] ends in that error with no row added. *)
Example send_3_amount_not_a_number :
  let request :=
    Sample.request Sample.user_alice "10.0.0.1"
      (Some (PDict (("amount", PStr "a lot") :: Scenario.create_fields (PInt 42)))) [] in
  fst (send_3 Sample.externals request (Sample.world []))
  = Raise (ValidationError "value must be a decimal number")
  /\ db (snd (send_3 Sample.externals request (Sample.world []))) = Sample.database [].
Proof. cbv zeta. split; reflexivity. Qed.

(** ** The list of recipient emails *)

Lemma py_eqb_refl_hashable (a : pyval) : hashable a = true -> py_eqb a a = true.
Proof.
  destruct a; simpl; try discriminate; intros _.
  - reflexivity.
  - apply Bool.eqb_reflx.
  - apply Z.eqb_refl.
  - apply String.eqb_refl.
Qed.

Lemma py_eqb_trans_hashable (a b c : pyval) :
  hashable b = true ->
  py_eqb a b = true -> py_eqb b c = true -> py_eqb a c = true.
Proof.
  unfold py_eqb.
  destruct b; cbn [hashable]; try discriminate; intros _;
    destruct a; cbn [val_eqb andb]; try discriminate;
    destruct c; cbn [val_eqb andb]; try discriminate; trivial;
    rewrite ?Bool.eqb_true_iff, ?Z.eqb_eq, ?String.eqb_eq; intros; subst;
    try reflexivity; try congruence;
    repeat match goal with
           | x : bool |- _ => destruct x
           end; cbn [Z.b2z] in *; try reflexivity; lia.
Qed.

Lemma all_different_filter (f : pyval -> bool) (l : list pyval) :
  all_different l -> all_different (filter f l).
Proof.
  induction l as [|x l IH]; simpl; [trivial|].
  intros [Hx Hl]. destruct (f x); simpl; [split|]; auto.
  intros y Hy. apply Hx. now apply filter_In in Hy.
Qed.

Lemma dedup_In (l : list pyval) (x : pyval) : In x (dedup l) -> In x l.
Proof.
  induction l as [|a l IH]; simpl; [tauto|].
  intros [->|H]; [now left|]. right. apply IH. now apply filter_In in H.
Qed.

(** X10. The list of emails [send_3] stores, [list(set(to_emails))]: when
    every entry can be hashed, no two entries of the result are equal, every
    entry of the result is an entry of the list, and every entry of the list
    is equal to one of the result. *)
Theorem list_set_drops_duplicates (l r : list pyval) :
  list_set l = Ok r ->
  all_different r
  /\ (forall x, In x r -> In x l)
  /\ (forall x, In x l -> exists y, In y r /\ py_eqb y x = true).
Proof.
  unfold list_set. destruct (forallb hashable l) eqn:Hh; [|discriminate].
  intros H. inversion H; subst r. clear H.
  rewrite forallb_forall in Hh.
  split; [|split].
  - clear Hh. induction l as [|a l IH]; simpl; [trivial|]. split.
    + intros y Hy. apply filter_In in Hy. destruct Hy as [_ Hy].
      now destruct (py_eqb a y).
    + now apply all_different_filter.
  - apply dedup_In.
  - induction l as [|a l IH]; simpl; [tauto|].
    intros x [->|Hx].
    + exists x. split; [now left|]. apply py_eqb_refl_hashable. apply Hh. now left.
    + destruct (IH (fun y Hy => Hh y (or_intror Hy)) x Hx) as [y [Hy Hyx]].
      destruct (py_eqb a y) eqn:Hay.
      * exists a. split; [now left|].
        apply (py_eqb_trans_hashable a y x); try assumption.
        apply Hh. right. now apply dedup_In.
      * exists y. split; [|exact Hyx]. right. apply filter_In. split; [exact Hy|].
        now rewrite Hay.
Qed.

Lemma list_set_drops_duplicates_witness :
  all_different [PStr "bob@example.org"; PInt 1]
  /\ (forall x, In x [PStr "bob@example.org"; PInt 1] ->
                In x [PStr "bob@example.org"; PInt 1; PStr "bob@example.org"; PBool true])
  /\ (forall x, In x [PStr "bob@example.org"; PInt 1; PStr "bob@example.org"; PBool true] ->
                exists y, In y [PStr "bob@example.org"; PInt 1] /\ py_eqb y x = true).
Proof.
  apply (list_set_drops_duplicates
           [PStr "bob@example.org"; PInt 1; PStr "bob@example.org"; PBool true]
           [PStr "bob@example.org"; PInt 1]).
  reflexivity.
Defined.

(** ** Recording the activity *)

(** The run of [record_kudos_email_activity], case by case on the profiles
    whose handle is exactly the given one. *)
Lemma record_kudos_email_activity_run (E : Externals) (k : KudosTransfer.t)
  (github_handle : pyval) (event_name : string) (w : World) :
  text_or_none github_handle = true ->
  exists acts t,
    record_kudos_email_activity E k github_handle event_name w
    = (Ok tt, {| db := set_activities acts (db w); trace := t |})
    /\ messages_of t = messages_of (trace w)
    /\ (filter (fun p => db_exact (Profile.handle p) github_handle) (profiles (db w)) = [] ->
        acts = activities (db w))
    /\ (acts = activities (db w)
        \/ exists a, acts = activities (db w) ++ [a]
                     /\ Activity.activity_type a = event_name
                     /\ Activity.kudos_transfer a = KudosTransfer.pk k).
Proof.
  intros Htext. destruct (profiles_iexact_text E github_handle (db w) Htext) as [found Hfound].
  unfold record_kudos_email_activity. cbv zeta.
  unfold bind at 1, try_except at 1. run.
  destruct (filter (fun p => db_exact (Profile.handle p) github_handle) (profiles (db w)))
    as [|p [|q rest]] eqn:Hrows; cbn [qs_get]; run.
  - unfold log. run. cbn. destruct (db w) eqn:Hd.
    eexists _, _. split; [unfold set_activities; cbn; reflexivity|].
    split; [reflexivity|]. split; [intros _; reflexivity | now left].
  - cbn. destruct (bounty E k); unfold log, try_except, Activity_create; run; cbn;
      (eexists _, _; split; [reflexivity|]; split; [reflexivity|];
       split; [discriminate|]; right; eexists; split; [reflexivity|]; split; reflexivity).
  - rewrite Hfound. run.
    cbn -[qs_first]. destruct (bounty E k); unfold log, try_except, Activity_create; run;
      cbn -[qs_first];
      (eexists _, _; split; [reflexivity|]; split; [reflexivity|];
       split; [discriminate|]; right; eexists; split; [reflexivity|]; split; reflexivity).
Qed.

(** X11. For a handle that is a text (or [None]),
    [record_kudos_email_activity] never raises.  It leaves every table but
    the activities as it is and issues no message to the user; it adds at
    most one activity row, of the given event and for the given transfer, and
    none when no profile has exactly the given handle. *)
Theorem record_kudos_email_activity_safe (E : Externals) (k : KudosTransfer.t)
  (github_handle : pyval) (event_name : string) (w : World) :
  text_or_none github_handle = true ->
  exists w',
    record_kudos_email_activity E k github_handle event_name w = (Ok tt, w')
    /\ kudos_transfers (db w') = kudos_transfers (db w)
    /\ profiles (db w') = profiles (db w)
    /\ tokens (db w') = tokens (db w)
    /\ messages_of (trace w') = messages_of (trace w)
    /\ (activities (db w') = activities (db w)
        \/ exists a, activities (db w') = activities (db w) ++ [a]
                     /\ Activity.activity_type a = event_name
                     /\ Activity.kudos_transfer a = KudosTransfer.pk k)
    /\ ((forall p, In p (profiles (db w)) -> db_exact (Profile.handle p) github_handle = false) ->
        activities (db w') = activities (db w)).
Proof.
  intros Htext.
  destruct (record_kudos_email_activity_run E k github_handle event_name w Htext)
    as [acts [t [Hrun [Hmsg [Hnone Hone]]]]].
  eexists. split; [exact Hrun|]. cbn [db trace set_activities kudos_transfers profiles tokens
                                       activities].
  repeat (split; [reflexivity|]). split; [exact Hmsg|]. split; [exact Hone|].
  intros Hno. apply Hnone. now apply filter_nil.
Qed.

(** The activity of the claimed sample transfer, recorded for a handle that
    two profiles of the sample share up to case and one has exactly. *)
Lemma record_kudos_email_activity_safe_witness :
  exists w',
    record_kudos_email_activity Sample.externals Sample.claimed (PStr "bob") "receive_kudos"
      (Sample.world [Sample.claimed])
    = (Ok tt, w')
    /\ kudos_transfers (db w') = kudos_transfers (db (Sample.world [Sample.claimed]))
    /\ profiles (db w') = profiles (db (Sample.world [Sample.claimed]))
    /\ tokens (db w') = tokens (db (Sample.world [Sample.claimed]))
    /\ messages_of (trace w') = messages_of (trace (Sample.world [Sample.claimed]))
    /\ (activities (db w') = activities (db (Sample.world [Sample.claimed]))
        \/ exists a, activities (db w') = activities (db (Sample.world [Sample.claimed])) ++ [a]
                     /\ Activity.activity_type a = "receive_kudos"
                     /\ Activity.kudos_transfer a = KudosTransfer.pk Sample.claimed)
    /\ ((forall p, In p (profiles (db (Sample.world [Sample.claimed]))) ->
                   db_exact (Profile.handle p) (PStr "bob") = false) ->
        activities (db w') = activities (db (Sample.world [Sample.claimed]))).
Proof.
  apply (record_kudos_email_activity_safe Sample.externals Sample.claimed (PStr "bob")
           "receive_kudos" (Sample.world [Sample.claimed])).
  reflexivity.
Defined.

(** ** Claiming, again *)

Section Local.

Context {L A B : Type}.

Lemma bind_with_local (m : M A) (k : A -> St (L * World) B) (l : L) (w : World) :
  bind (with_local m) k (l, w) =
    match m w with
    | (Ok a, w') => k a (l, w')
    | (Raise e, w') => (Raise e, (l, w'))
    end.
Proof. unfold bind, with_local. simpl. destruct (m w) as [[a|e] w']; reflexivity. Qed.

Lemma bind_get_local (k : L -> St (L * World) B) (l : L) (w : World) :
  bind get_local k (l, w) = k l (l, w).
Proof. reflexivity. Qed.

Lemma bind_assign (f : L -> L) (k : unit -> St (L * World) B) (l : L) (w : World) :
  bind (assign f) k (l, w) = k tt (f l, w).
Proof. reflexivity. Qed.

End Local.

(** The mutation block of [receive] when every field of the claim form is
    there and the action log answers. *)
Lemma claim_mutation_run (E : Externals) (request : Request.t) (k : KudosTransfer.t)
  (w : World) (rt fwd sa : string) :
  assoc "save_addr" (Request.GET request) = Some sa ->
  assoc "receive_txid" (Request.GET request) = Some rt ->
  assoc "forwarding_address" (Request.GET request) = Some fwd ->
  text_or_none (KudosTransfer.username k) = true ->
  KudosTransfer_columns E (claimed_record E rt fwd k) = Ok tt ->
  record_user_action E (KudosTransfer.from_username k) "receive_kudos"
    (claimed_record E rt fwd k) = Ok tt ->
  exists w',
    claim_mutation E request (k, w) = (Ok tt, (claimed_record E rt fwd k, w'))
    /\ kudos_transfers (db w')
       = save_row KudosTransfer.pk (claimed_record E rt fwd k) (kudos_transfers (db w))
    /\ profiles (db w') = profiles_after_claim E sa fwd k w
    /\ tokens (db w') = tokens (db w)
    /\ messages_of (trace w')
       = ("success", "This kudos has been received") :: messages_of (trace w).
Proof.
  intros Hsa Hrt Hfwd Htext Hcol Haction.
  unfold claim_mutation, profiles_after_claim. cbv zeta.
  unfold GET_getitem. rewrite Hsa, Hrt, Hfwd. rewrite bind_lift_ok.
  match goal with
  | |- context [bind (if _ then _ else _) ?K (k, w)] => set (rest := K)
  end.
  assert (Hrest : forall w0 : World,
             exists w',
               rest tt (k, w0) = (Ok tt, (claimed_record E rt fwd k, w'))
               /\ kudos_transfers (db w')
                  = save_row KudosTransfer.pk (claimed_record E rt fwd k) (kudos_transfers (db w0))
               /\ profiles (db w') = profiles (db w0)
               /\ tokens (db w') = tokens (db w0)
               /\ messages_of (trace w')
                  = ("success", "This kudos has been received") :: messages_of (trace w0)).
  { intros w0. unfold rest.
    rewrite bind_lift_ok, bind_assign, bind_lift_ok, !bind_assign, bind_get_local.
    fold (claimed_record E rt fwd k).
    rewrite bind_with_local, (KudosTransfer_save_accepted E _ _ Hcol).
    rewrite bind_with_local. unfold user_action. rewrite bind_emit.
    replace (KudosTransfer.from_username (claimed_record E rt fwd k))
      with (KudosTransfer.from_username k) by reflexivity.
    unfold lift at 1. rewrite Haction.
    rewrite bind_with_local.
    match goal with |- context [record_kudos_email_activity E ?K ?H ?N ?W] =>
      destruct (record_kudos_email_activity_run E K H N W Htext)
        as [acts [t [Hrun [Hmsg _]]]] end.
    rewrite Hrun. unfold with_local, message, emit. cbn [snd fst db trace].
    eexists. split; [reflexivity|]. cbn. repeat split; try reflexivity.
    now rewrite Hmsg. }
  destruct (truthy (PStr sa)) eqn:Htruthy.
  - rewrite bind_assoc, bind_get_local, bind_assoc, bind_with_local.
    destruct (get_profile_returns E (KudosTransfer.username k) w Htext) as [r [t [Hr Hmsg]]].
    rewrite Hr. cbn [fst].
    destruct r as [p|].
    + rewrite bind_assoc, bind_lift_ok, bind_with_local. unfold Profile_save.
      rewrite bind_get_db, bind_put_db. unfold emit at 1. cbn [db trace].
      match goal with |- context [rest tt (k, ?W)] => destruct (Hrest W)
        as [w' [Hrun [Hk [Hp [Ht Hm]]]]] end.
      exists w'. split; [exact Hrun|]. cbn in Hk, Hp, Ht, Hm.
      repeat split; try assumption. now rewrite Hm, Hmsg.
    + rewrite bind_ret.
      match goal with |- context [rest tt (k, ?W)] => destruct (Hrest W)
        as [w' [Hrun [Hk [Hp [Ht Hm]]]]] end.
      exists w'. split; [exact Hrun|]. cbn in Hk, Hp, Ht, Hm.
      repeat split; try assumption. now rewrite Hm, Hmsg.
  - rewrite bind_ret. destruct (Hrest w) as [w' [Hrun H]]. exists w'. split; assumption.
Qed.

(** X12. Without a [receive_txid] in its query, a [receive] request only
    reads: whatever the record, the caller and the outcome, the database is
    as it was. *)
Theorem receive_reads_without_receive_txid (E : Externals) (request : Request.t)
  (key txid network : string) (w : World) :
  truthy (GET_get (Request.GET request) "receive_txid") = false ->
  db (snd (receive E request key txid network w)) = db w.
Proof.
  intros Hget.
  destruct (qs_first KudosTransfer.pk (claim_candidates key txid network (db w)))
    as [k|] eqn:Hk.
  - rewrite (receive_resolved E request key txid network w k Hk).
    pose proof (claim_checks_quiet E request k (after_query w)) as [Hdb _].
    unfold bind at 1.
    destruct (claim_checks E request k (after_query w)) as [[[a nm]|e] w1];
      simpl in Hdb; [|exact Hdb].
    cbv zeta. cbn [fst snd]. rewrite Hget. cbn [andb negb].
    destruct (negb (User.is_authenticated (Request.user request))
              || User.is_authenticated (Request.user request)
                 && negb (match getattr_profile request with
                          | Some _ => true | None => false end));
      [exact Hdb|].
    destruct (truthy (KudosTransfer.receive_txid k)); [unfold message; run; exact Hdb|].
    destruct (negb (truthy a)); [unfold message; run; exact Hdb|].
    rewrite Bool.andb_true_r.
    destruct nm; [unfold message; run; exact Hdb | run; exact Hdb].
  - unfold receive. run. rewrite Hk. reflexivity.
Qed.

Lemma receive_reads_without_receive_txid_witness :
  db (snd (receive Sample.externals
             (Sample.request Sample.user_bob "10.0.0.2" None [("save_addr", "1")])
             "k-recipient" "0xdeadbeef" "mainnet" (Sample.world [Sample.funded])))
  = db (Sample.world [Sample.funded]).
Proof.
  apply receive_reads_without_receive_txid. reflexivity.
Defined.

(** X13. A logged-in caller who is neither the recipient nor the sender of
    an unclaimed transfer (and the transfer does not trust its URL) gets the
    page of the record as stored and one error message, and nothing is
    written, also when the query carries the fields of a claim. *)
Theorem receive_wrong_user (E : Externals) (request : Request.t)
  (key txid network : string) (w w1 : World) (k : KudosTransfer.t)
  (is_authed : pyval) (not_mined_yet : bool) :
  receive_resolves (db w) key txid network k ->
  claim_checks E request k (after_query w) = (Ok (is_authed, not_mined_yet), w1) ->
  logged_in_with_profile request ->
  truthy (KudosTransfer.receive_txid k) = false ->
  truthy is_authed = false ->
  receive E request key txid network w =
    (Ok (receive_page E request key k is_authed not_mined_yet),
     {| db := db w; trace := EvMessage "error" (wrong_user_text E k request) :: trace w1 |})
  /\ messages_of (EvMessage "error" (wrong_user_text E k request) :: trace w1)
     = ("error", wrong_user_text E k request) :: messages_of (trace w).
Proof.
  intros Hk Hchecks Hin Hunset Hauth.
  pose proof (claim_checks_quiet E request k (after_query w)) as [Hdb Hmsg].
  rewrite Hchecks in Hdb, Hmsg. simpl in Hdb, Hmsg.
  rewrite (receive_resolved E request key txid network w k Hk).
  erewrite bind_ok by exact Hchecks. cbv zeta. cbn [fst snd].
  rewrite (login_check_passes request Hin), Hunset, Hauth. cbn [negb].
  unfold message. run. rewrite Hdb. split; [reflexivity|].
  simpl. now rewrite Hmsg.
Qed.

(** A third user opens the claim link of the funded sample and submits the
    form. *)
Lemma receive_wrong_user_witness :
  let request := Sample.request Scenario.user_carol "10.0.0.3" None (Scenario.claim_query "1") in
  let w := Sample.world [Sample.funded] in
  let w1 := {| db := db w;
               trace := [EvChainQuery (PStr "mainnet") (PStr "0xabc"); EvQuery "KudosTransfer"] |} in
  receive Sample.externals request "k-recipient" "0xdeadbeef" "mainnet" w =
    (Ok (receive_page Sample.externals request "k-recipient" Sample.funded (PBool false) false),
     {| db := db w;
        trace := EvMessage "error" (wrong_user_text Sample.externals Sample.funded request)
                 :: trace w1 |})
  /\ messages_of (EvMessage "error" (wrong_user_text Sample.externals Sample.funded request)
                    :: trace w1)
     = ("error", wrong_user_text Sample.externals Sample.funded request)
       :: messages_of (trace w).
Proof.
  cbv zeta.
  apply (receive_wrong_user Sample.externals
           (Sample.request Scenario.user_carol "10.0.0.3" None (Scenario.claim_query "1"))
           "k-recipient" "0xdeadbeef" "mainnet" (Sample.world [Sample.funded])).
  - reflexivity.
  - reflexivity.
  - split; [reflexivity | eexists; reflexivity].
  - reflexivity.
  - reflexivity.
Defined.

(** X14. The claim.  For a logged-in, authorized caller on an unclaimed
    record whose stored recipient name is a text, with the claim form filled
    in (a non-empty [receive_txid], a [forwarding_address], a [save_addr]
    field), the database taking the record with these values and the action
    log answering, [receive] saves the record with the receive_txid and the
    address of the form and the current time, issues the one message of
    success and renders the page of the saved record; whether the funding is
    mined or not makes no difference.  The payout address of the profile found for the
    recipient's stored name is overwritten when [save_addr] is non-empty, and
    no profile changes otherwise.  After that the record counts as received. *)
Theorem receive_claims (E : Externals) (request : Request.t)
  (key txid network : string) (w w1 : World) (k : KudosTransfer.t)
  (is_authed : pyval) (not_mined_yet : bool) (rt fwd sa : string) :
  receive_resolves (db w) key txid network k ->
  claim_checks E request k (after_query w) = (Ok (is_authed, not_mined_yet), w1) ->
  logged_in_with_profile request ->
  truthy (KudosTransfer.receive_txid k) = false ->
  truthy is_authed = true ->
  assoc "receive_txid" (Request.GET request) = Some rt ->
  rt <> "" ->
  assoc "forwarding_address" (Request.GET request) = Some fwd ->
  assoc "save_addr" (Request.GET request) = Some sa ->
  text_or_none (KudosTransfer.username k) = true ->
  KudosTransfer_columns E (claimed_record E rt fwd k) = Ok tt ->
  record_user_action E (KudosTransfer.from_username k) "receive_kudos"
    (claimed_record E rt fwd k) = Ok tt ->
  exists w',
    receive E request key txid network w
    = (Ok (receive_page E request key (claimed_record E rt fwd k) is_authed not_mined_yet), w')
    /\ kudos_transfers (db w')
       = save_row KudosTransfer.pk (claimed_record E rt fwd k) (kudos_transfers (db w))
    /\ In (claimed_record E rt fwd k) (kudos_transfers (db w'))
    /\ truthy (KudosTransfer.receive_txid (claimed_record E rt fwd k)) = true
    /\ profiles (db w') = profiles_after_claim E sa fwd k w1
    /\ messages_of (trace w')
       = ("success", "This kudos has been received") :: messages_of (trace w).
Proof.
  intros Hk Hchecks Hin Hunset Hauth Hrt Hne Hfwd Hsa Htext Hcol Haction.
  pose proof (claim_checks_quiet E request k (after_query w)) as [Hdb Hmsg].
  rewrite Hchecks in Hdb, Hmsg. simpl in Hdb, Hmsg.
  assert (Hget : truthy (GET_get (Request.GET request) "receive_txid") = true).
  { unfold GET_get. rewrite Hrt. simpl. destruct (String.eqb_spec rt ""); [contradiction|].
    reflexivity. }
  destruct (claim_mutation_run E request k w1 rt fwd sa Hsa Hrt Hfwd Htext Hcol Haction)
    as [w2 [Hmut [Hrows [Hprof [_ Hm]]]]].
  rewrite (receive_resolved E request key txid network w k Hk).
  erewrite bind_ok by exact Hchecks. cbv zeta. cbn [fst snd].
  rewrite (login_check_passes request Hin), Hunset, Hauth, Hget.
  rewrite Bool.andb_false_r. cbn [negb andb].
  unfold run_local, try_except. rewrite bind_assoc. unfold bind at 1.
  rewrite Hmut. run.
  eexists. split; [reflexivity|]. cbn [db trace].
  assert (Hstored : In k (kudos_transfers (db w))).
  { unfold receive_resolves in Hk. apply qs_first_least in Hk. destruct Hk as [Hc _].
    unfold claim_candidates in Hc. apply filter_In in Hc. destruct Hc as [Hc _].
    now apply filter_In in Hc. }
  rewrite Hrows, Hdb. split; [reflexivity|]. split.
  - apply save_row_In with (x := k); [exact Hstored | reflexivity].
  - split; [|split; [exact Hprof | now rewrite Hm, Hmsg]].
    simpl. destruct (String.eqb_spec rt ""); [contradiction | reflexivity].
Qed.

(** The recipient of the funded sample claims it and asks for the address
    to be saved; the stored name carries the sigil, so no profile is found
    for it and the profiles stay as they are. *)
Lemma receive_claims_witness :
  let request := Sample.request Sample.user_bob "10.0.0.2" None (Scenario.claim_query "1") in
  let w := Sample.world [Sample.funded] in
  let w1 := {| db := db w;
               trace := [EvChainQuery (PStr "mainnet") (PStr "0xabc"); EvQuery "KudosTransfer"] |} in
  let claimed := claimed_record Sample.externals "0xfeed" "0xb0b" Sample.funded in
  exists w',
    receive Sample.externals request "k-recipient" "0xdeadbeef" "mainnet" w
    = (Ok (receive_page Sample.externals request "k-recipient" claimed (PBool true) false), w')
    /\ kudos_transfers (db w') = save_row KudosTransfer.pk claimed (kudos_transfers (db w))
    /\ In claimed (kudos_transfers (db w'))
    /\ truthy (KudosTransfer.receive_txid claimed) = true
    /\ profiles (db w') = profiles_after_claim Sample.externals "1" "0xb0b" Sample.funded w1
    /\ messages_of (trace w')
       = ("success", "This kudos has been received") :: messages_of (trace w).
Proof.
  cbv zeta.
  apply (receive_claims Sample.externals
           (Sample.request Sample.user_bob "10.0.0.2" None (Scenario.claim_query "1"))
           "k-recipient" "0xdeadbeef" "mainnet" (Sample.world [Sample.funded])).
  - reflexivity.
  - reflexivity.
  - split; [reflexivity | eexists; reflexivity].
  - reflexivity.
  - reflexivity.
  - reflexivity.
  - discriminate.
  - reflexivity.
  - reflexivity.
  - reflexivity.
  - reflexivity.
  - reflexivity.
Defined.

Example receive_claims_keeps_profiles :
  profiles_after_claim Sample.externals "1" "0xb0b" Sample.funded (Sample.world [Sample.funded])
  = [Sample.alice; Sample.bob; Sample.bob_again].
Proof. reflexivity. Qed.

(** ** The detail view, again *)

Lemma quiet_for_each {A B : Type} (f : A -> M B) (l : list A) :
  (forall x, quiet (f x)) -> quiet (for_each f l).
Proof.
  intros Hf. induction l as [|x rest IH]; simpl; [apply quiet_ret|].
  apply quiet_bind; [apply Hf|]. intros y.
  apply quiet_bind; [exact IH|]. intros ys. apply quiet_ret.
Qed.

Lemma quiet_get_Token_or_404 (v : pyval) : quiet (get_Token_or_404 v).
Proof.
  unfold get_Token_or_404. apply quiet_try_except; [apply quiet_Token_get_pk|].
  intros e. destruct e; auto with quiet.
Qed.

Lemma quiet_details_render (E : Externals) (kudos : Token.t) : quiet (details_render E kudos).
Proof.
  unfold details_render.
  apply quiet_bind; [quiet_steps|]. intros _.
  apply quiet_bind; [quiet_steps|]. intros d.
  apply quiet_bind.
  - apply quiet_for_each. intros rk.
    destruct (is_address E (Token.owner_address rk)); quiet_steps.
  - intros owner_addresses. quiet_steps.
Qed.

(** X15. The detail view only reads: whatever the id, the state of the
    tables and the outcome, the database is as it was and no message has been
    issued to the user. *)
Theorem details_reads_only (E : Externals) (request : Request.t) (kudos_id name : string)
  (w : World) :
  db (snd (details E request kudos_id name w)) = db w
  /\ messages_of (trace (snd (details E request kudos_id name w))) = messages_of (trace w).
Proof.
  revert w. change (quiet (details E request kudos_id name)).
  unfold details. destruct (re_match_digits kudos_id); [|apply quiet_raise].
  apply quiet_bind; [apply quiet_get_Token_or_404|].
  intros kudos. apply quiet_details_render.
Qed.

(** X16. An id that reads as a number which is the primary key of no token
    gets [Http404] from the detail view, after the one query. *)
Theorem details_unknown_id (E : Externals) (request : Request.t) (kudos_id name : string)
  (w : World) (z : Z) :
  re_match_digits kudos_id <> None ->
  py_int (PStr kudos_id) = Ok z ->
  (forall k, In k (tokens (db w)) -> Token.pk k <> z) ->
  details E request kudos_id name w
  = (Raise Http404, {| db := db w; trace := EvQuery "Token" :: trace w |}).
Proof.
  intros Hm Hz Hnone. unfold details.
  destruct (re_match_digits kudos_id); [|contradiction].
  assert (Hrows : filter (fun k => Token.pk k =? z) (tokens (db w)) = []).
  { apply filter_nil. intros k Hin. apply Z.eqb_neq. now apply Hnone. }
  erewrite bind_raise; [reflexivity|].
  unfold get_Token_or_404, try_except, Token_get_pk. rewrite Hz. run. rewrite Hrows.
  reflexivity.
Qed.

Lemma details_unknown_id_witness :
  details Sample.externals (Sample.request Sample.anonymous "10.0.0.9" None [])
          "7" "pythonista" (Sample.world [])
  = (Raise Http404,
     {| db := db (Sample.world []); trace := EvQuery "Token" :: trace (Sample.world []) |}).
Proof.
  apply (details_unknown_id Sample.externals
           (Sample.request Sample.anonymous "10.0.0.9" None []) "7" "pythonista"
           (Sample.world []) 7).
  - discriminate.
  - reflexivity.
  - intros k [<-|[<-|[]]]; discriminate.
Defined.

(** X17. When the token of the id exists but the row it is cloned from is
    not to be found on its contract, the detail view does not answer
    [Http404] and renders nothing: the lookup of that row raises
    [DoesNotExist]; and it raises [MultipleObjectsReturned] when several rows
    qualify. *)
Theorem details_without_gen0 (E : Externals) (request : Request.t) (kudos_id name : string)
  (w : World) (T : Token.t) :
  re_match_digits kudos_id <> None ->
  resolves_to (db w) kudos_id T ->
  (forall a, is_address E a = true -> exists v, to_normalized_address E a = Ok v) ->
  (filter (cloned_from T) (tokens (db w)) = [] ->
   fst (details E request kudos_id name w) = Raise (DoesNotExist "Token"))
  /\ ((2 <= List.length (filter (cloned_from T) (tokens (db w))))%nat ->
      fst (details E request kudos_id name w) = Raise (MultipleObjectsReturned "Token")).
Proof.
  intros Hm HT Hnorm.
  unfold details. destruct (re_match_digits kudos_id); [|contradiction].
  erewrite bind_ok by (apply get_Token_or_404_resolves; exact HT).
  unfold details_render. run.
  destruct (for_each_pure
              (fun rk => if is_address E (Token.owner_address rk)
                         then lift (to_normalized_address E (Token.owner_address rk))
                         else ret PNone)
              (filter (fun rk =>
                         db_exact (Token.name rk) (Token.name T)
                         && db_exact (Token.num_clones_allowed rk) (PInt 0)
                         && db_exact (Contract.network (Token.contract rk)) (KUDOS_NETWORK E))
                      (tokens (db w)))) as [addrs Haddrs].
  { intros rk. destruct (is_address E (Token.owner_address rk)) eqn:Ha.
    - destruct (Hnorm _ Ha) as [v Hv]. exists v. intros w0. unfold lift. now rewrite Hv.
    - exists PNone. reflexivity. }
  erewrite bind_ok by apply Haddrs. run.
  split.
  - intros Hnone. rewrite Hnone. reflexivity.
  - intros Hmany.
    destruct (filter (cloned_from T) (tokens (db w))) as [|a [|b rest]];
      simpl in Hmany; try lia. reflexivity.
Qed.

Lemma details_without_gen0_witness :
  (filter (cloned_from Sample.clone) (tokens (db Scenario.orphan_world)) = [] ->
   fst (details Sample.externals (Sample.request Sample.anonymous "10.0.0.9" None [])
          "99" "pythonista" Scenario.orphan_world)
   = Raise (DoesNotExist "Token"))
  /\ ((2 <= List.length (filter (cloned_from Sample.clone)
                           (tokens (db Scenario.orphan_world))))%nat ->
      fst (details Sample.externals (Sample.request Sample.anonymous "10.0.0.9" None [])
             "99" "pythonista" Scenario.orphan_world)
      = Raise (MultipleObjectsReturned "Token")).
Proof.
  apply (details_without_gen0 Sample.externals
           (Sample.request Sample.anonymous "10.0.0.9" None []) "99" "pythonista"
           Scenario.orphan_world Sample.clone).
  - discriminate.
  - exists 99. split; reflexivity.
  - intros a _. exists a. reflexivity.
Defined.

Example details_orphan_clone :
  fst (details Sample.externals (Sample.request Sample.anonymous "10.0.0.9" None [])
         "99" "pythonista" Scenario.orphan_world)
  = Raise (DoesNotExist "Token").
Proof. reflexivity. Qed.

Lemma for_each_In {A B : Type} (f : A -> M B) (l : list A) (w w' : World) (ys : list B) :
  for_each f l w = (Ok ys, w') ->
  forall y, In y ys -> exists x w0 w0', In x l /\ f x w0 = (Ok y, w0').
Proof.
  revert w ys. induction l as [|x rest IH]; simpl; intros w ys H y Hy.
  - inversion H; subst. destruct Hy.
  - unfold bind in H. destruct (f x w) as [[b|e] w1] eqn:Hfx; [|discriminate].
    destruct (for_each f rest w1) as [[bs|e] w2] eqn:Hrest; [|discriminate].
    inversion H; subst. destruct Hy as [<-|Hy].
    + exists x, w, w1. split; [now left | exact Hfx].
    + destruct (IH w1 bs Hrest y Hy) as [x' [w0 [w0' [Hin Hf]]]].
      exists x', w0, w0'. split; [now right | exact Hf].
Qed.

Lemma In_firstn {A : Type} (n : nat) (l : list A) (x : A) : In x (firstn n l) -> In x l.
Proof.
  revert l. induction n as [|n IH]; intros [|a l]; simpl; try tauto.
  intros [->|H]; [now left | right; now apply IH].
Qed.

(** X18. Whenever the detail view renders, the related profiles of the
    page are at most twenty stored profiles, and each of them has as its
    payout address the normalized owner address of a token with the name of
    the token shown, clone allowance 0 and the network of the application. *)
Theorem details_related_profiles (E : Externals) (request : Request.t)
  (kudos_id name : string) (w w' : World) (response : Response) :
  details E request kudos_id name w = (Ok response, w') ->
  exists context shown related,
    response = TemplateResponse "kudos_details.html" context
    /\ assoc "kudos" context = Some (CToken shown)
    /\ assoc "related_profiles" context = Some (CProfiles related)
    /\ (List.length related <= 20)%nat
    /\ forall p, In p related ->
         In p (profiles (db w))
         /\ exists rk v,
             In rk (tokens (db w))
             /\ related_clone E shown rk = true
             /\ is_address E (Token.owner_address rk) = true
             /\ to_normalized_address E (Token.owner_address rk) = Ok v
             /\ json_eqb (Profile.preferred_payout_address p) v = true.
Proof.
  intros H. unfold details in H.
  destruct (re_match_digits kudos_id); [|discriminate].
  unfold bind at 1 in H.
  pose proof (quiet_get_Token_or_404 (PStr kudos_id) w) as [Hdb1 _].
  destruct (get_Token_or_404 (PStr kudos_id) w) as [[kudos|e] w1]; [|discriminate].
  simpl in Hdb1. unfold details_render in H. autorewrite with run in H. cbn [db trace] in H.
  unfold bind at 1 in H.
  match type of H with
  | context [for_each ?F ?L ?W] =>
      pose proof (quiet_for_each F L) as Hq;
      destruct (for_each F L W) as [[addrs|e] w2] eqn:Hfe; [|discriminate]
  end.
  match type of Hq with
  | (?P -> _) => assert (Hf : P)
  end.
  { intros rk. destruct (is_address E (Token.owner_address rk)); quiet_steps. }
  specialize (Hq Hf). clear Hf.
  match type of Hfe with
  | for_each _ _ ?W = _ => destruct (Hq W) as [Hdb2 _]; rewrite Hfe in Hdb2; simpl in Hdb2
  end.
  autorewrite with run in H. cbn [db trace] in H.
  destruct (qs_get "Token" (filter (cloned_from kudos) (tokens (db w2)))) as [token|e];
    autorewrite with run in H; cbn [db trace] in H; [|discriminate].
  inversion H; subst response w'. clear H.
  eexists _, _, _. split; [reflexivity|]. split; [reflexivity|]. split; [reflexivity|].
  split; [exact (firstn_le_length 20 _)|].
  intros p Hp. apply (In_firstn 20) in Hp. apply filter_In in Hp. destruct Hp as [Hin Hsel].
  rewrite Hdb2, Hdb1 in Hin. split; [exact Hin|].
  unfold db_in in Hsel. apply existsb_exists in Hsel. destruct Hsel as [v [Hv Hsel]].
  apply andb_prop in Hsel. destruct Hsel as [Hnn Heq].
  destruct (for_each_In _ _ _ _ _ Hfe v Hv) as [rk [w0 [w0' [Hrk Hfrk]]]].
  apply filter_In in Hrk. destruct Hrk as [Hrk Hrel]. rewrite Hdb1 in Hrk.
  exists rk, v. split; [exact Hrk|]. split; [exact Hrel|].
  destruct (is_address E (Token.owner_address rk)) eqn:Haddr.
  - split; [reflexivity|]. unfold lift in Hfrk.
    destruct (to_normalized_address E (Token.owner_address rk)) as [v'|e];
      inversion Hfrk; subst. split; [reflexivity | exact Heq].
  - inversion Hfrk; subst. discriminate.
Qed.

Lemma details_related_profiles_witness :
  exists context shown related,
    TemplateResponse "kudos_details.html"
      [ ("is_outside", CVal (PBool true)); ("active", CVal (PStr "details"));
        ("title", CVal (PStr "pythonista")); ("card_title", CVal (PStr "pythonista"));
        ("card_desc", CVal (PStr "Zen"));
        ("avatar_url", CVal (PStr "/static/v2/images/kudos/token.svg"));
        ("kudos",
          CToken (Token.set_num_gen0_clones_allowed (PInt 5)
                    (Token.set_num_clones_in_wild (PInt 3) Sample.clone)));
        ("related_profiles", CProfiles [Sample.alice]) ]
    = TemplateResponse "kudos_details.html" context
    /\ assoc "kudos" context = Some (CToken shown)
    /\ assoc "related_profiles" context = Some (CProfiles related)
    /\ (List.length related <= 20)%nat
    /\ forall p, In p related ->
         In p (profiles (db (Sample.world [])))
         /\ exists rk v,
             In rk (tokens (db (Sample.world [])))
             /\ related_clone Sample.externals shown rk = true
             /\ is_address Sample.externals (Token.owner_address rk) = true
             /\ to_normalized_address Sample.externals (Token.owner_address rk) = Ok v
             /\ json_eqb (Profile.preferred_payout_address p) v = true.
Proof.
  apply (details_related_profiles Sample.externals
           (Sample.request Sample.anonymous "10.0.0.9" None []) "99" "pythonista"
           (Sample.world [])
           {| db := db (Sample.world []);
              trace := [EvQuery "Profile"; EvQuery "Token"; EvQuery "Token"; EvQuery "Token"] |}).
  reflexivity.
Defined.

(** ** The sender's email *)

(** X19. [get_primary_from_email] reads [request.user.profile] before
    anything else: for a user without that attribute (an anonymous user), it
    raises the error of the attribute and answers no address, whatever the
    parameters hold, also when they carry a [fromEmail]. *)
Theorem get_primary_from_email_needs_profile (E : Externals)
  (profile_repr : option Profile.t -> string) (params : pyval) (request : Request.t)
  (w : World) (e : exn) :
  User.profile (Request.user request) = Raise e ->
  get_primary_from_email E profile_repr params request w = (Raise e, w).
Proof.
  intros H. unfold get_primary_from_email, user_profile. cbv zeta.
  rewrite H. reflexivity.
Qed.

Lemma get_primary_from_email_needs_profile_witness :
  get_primary_from_email Sample.externals (fun _ => "profile")
    (PDict [("fromEmail", PStr "someone@example.org")])
    (Sample.request Sample.anonymous "10.0.0.9" None []) (Sample.world [])
  = (Raise (AttributeError "'AnonymousUser' object has no attribute 'profile'"),
     Sample.world []).
Proof.
  apply get_primary_from_email_needs_profile. reflexivity.
Defined.

(** X20. The order of preference of [get_primary_from_email], for a
    logged-in user with a profile whose access token can be read: the
    [fromEmail] of the parameters when it is there and not empty; else the
    email of the account when not empty; else what GitHub answers for the
    access token (or the error it raises) when the token is not empty; else
    [unknown@gitcoin.co].  GitHub is not asked in the first two cases. *)
Theorem get_primary_from_email_preference (E : Externals)
  (profile_repr : option Profile.t -> string) (d : list (string * pyval))
  (request : Request.t) (w : World) (prof : Profile.t) (token : pyval) :
  User.is_authenticated (Request.user request) = true ->
  User.profile (Request.user request) = Ok (Some prof) ->
  get_access_token E prof = Ok token ->
  fst (get_primary_from_email E profile_repr (PDict d) request w) =
    match assoc "fromEmail" d with
    | Some v =>
        if truthy v then Ok v
        else if truthy (User.email (Request.user request))
             then Ok (User.email (Request.user request))
             else if truthy token then get_github_primary_email E token
                  else Ok (PStr "unknown@gitcoin.co")
    | None =>
        if truthy (User.email (Request.user request))
        then Ok (User.email (Request.user request))
        else if truthy token then get_github_primary_email E token
             else Ok (PStr "unknown@gitcoin.co")
    end.
Proof.
  intros Hauth Hprof Htoken.
  unfold get_primary_from_email, user_profile, log. cbv zeta.
  rewrite Hauth, Hprof. run. rewrite Htoken. run.
  unfold py_get, py_getitem.
  destruct (assoc "fromEmail" d) as [v|]; run.
  - destruct (truthy v); [reflexivity|].
    destruct (truthy (User.email (Request.user request))); [reflexivity|].
    destruct (truthy token); [|reflexivity].
    unfold lift. reflexivity.
  - cbn [truthy].
    destruct (truthy (User.email (Request.user request))); [reflexivity|].
    destruct (truthy token); [|reflexivity].
    unfold lift. reflexivity.
Qed.

Lemma get_primary_from_email_preference_witness :
  fst (get_primary_from_email Sample.externals (fun _ => "profile")
         (PDict [("fromEmail", PStr "")])
         (Sample.request Sample.user_alice "10.0.0.1" None []) (Sample.world []))
  = Ok (PStr "alice@example.org").
Proof.
  apply (get_primary_from_email_preference Sample.externals (fun _ => "profile")
           [("fromEmail", PStr "")] (Sample.request Sample.user_alice "10.0.0.1" None [])
           (Sample.world []) Sample.alice (PStr "gho_token")); reflexivity.
Defined.

(** ** The send form and the picture *)

(** X21. [send_2] never answers [Http404] for its token.  Without an [id]
    in the query it renders the send form without a token; with an [id] that
    reads as a number it renders the form with the token of that primary key,
    and without a token when there is none; an [id] that is no number makes
    the lookup raise [ValueError].  In every case it only reads. *)
Theorem send_2_token (gas : pyval) (request : Request.t) (w : World) :
  db (snd (send_2 gas request w)) = db w
  /\ match assoc "id" (Request.GET request) with
     | None =>
         exists context,
           fst (send_2 gas request w) = Ok (TemplateResponse "transaction/send.html" context)
           /\ assoc "kudos" context = Some (CVal PNone)
     | Some s =>
         match int_of_string s with
         | None =>
             fst (send_2 gas request w)
             = Raise (ValueError "invalid literal for int() with base 10")
         | Some z =>
             exists context,
               fst (send_2 gas request w)
               = Ok (TemplateResponse "transaction/send.html" context)
               /\ assoc "kudos" context
                  = Some (match qs_first Token.pk
                                  (filter (fun k => Token.pk k =? z) (tokens (db w))) with
                          | Some k => CToken k
                          | None => CVal PNone
                          end)
               /\ ((forall k, In k (tokens (db w)) -> Token.pk k <> z) ->
                   assoc "kudos" context = Some (CVal PNone))
         end
     end.
Proof.
  unfold send_2, Token_filter_pk_first, GET_get. cbv zeta.
  destruct (assoc "id" (Request.GET request)) as [s|].
  - unfold py_int. destruct (int_of_string s) as [z|]; run.
    + split; [reflexivity|]. eexists. split; [reflexivity|]. split; [reflexivity|].
      intros Hnone. rewrite filter_nil; [reflexivity|].
      intros k Hk. apply Z.eqb_neq. now apply Hnone.
    + split; reflexivity.
  - run. split; [reflexivity|]. eexists. split; reflexivity.
Qed.

(** X22. [image] does not answer [Http404] for an id that is the primary
    key of no token: the lookup raises [DoesNotExist].  [Http404] is the
    answer for a token that has no picture; a token with a picture gets its
    bytes as [image/png]. *)
Theorem image_outcomes (as_img : Token.t -> option string) (request : Request.t)
  (kudos_id name : string) (w : World) (z : Z) :
  py_int (PStr kudos_id) = Ok z ->
  match filter (fun k => Token.pk k =? z) (tokens (db w)) with
  | [] => fst (image as_img request kudos_id name w) = Raise (DoesNotExist "Token")
  | [k] =>
      fst (image as_img request kudos_id name w) =
        match as_img k with
        | None => Raise Http404
        | Some bytes => Ok (HttpResponseOf bytes "image/png")
        end
  | _ => fst (image as_img request kudos_id name w) = Raise (MultipleObjectsReturned "Token")
  end.
Proof.
  intros Hz. unfold image, Token_get_pk. rewrite Hz. run.
  destruct (filter (fun k => Token.pk k =? z) (tokens (db w))) as [|k [|k' rest]];
    cbn [qs_get]; run; try reflexivity.
  destruct (as_img k); reflexivity.
Qed.

Lemma image_outcomes_witness :
  fst (image (fun _ => None) (Sample.request Sample.anonymous "10.0.0.9" None [])
         "7" "pythonista" (Sample.world []))
  = Raise (DoesNotExist "Token").
Proof.
  apply (image_outcomes (fun _ => None) (Sample.request Sample.anonymous "10.0.0.9" None [])
           "7" "pythonista" (Sample.world []) 7).
  reflexivity.
Defined.

(** ** Who may claim *)

(** X23. The authorization [receive] computes.  A transfer that trusts its
    URL authorizes every caller.  Otherwise the caller is authorized exactly
    when their user name is the stored recipient name or the stored sender
    name, all three compared with every [@] removed. *)
Theorem receive_authorization (E : Externals) (request : Request.t) (k : KudosTransfer.t)
  (w w1 : World) (is_authed : pyval) (not_mined_yet : bool) :
  claim_checks E request k w = (Ok (is_authed, not_mined_yet), w1) ->
  (truthy (KudosTransfer.trust_url k) = true -> truthy is_authed = true)
  /\ (truthy (KudosTransfer.trust_url k) = false ->
      forall caller recipient sender,
        User.username (Request.user request) = PStr caller ->
        KudosTransfer.username k = PStr recipient ->
        KudosTransfer.from_username k = PStr sender ->
        truthy is_authed
        = String.eqb (replace_at caller) (replace_at recipient)
          || String.eqb (replace_at caller) (replace_at sender)).
Proof.
  unfold claim_checks. intros H. split.
  - intros Ht. rewrite Ht in H. rewrite bind_ret in H.
    unfold bind in H. destruct (balance_of E k w) as [[b|e] w2]; [|discriminate].
    inversion H; subst. exact Ht.
  - intros Ht caller recipient sender Hc Hr Hs.
    rewrite Ht, Hc, Hr, Hs in H. cbn [str_method] in H.
    autorewrite with run in H.
    unfold bind in H. destruct (balance_of E k w) as [[b|e] w2]; [|discriminate].
    inversion H; subst. unfold py_in, py_eqb. cbn [existsb val_eqb truthy].
    now rewrite Bool.orb_false_r.
Qed.

(** The sender of the funded sample opens the claim link. *)
Lemma receive_authorization_witness :
  (truthy (KudosTransfer.trust_url Sample.funded) = true -> truthy (PBool true) = true)
  /\ (truthy (KudosTransfer.trust_url Sample.funded) = false ->
      forall caller recipient sender,
        User.username (Request.user (Sample.request Sample.user_alice "10.0.0.1" None []))
        = PStr caller ->
        KudosTransfer.username Sample.funded = PStr recipient ->
        KudosTransfer.from_username Sample.funded = PStr sender ->
        truthy (PBool true)
        = String.eqb (replace_at caller) (replace_at recipient)
          || String.eqb (replace_at caller) (replace_at sender)).
Proof.
  apply (receive_authorization Sample.externals
           (Sample.request Sample.user_alice "10.0.0.1" None []) Sample.funded
           (Sample.world [Sample.funded])
           {| db := db (Sample.world [Sample.funded]);
              trace := [EvChainQuery (PStr "mainnet") (PStr "0xabc")] |}
           (PBool true) false).
  reflexivity.
Defined.
